(** * clipdeck/campaign-service: campaign lifecycle and membership

    A shallow embedding of [src/services/campaignService.ts] (which also
    holds the participant service), [src/services/waitlistService.ts] and
    [src/events/handlers.ts], and the properties of the specification
    settled against it.

    Conventions of the embedding
    - identifiers and user ids are strings, as in the source;
    - amounts, counters, capacities and timestamps are integers ([Z]);
    - every Prisma table is a list of rows in insertion order; a unique key
      is enforced by [create] (error P2002), [update]/[delete] on a missing
      row raise P2025, [updateMany]/[deleteMany] never raise; the foreign
      keys and cascades of the schema, which is not part of [src/], are not
      modelled, and the statements about child rows are made for campaigns
      that exist;
    - the service functions are written in a state-and-exception monad whose
      state is NOT rolled back when an exception is raised (the source uses
      no transactions);
    - what lives outside [src/] is a parameter ([Env]): the column defaults
      of the Prisma schema, and the two infrastructure calls that the
      auto-close sweep guards with try/catch ([campaign.update] and
      [publisher.publish]) may fail as the environment decides. *)

From Stdlib Require Import ZArith List String Ascii Bool Arith Lia.
From Stdlib Require Import Permutation Sorted.
From Stdlib Require Import Floats.SpecFloat.
Import ListNotations.

Local Open Scope string_scope.
Local Open Scope Z_scope.

(** ** JavaScript strings (ASCII fragment) *)

Module JsString.

(** [String.prototype.toLowerCase] on one code unit.  Strings are modelled
    over ASCII; outside [A-Z] the code unit is kept. *)
Definition lowerAscii (c : ascii) : ascii :=
  let n := nat_of_ascii c in
  if (Nat.leb 65 n && Nat.leb n 90)%bool then ascii_of_nat (n + 32) else c.

Fixpoint toLowerCase (s : string) : string :=
  match s with
  | EmptyString => EmptyString
  | String c r => String (lowerAscii c) (toLowerCase r)
  end.

Fixpoint toUpperCase (s : string) : string :=
  match s with
  | EmptyString => EmptyString
  | String c r =>
      let n := nat_of_ascii c in
      String (if (Nat.leb 97 n && Nat.leb n 122)%bool
              then ascii_of_nat (n - 32) else c) (toUpperCase r)
  end.

(** [s.includes(sub)]: [sub] occurs in [s] as a contiguous substring. *)
Fixpoint includes (s sub : string) : bool :=
  match s with
  | EmptyString => String.prefix sub EmptyString
  | String _ r => String.prefix sub s || includes r sub
  end.

End JsString.

(** ** Errors ([lib/errors]) *)

Inductive ServiceError : Type :=
| NotFound (msg : string)
| BadRequest (msg : string)
| Forbidden (msg : string)
| Conflict (msg : string)
| PrismaError (code : string)
| PublishError.

Definition notFound := NotFound.
Definition badRequest := BadRequest.
Definition forbidden := Forbidden.
Definition conflict := Conflict.

Definition isBadRequest (e : ServiceError) : bool :=
  match e with BadRequest _ => true | _ => false end.

Definition isForbidden (e : ServiceError) : bool :=
  match e with Forbidden _ => true | _ => false end.

(** ** Enumerations of the data model *)

Inductive Platform : Type := TIKTOK | INSTAGRAM | YOUTUBE | TWITTER.

Inductive CampaignStatus : Type := DRAFT | ACTIVE | ENDED.

Inductive CampaignType : Type := AUTO_JOIN | WAITLIST.

Inductive ParticipantRole : Type := CREATOR | ADMIN | MEMBER | PENDING.

(** Status of a waitlist response and of a campaign application. *)
Inductive ReviewStatus : Type := RS_PENDING | APPROVED | REJECTED.

Inductive EndReason : Type := MANUAL | DATE_REACHED.
Inductive JoinMethod : Type := DIRECT | VIA_WAITLIST.
Inductive LeftReason : Type := KICKED | BANNED.

Definition CampaignStatus_eqb (a b : CampaignStatus) : bool :=
  match a, b with
  | DRAFT, DRAFT | ACTIVE, ACTIVE | ENDED, ENDED => true
  | _, _ => false
  end.

Definition CampaignType_eqb (a b : CampaignType) : bool :=
  match a, b with
  | AUTO_JOIN, AUTO_JOIN | WAITLIST, WAITLIST => true
  | _, _ => false
  end.

Definition ParticipantRole_eqb (a b : ParticipantRole) : bool :=
  match a, b with
  | CREATOR, CREATOR | ADMIN, ADMIN | MEMBER, MEMBER | PENDING, PENDING => true
  | _, _ => false
  end.

Definition ReviewStatus_eqb (a b : ReviewStatus) : bool :=
  match a, b with
  | RS_PENDING, RS_PENDING | APPROVED, APPROVED | REJECTED, REJECTED => true
  | _, _ => false
  end.

(** ** [mapPlatforms] *)

(** The body of the arrow function mapped over [platforms]. *)
Definition mapPlatform (p : string) : ServiceError + Platform :=
  let v := JsString.toLowerCase p in
  if (JsString.includes v "tiktok" || String.eqb v "tik tok")%bool then inr TIKTOK
  else if (JsString.includes v "instagram" || String.eqb v "insta")%bool then inr INSTAGRAM
  else if (JsString.includes v "youtube" || String.eqb v "yt")%bool then inr YOUTUBE
  else if (JsString.includes v "twitter" || String.eqb v "x")%bool then inr TWITTER
  else inl (badRequest ("Invalid platform: " ++ p)).

(** [platforms.map(...)]: elements are visited left to right and the first
    throw aborts the map. *)
Fixpoint mapPlatforms (platforms : list string) : ServiceError + list Platform :=
  match platforms with
  | [] => inr []
  | p :: rest =>
      match mapPlatform p with
      | inl e => inl e
      | inr x =>
          match mapPlatforms rest with
          | inl e => inl e
          | inr xs => inr (x :: xs)
          end
      end
  end.

(** A string is recognised when one of the four tests of [mapPlatform]
    accepts its lower-cased form. *)
Definition recognized (p : string) : bool :=
  let v := JsString.toLowerCase p in
  ((JsString.includes v "tiktok" || String.eqb v "tik tok")
   || (JsString.includes v "instagram" || String.eqb v "insta")
   || (JsString.includes v "youtube" || String.eqb v "yt")
   || (JsString.includes v "twitter" || String.eqb v "x"))%bool.

(** ** Rows of the persistent store

    Only the columns that the modelled functions read or write are kept;
    storage-assigned row ids and timestamps of the child tables are left
    out. *)

Record AuthUser : Type := { userId : string; isStaff : bool }.

Module Campaign.
Record t : Type := {
  id : string;
  title : string;
  createdBy : string;
  studioId : option string;
  platforms : list Platform;
  status : CampaignStatus;
  campaignType : CampaignType;
  editorSlots : Z;
  totalBudget : Z;
  platformFee : Z;
  remainingBudget : Z;
  spentBudget : Z;
  isFunded : bool;
  approvedClips : Z;
  pendingClips : Z;
  rejectedClips : Z;
  totalViews : Z;
  enableLeaderboard : bool;
  isPrivate : bool;
  endDate : Z;
  archivedAt : option Z
}.
End Campaign.

Module Participant.
Record t : Type := { campaignId : string; userId : string; role : ParticipantRole }.
End Participant.

Module Ban.
Record t : Type := { campaignId : string; userId : string; reason : option string }.
End Ban.

Module Response.
Record t : Type := {
  campaignId : string;
  userId : string;
  answers : list (string * string);
  status : ReviewStatus;
  reviewedBy : option string;
  reviewedAt : option Z;
  note : option string
}.
End Response.

Module Application.
Record t : Type := {
  campaignId : string;
  userId : string;
  status : ReviewStatus;
  decidedAt : option Z
}.
End Application.

Module Question.
Record t : Type := { campaignId : string; question : string; order : Z }.
End Question.

Module Permissions.
Record t : Type := {
  campaignId : string;
  adminsCanReviewClips : bool;
  adminsCanManageTeam : bool;
  adminsCanEditCampaign : bool;
  adminsCanAddBudget : bool;
  adminsCanDeleteCampaign : bool
}.
End Permissions.

Module Prize.
Record t : Type := { campaignId : string; position : Z; reward : Z; label : string }.
End Prize.

Module Invite.
Record t : Type := { campaignId : string; discordUserId : string }.
End Invite.

(** ** Published events ([CampaignEvents]) *)

Inductive Event : Type :=
| EvCreated (campaignId ownerId title : string) (status : CampaignStatus)
            (studioId : option string)
| EvStatusChanged (campaignId : string) (oldStatus newStatus : CampaignStatus)
                  (changedBy : string)
| EvFunded (campaignId : string) (amount totalBudget : Z) (fundedBy : string)
| EvEnded (campaignId : string) (endReason : EndReason) (hasLeaderboard : bool)
          (totalClips totalViews totalPaid : Z)
| EvParticipantJoined (campaignId userId : string) (role : ParticipantRole)
                      (joinMethod : JoinMethod)
| EvParticipantLeft (campaignId userId : string) (reason : LeftReason).

(** ** The store and the environment *)

Record Store : Type := {
  campaign : list Campaign.t;
  campaignParticipant : list Participant.t;
  waitlistBan : list Ban.t;
  waitlistResponse : list Response.t;
  campaignApplication : list Application.t;
  waitlistQuestion : list Question.t;
  campaignPermissions : list Permissions.t;
  prizeDistribution : list Prize.t;
  campaignInvite : list Invite.t;
  outbox : list Event   (* events accepted by the transport, oldest first *)
}.

(** Column defaults of the Prisma schema for the columns that
    [createCampaign] does not set.  The schema is not part of [src/], so the
    defaults are a parameter. *)
Record SchemaDefaults : Type := {
  default_status : CampaignStatus;
  default_isFunded : bool;
  default_platformFee : Z;
  default_remainingBudget : Z;
  default_spentBudget : Z;
  default_approvedClips : Z;
  default_pendingClips : Z;
  default_rejectedClips : Z;
  default_totalViews : Z
}.

Record Env : Type := {
  schema : SchemaDefaults;
  (** [prisma.campaign.update] on this campaign id raises (storage fault). *)
  updateFails : string -> bool;
  (** [publisher.publish] of this event raises (transport fault). *)
  publishFails : Event -> bool
}.

Definition emptyStore : Store :=
  {| campaign := []; campaignParticipant := []; waitlistBan := [];
     waitlistResponse := []; campaignApplication := []; waitlistQuestion := [];
     campaignPermissions := []; prizeDistribution := []; campaignInvite := [];
     outbox := [] |}.

Definition set_campaign (v : list Campaign.t) (s : Store) : Store :=
  {| campaign := v; campaignParticipant := campaignParticipant s;
     waitlistBan := waitlistBan s; waitlistResponse := waitlistResponse s;
     campaignApplication := campaignApplication s;
     waitlistQuestion := waitlistQuestion s;
     campaignPermissions := campaignPermissions s;
     prizeDistribution := prizeDistribution s;
     campaignInvite := campaignInvite s; outbox := outbox s |}.

Definition set_campaignParticipant (v : list Participant.t) (s : Store) : Store :=
  {| campaign := campaign s; campaignParticipant := v;
     waitlistBan := waitlistBan s; waitlistResponse := waitlistResponse s;
     campaignApplication := campaignApplication s;
     waitlistQuestion := waitlistQuestion s;
     campaignPermissions := campaignPermissions s;
     prizeDistribution := prizeDistribution s;
     campaignInvite := campaignInvite s; outbox := outbox s |}.

Definition set_waitlistBan (v : list Ban.t) (s : Store) : Store :=
  {| campaign := campaign s; campaignParticipant := campaignParticipant s;
     waitlistBan := v; waitlistResponse := waitlistResponse s;
     campaignApplication := campaignApplication s;
     waitlistQuestion := waitlistQuestion s;
     campaignPermissions := campaignPermissions s;
     prizeDistribution := prizeDistribution s;
     campaignInvite := campaignInvite s; outbox := outbox s |}.

Definition set_waitlistResponse (v : list Response.t) (s : Store) : Store :=
  {| campaign := campaign s; campaignParticipant := campaignParticipant s;
     waitlistBan := waitlistBan s; waitlistResponse := v;
     campaignApplication := campaignApplication s;
     waitlistQuestion := waitlistQuestion s;
     campaignPermissions := campaignPermissions s;
     prizeDistribution := prizeDistribution s;
     campaignInvite := campaignInvite s; outbox := outbox s |}.

Definition set_campaignApplication (v : list Application.t) (s : Store) : Store :=
  {| campaign := campaign s; campaignParticipant := campaignParticipant s;
     waitlistBan := waitlistBan s; waitlistResponse := waitlistResponse s;
     campaignApplication := v;
     waitlistQuestion := waitlistQuestion s;
     campaignPermissions := campaignPermissions s;
     prizeDistribution := prizeDistribution s;
     campaignInvite := campaignInvite s; outbox := outbox s |}.

Definition set_waitlistQuestion (v : list Question.t) (s : Store) : Store :=
  {| campaign := campaign s; campaignParticipant := campaignParticipant s;
     waitlistBan := waitlistBan s; waitlistResponse := waitlistResponse s;
     campaignApplication := campaignApplication s;
     waitlistQuestion := v;
     campaignPermissions := campaignPermissions s;
     prizeDistribution := prizeDistribution s;
     campaignInvite := campaignInvite s; outbox := outbox s |}.

Definition set_prizeDistribution (v : list Prize.t) (s : Store) : Store :=
  {| campaign := campaign s; campaignParticipant := campaignParticipant s;
     waitlistBan := waitlistBan s; waitlistResponse := waitlistResponse s;
     campaignApplication := campaignApplication s;
     waitlistQuestion := waitlistQuestion s;
     campaignPermissions := campaignPermissions s;
     prizeDistribution := v;
     campaignInvite := campaignInvite s; outbox := outbox s |}.

Definition set_campaignInvite (v : list Invite.t) (s : Store) : Store :=
  {| campaign := campaign s; campaignParticipant := campaignParticipant s;
     waitlistBan := waitlistBan s; waitlistResponse := waitlistResponse s;
     campaignApplication := campaignApplication s;
     waitlistQuestion := waitlistQuestion s;
     campaignPermissions := campaignPermissions s;
     prizeDistribution := prizeDistribution s;
     campaignInvite := v; outbox := outbox s |}.

Definition set_outbox (v : list Event) (s : Store) : Store :=
  {| campaign := campaign s; campaignParticipant := campaignParticipant s;
     waitlistBan := waitlistBan s; waitlistResponse := waitlistResponse s;
     campaignApplication := campaignApplication s;
     waitlistQuestion := waitlistQuestion s;
     campaignPermissions := campaignPermissions s;
     prizeDistribution := prizeDistribution s;
     campaignInvite := campaignInvite s; outbox := v |}.

(** ** The [data] argument of [prisma.campaign.update]

    A partial object over the columns of [Campaign]: an absent key leaves
    the column alone; an integer column is either assigned or incremented
    ([{ increment: n }]). *)

Inductive IntOp : Type := SetTo (v : Z) | Increment (n : Z).

Definition applyIntOp (o : option IntOp) (old : Z) : Z :=
  match o with
  | None => old
  | Some (SetTo v) => v
  | Some (Increment n) => old + n
  end.

Definition orKeep {A : Type} (o : option A) (old : A) : A :=
  match o with Some v => v | None => old end.

Module CampaignUpdate.
Record t : Type := {
  title : option string;
  status : option CampaignStatus;
  campaignType : option CampaignType;
  editorSlots : option Z;
  totalBudget : option Z;
  platformFee : option Z;
  remainingBudget : option Z;
  isFunded : option bool;
  approvedClips : option IntOp;
  pendingClips : option IntOp;
  rejectedClips : option IntOp;
  enableLeaderboard : option bool;
  endDate : option Z;
  archivedAt : option Z
}.

Definition empty : t :=
  {| title := None; status := None; campaignType := None; editorSlots := None;
     totalBudget := None; platformFee := None; remainingBudget := None;
     isFunded := None; approvedClips := None; pendingClips := None;
     rejectedClips := None; enableLeaderboard := None; endDate := None;
     archivedAt := None |}.

Definition apply (d : t) (c : Campaign.t) : Campaign.t :=
  {| Campaign.id := Campaign.id c;
     Campaign.title := orKeep (title d) (Campaign.title c);
     Campaign.createdBy := Campaign.createdBy c;
     Campaign.studioId := Campaign.studioId c;
     Campaign.platforms := Campaign.platforms c;
     Campaign.status := orKeep (status d) (Campaign.status c);
     Campaign.campaignType := orKeep (campaignType d) (Campaign.campaignType c);
     Campaign.editorSlots := orKeep (editorSlots d) (Campaign.editorSlots c);
     Campaign.totalBudget := orKeep (totalBudget d) (Campaign.totalBudget c);
     Campaign.platformFee := orKeep (platformFee d) (Campaign.platformFee c);
     Campaign.remainingBudget := orKeep (remainingBudget d) (Campaign.remainingBudget c);
     Campaign.spentBudget := Campaign.spentBudget c;
     Campaign.isFunded := orKeep (isFunded d) (Campaign.isFunded c);
     Campaign.approvedClips := applyIntOp (approvedClips d) (Campaign.approvedClips c);
     Campaign.pendingClips := applyIntOp (pendingClips d) (Campaign.pendingClips c);
     Campaign.rejectedClips := applyIntOp (rejectedClips d) (Campaign.rejectedClips c);
     Campaign.totalViews := Campaign.totalViews c;
     Campaign.enableLeaderboard := orKeep (enableLeaderboard d) (Campaign.enableLeaderboard c);
     Campaign.isPrivate := Campaign.isPrivate c;
     Campaign.endDate := orKeep (endDate d) (Campaign.endDate c);
     Campaign.archivedAt :=
       match archivedAt d with Some v => Some v | None => Campaign.archivedAt c end |}.

(** [{ status: 'ENDED', archivedAt }] *)
Definition ended (at_ : Z) : t :=
  {| title := None; status := Some ENDED; campaignType := None; editorSlots := None;
     totalBudget := None; platformFee := None; remainingBudget := None;
     isFunded := None; approvedClips := None; pendingClips := None;
     rejectedClips := None; enableLeaderboard := None; endDate := None;
     archivedAt := Some at_ |}.

(** [{ isFunded: true, platformFee, remainingBudget }] *)
Definition funded (fee remaining : Z) : t :=
  {| title := None; status := None; campaignType := None; editorSlots := None;
     totalBudget := None; platformFee := Some fee; remainingBudget := Some remaining;
     isFunded := Some true; approvedClips := None; pendingClips := None;
     rejectedClips := None; enableLeaderboard := None; endDate := None;
     archivedAt := None |}.

(** [{ approvedClips: { increment: 1 } }] and its two siblings. *)
Definition incApproved : t :=
  {| title := None; status := None; campaignType := None; editorSlots := None;
     totalBudget := None; platformFee := None; remainingBudget := None;
     isFunded := None; approvedClips := Some (Increment 1); pendingClips := None;
     rejectedClips := None; enableLeaderboard := None; endDate := None;
     archivedAt := None |}.

Definition incRejected : t :=
  {| title := None; status := None; campaignType := None; editorSlots := None;
     totalBudget := None; platformFee := None; remainingBudget := None;
     isFunded := None; approvedClips := None; pendingClips := None;
     rejectedClips := Some (Increment 1); enableLeaderboard := None; endDate := None;
     archivedAt := None |}.

Definition incPending : t :=
  {| title := None; status := None; campaignType := None; editorSlots := None;
     totalBudget := None; platformFee := None; remainingBudget := None;
     isFunded := None; approvedClips := None; pendingClips := Some (Increment 1);
     rejectedClips := None; enableLeaderboard := None; endDate := None;
     archivedAt := None |}.

(** [{ status: st }], the patch that changes nothing but the status. *)
Definition onlyStatus (st : CampaignStatus) : t :=
  {| title := None; status := Some st; campaignType := None; editorSlots := None;
     totalBudget := None; platformFee := None; remainingBudget := None;
     isFunded := None; approvedClips := None; pendingClips := None;
     rejectedClips := None; enableLeaderboard := None; endDate := None;
     archivedAt := None |}.
End CampaignUpdate.

(** ** The monad of the service functions

    A computation reads the environment, threads the store and either
    returns a value or raises.  The store reached at the point of a raise is
    kept: nothing is rolled back. *)

Definition M (A : Type) : Type := Env -> Store -> (ServiceError + A) * Store.

Definition ret {A : Type} (a : A) : M A := fun _ s => (inr a, s).

Definition throw {A : Type} (e : ServiceError) : M A := fun _ s => (inl e, s).

Definition bind {A B : Type} (m : M A) (k : A -> M B) : M B :=
  fun env s =>
    match m env s with
    | (inl e, s') => (inl e, s')
    | (inr a, s') => k a env s'
    end.

Definition tryCatch {A : Type} (m : M A) (handler : ServiceError -> M A) : M A :=
  fun env s =>
    match m env s with
    | (inl e, s') => handler e env s'
    | (inr a, s') => (inr a, s')
    end.

Definition gets {A : Type} (f : Store -> A) : M A := fun _ s => (inr (f s), s).

Definition asks {A : Type} (f : Env -> A) : M A := fun env s => (inr (f env), s).

Definition modify (f : Store -> Store) : M unit := fun _ s => (inr tt, f s).

Definition liftE {A : Type} (r : ServiceError + A) : M A := fun _ s => (r, s).

Definition when (b : bool) (m : M unit) : M unit := if b then m else ret tt.

Declare Scope service_scope.
Delimit Scope service_scope with service.

Notation "x <- m ;; k" := (bind m (fun x => k))
  (at level 61, m at next level, right associativity) : service_scope.
Notation "m ;;; k" := (bind m (fun _ => k))
  (at level 61, right associativity) : service_scope.

Local Open Scope service_scope.

(** [for (const x of xs) { await body(x) }] *)
Fixpoint forEach {A : Type} (xs : list A) (body : A -> M unit) : M unit :=
  match xs with
  | [] => ret tt
  | x :: rest => body x ;;; forEach rest body
  end.

(** [for (let i = start; ...; i++) { await body(i, xs[i]) }] *)
Fixpoint forEachIndexed {A : Type} (i : Z) (xs : list A) (body : Z -> A -> M unit) : M unit :=
  match xs with
  | [] => ret tt
  | x :: rest => body i x ;;; forEachIndexed (i + 1) rest body
  end.

(** ** The Prisma client, table by table *)

Definition sameKey (cid uid cid' uid' : string) : bool :=
  (String.eqb cid' cid && String.eqb uid' uid)%bool.

Definition findCampaign (id : string) (s : Store) : option Campaign.t :=
  find (fun c => String.eqb (Campaign.id c) id) (campaign s).

Definition findPermissions (id : string) (s : Store) : option Permissions.t :=
  find (fun p => String.eqb (Permissions.campaignId p) id) (campaignPermissions s).

Definition findParticipant (cid uid : string) (s : Store) : option Participant.t :=
  find (fun p => sameKey cid uid (Participant.campaignId p) (Participant.userId p))
       (campaignParticipant s).

Definition findBan (cid uid : string) (s : Store) : option Ban.t :=
  find (fun b => sameKey cid uid (Ban.campaignId b) (Ban.userId b)) (waitlistBan s).

Definition findResponse (cid uid : string) (s : Store) : option Response.t :=
  find (fun r => sameKey cid uid (Response.campaignId r) (Response.userId r))
       (waitlistResponse s).

(** [_count.participants] of a campaign: every row of the relation counts,
    whatever its role. *)
Definition countParticipants (cid : string) (s : Store) : nat :=
  List.length (filter (fun p => String.eqb (Participant.campaignId p) cid)
                 (campaignParticipant s)).

Definition setRole (r : ParticipantRole) (p : Participant.t) : Participant.t :=
  {| Participant.campaignId := Participant.campaignId p;
     Participant.userId := Participant.userId p;
     Participant.role := r |}.

Definition reviewResponse (st : ReviewStatus) (by_ : string) (at_ : Z)
           (r : Response.t) : Response.t :=
  {| Response.campaignId := Response.campaignId r;
     Response.userId := Response.userId r;
     Response.answers := Response.answers r;
     Response.status := st;
     Response.reviewedBy := Some by_;
     Response.reviewedAt := Some at_;
     Response.note := Response.note r |}.

Definition decideApplication (st : ReviewStatus) (at_ : Z)
           (a : Application.t) : Application.t :=
  {| Application.campaignId := Application.campaignId a;
     Application.userId := Application.userId a;
     Application.status := st;
     Application.decidedAt := Some at_ |}.

(** [orderBy: { order: 'asc' }], as a stable insertion sort: rows with equal
    keys keep their insertion order (the storage engine leaves the order of
    ties open; the properties below rely on sortedness only). *)
Fixpoint insertByOrder (q : Question.t) (l : list Question.t) : list Question.t :=
  match l with
  | [] => [q]
  | x :: r =>
      if Question.order q <=? Question.order x then q :: l
      else x :: insertByOrder q r
  end.

Definition sortByOrder (l : list Question.t) : list Question.t :=
  fold_right insertByOrder [] l.

Module Prisma.

Definition campaign_findUnique (id : string) : M (option Campaign.t) :=
  gets (findCampaign id).

Definition campaign_findMany (where_ : Campaign.t -> bool) : M (list Campaign.t) :=
  gets (fun s => filter where_ (campaign s)).

Definition campaign_create (c : Campaign.t) : M Campaign.t :=
  existing <- gets (findCampaign (Campaign.id c)) ;;
  match existing with
  | Some _ => throw (PrismaError "P2002")
  | None => modify (fun s => set_campaign (campaign s ++ [c]) s) ;;; ret c
  end.

Definition campaign_update (id : string) (data : CampaignUpdate.t) : M Campaign.t :=
  fault <- asks (fun env => updateFails env id) ;;
  if fault : bool then throw (PrismaError "P1001")
  else
    existing <- gets (findCampaign id) ;;
    match existing with
    | None => throw (PrismaError "P2025")
    | Some c =>
        modify (fun s =>
          set_campaign
            (map (fun x => if String.eqb (Campaign.id x) id
                           then CampaignUpdate.apply data x else x)
                 (campaign s)) s) ;;;
        ret (CampaignUpdate.apply data c)
    end.

Definition campaign_delete (id : string) : M unit :=
  existing <- gets (findCampaign id) ;;
  match existing with
  | None => throw (PrismaError "P2025")
  | Some _ =>
      modify (fun s =>
        set_campaign
          (filter (fun x => negb (String.eqb (Campaign.id x) id)) (campaign s)) s)
  end.

Definition campaignParticipant_findUnique (cid uid : string)
  : M (option Participant.t) :=
  gets (findParticipant cid uid).

Definition campaignParticipant_create (p : Participant.t) : M Participant.t :=
  existing <- gets (findParticipant (Participant.campaignId p) (Participant.userId p)) ;;
  match existing with
  | Some _ => throw (PrismaError "P2002")
  | None =>
      modify (fun s => set_campaignParticipant (campaignParticipant s ++ [p]) s) ;;;
      ret p
  end.

Definition campaignParticipant_update (cid uid : string) (r : ParticipantRole)
  : M Participant.t :=
  existing <- gets (findParticipant cid uid) ;;
  match existing with
  | None => throw (PrismaError "P2025")
  | Some p =>
      modify (fun s =>
        set_campaignParticipant
          (map (fun x => if sameKey cid uid (Participant.campaignId x) (Participant.userId x)
                         then setRole r x else x)
               (campaignParticipant s)) s) ;;;
      ret (setRole r p)
  end.

Definition campaignParticipant_deleteMany (cid uid : string) : M unit :=
  modify (fun s =>
    set_campaignParticipant
      (filter (fun x => negb (sameKey cid uid (Participant.campaignId x) (Participant.userId x)))
              (campaignParticipant s)) s).

Definition campaignParticipant_delete (cid uid : string) : M unit :=
  existing <- gets (findParticipant cid uid) ;;
  match existing with
  | None => throw (PrismaError "P2025")
  | Some _ => campaignParticipant_deleteMany cid uid
  end.

Definition waitlistBan_findUnique (cid uid : string) : M (option Ban.t) :=
  gets (findBan cid uid).

Definition waitlistBan_create (b : Ban.t) : M unit :=
  existing <- gets (findBan (Ban.campaignId b) (Ban.userId b)) ;;
  match existing with
  | Some _ => throw (PrismaError "P2002")
  | None => modify (fun s => set_waitlistBan (waitlistBan s ++ [b]) s)
  end.

Definition waitlistResponse_create (r : Response.t) : M unit :=
  existing <- gets (findResponse (Response.campaignId r) (Response.userId r)) ;;
  match existing with
  | Some _ => throw (PrismaError "P2002")
  | None => modify (fun s => set_waitlistResponse (waitlistResponse s ++ [r]) s)
  end.

Definition waitlistResponse_updateMany (cid uid : string)
           (f : Response.t -> Response.t) : M unit :=
  modify (fun s =>
    set_waitlistResponse
      (map (fun x => if sameKey cid uid (Response.campaignId x) (Response.userId x)
                     then f x else x)
           (waitlistResponse s)) s).

(** [updateMany({ where: { campaignId, userId, status }, data })] *)
Definition campaignApplication_updateMany (cid uid : string) (st : ReviewStatus)
           (f : Application.t -> Application.t) : M unit :=
  modify (fun s =>
    set_campaignApplication
      (map (fun x => if (sameKey cid uid (Application.campaignId x) (Application.userId x)
                         && ReviewStatus_eqb (Application.status x) st)%bool
                     then f x else x)
           (campaignApplication s)) s).

Definition waitlistQuestion_deleteMany (cid : string) : M unit :=
  modify (fun s =>
    set_waitlistQuestion
      (filter (fun q => negb (String.eqb (Question.campaignId q) cid))
              (waitlistQuestion s)) s).

Definition waitlistQuestion_create (q : Question.t) : M Question.t :=
  modify (fun s => set_waitlistQuestion (waitlistQuestion s ++ [q]) s) ;;; ret q.

(** [findMany({ where: { campaignId }, orderBy: { order: 'asc' } })] *)
Definition waitlistQuestion_findMany (cid : string) : M (list Question.t) :=
  gets (fun s =>
    sortByOrder (filter (fun q => String.eqb (Question.campaignId q) cid)
                        (waitlistQuestion s))).

Definition prizeDistribution_deleteMany (cid : string) : M unit :=
  modify (fun s =>
    set_prizeDistribution
      (filter (fun p => negb (String.eqb (Prize.campaignId p) cid))
              (prizeDistribution s)) s).

Definition prizeDistribution_create (p : Prize.t) : M unit :=
  modify (fun s => set_prizeDistribution (prizeDistribution s ++ [p]) s).

Definition campaignInvite_create (i : Invite.t) : M unit :=
  modify (fun s => set_campaignInvite (campaignInvite s ++ [i]) s).

End Prisma.

(** [publisher.publish(event)] *)
Definition publish (e : Event) : M unit :=
  fault <- asks (fun env => publishFails env e) ;;
  if fault : bool then throw PublishError
  else modify (fun s => set_outbox (outbox s ++ [e]) s).

(** ** [campaignService.ts]: lifecycle *)

Module Rank.
Record t : Type := { position : string; reward : Z }.
End Rank.

Module CreateInput.
Record t : Type := {
  title : string;
  platforms : list string;
  endDate : Z;
  totalBudget : option Z;
  campaignType : option CampaignType;
  editorSlots : option Z;
  enableLeaderboard : option bool;
  leaderboardRanks : option (list Rank.t);
  isPrivate : option bool;
  studioId : option string;
  invitedUsers : option (list string)
}.
End CreateInput.

(** [a ?? b] *)
Definition nullish {A : Type} (a : option A) (b : A) : A :=
  match a with Some v => v | None => b end.

(** Truthiness of [flag && list?.length]. *)
Definition flagAndNonEmpty {A : Type} (flag : option bool) (l : option (list A)) : bool :=
  match flag, l with
  | Some true, Some (_ :: _) => true
  | _, _ => false
  end.

Definition roleIs (r : option ParticipantRole) (x : ParticipantRole) : bool :=
  match r with Some y => ParticipantRole_eqb y x | None => false end.

Definition getCampaign (id : string) : M (Campaign.t * option Permissions.t) :=
  campaign <- Prisma.campaign_findUnique id ;;
  permissions <- gets (findPermissions id) ;;
  match campaign with
  | None => throw (notFound ("Campaign " ++ id ++ " not found"))
  | Some c => ret (c, permissions)
  end.

(** [newId] is the identifier that the storage layer assigns to the row. *)
Definition createCampaign (newId : string) (data : CreateInput.t) (creator : AuthUser)
  : M Campaign.t :=
  platforms <- liftE (mapPlatforms (CreateInput.platforms data)) ;;
  dflt <- asks schema ;;
  campaign <- Prisma.campaign_create
    {| Campaign.id := newId;
       Campaign.title := CreateInput.title data;
       Campaign.createdBy := userId creator;
       Campaign.studioId := CreateInput.studioId data;
       Campaign.platforms := platforms;
       Campaign.status := default_status dflt;
       Campaign.campaignType := nullish (CreateInput.campaignType data) AUTO_JOIN;
       Campaign.editorSlots := nullish (CreateInput.editorSlots data) 5;
       Campaign.totalBudget := nullish (CreateInput.totalBudget data) 0;
       Campaign.platformFee := default_platformFee dflt;
       Campaign.remainingBudget := default_remainingBudget dflt;
       Campaign.spentBudget := default_spentBudget dflt;
       Campaign.isFunded := default_isFunded dflt;
       Campaign.approvedClips := default_approvedClips dflt;
       Campaign.pendingClips := default_pendingClips dflt;
       Campaign.rejectedClips := default_rejectedClips dflt;
       Campaign.totalViews := default_totalViews dflt;
       Campaign.enableLeaderboard := nullish (CreateInput.enableLeaderboard data) false;
       Campaign.isPrivate := nullish (CreateInput.isPrivate data) false;
       Campaign.endDate := CreateInput.endDate data;
       Campaign.archivedAt := None |} ;;
  (* Add creator as participant *)
  Prisma.campaignParticipant_create
    {| Participant.campaignId := Campaign.id campaign;
       Participant.userId := userId creator;
       Participant.role := CREATOR |} ;;;
  (* Create prize distributions if leaderboard enabled *)
  when (flagAndNonEmpty (CreateInput.enableLeaderboard data)
                        (CreateInput.leaderboardRanks data))
       (forEachIndexed 0 (nullish (CreateInput.leaderboardRanks data) [])
          (fun i rank =>
             Prisma.prizeDistribution_create
               {| Prize.campaignId := Campaign.id campaign;
                  Prize.position := i + 1;
                  Prize.reward := Rank.reward rank;
                  Prize.label := Rank.position rank |})) ;;;
  (* Create invites for private campaigns *)
  when (flagAndNonEmpty (CreateInput.isPrivate data) (CreateInput.invitedUsers data))
       (forEach (nullish (CreateInput.invitedUsers data) [])
          (fun discordUserId =>
             Prisma.campaignInvite_create
               {| Invite.campaignId := Campaign.id campaign;
                  Invite.discordUserId := discordUserId |})) ;;;
  publish (EvCreated (Campaign.id campaign) (userId creator) (Campaign.title campaign)
                     (Campaign.status campaign) (Campaign.studioId campaign)) ;;;
  ret campaign.

(** The request body of [updateCampaign]: the column patch and the optional
    [prizeDistributions] key, which the function strips before the update. *)
Module UpdateBody.
Record t : Type := {
  fields : CampaignUpdate.t;
  prizeDistributions : option (list Rank.t)
}.
End UpdateBody.

(** The body [{ status: st }]. *)
Definition statusPatch (st : CampaignStatus) : UpdateBody.t :=
  {| UpdateBody.fields := CampaignUpdate.onlyStatus st;
     UpdateBody.prizeDistributions := None |}.

Definition updateCampaign (id : string) (data : UpdateBody.t) (user : AuthUser)
  : M Campaign.t :=
  cp <- getCampaign id ;;
  let campaign := fst cp in
  let permissions := snd cp in
  (* Check permission *)
  participant <- Prisma.campaignParticipant_findUnique id (userId user) ;;
  let isCreator := roleIs (option_map Participant.role participant) CREATOR in
  let isAdmin := roleIs (option_map Participant.role participant) ADMIN in
  if (negb isCreator && negb isAdmin && negb (isStaff user))%bool
  then throw (forbidden "You do not have permission to edit this campaign")
  else
    if (isAdmin
        && negb (match permissions with
                 | Some p => Permissions.adminsCanEditCampaign p
                 | None => false
                 end))%bool
    then throw (forbidden "Admins do not have permission to edit this campaign")
    else
      (* Handle prize distributions update *)
      match UpdateBody.prizeDistributions data with
      | Some ranks =>
          Prisma.prizeDistribution_deleteMany id ;;;
          forEachIndexed 0 ranks
            (fun i rank =>
               Prisma.prizeDistribution_create
                 {| Prize.campaignId := id;
                    Prize.position := i + 1;
                    Prize.reward := Rank.reward rank;
                    Prize.label := Rank.position rank |})
      | None => ret tt
      end ;;;
      let oldStatus := Campaign.status campaign in
      updated <- Prisma.campaign_update id (UpdateBody.fields data) ;;
      (* Publish status change event if status changed *)
      match CampaignUpdate.status (UpdateBody.fields data) with
      | Some newStatus =>
          when (negb (CampaignStatus_eqb newStatus oldStatus))
               (publish (EvStatusChanged id oldStatus newStatus (userId user)))
      | None => ret tt
      end ;;;
      ret updated.

Definition deleteCampaign (id : string) (user : AuthUser) : M unit :=
  cp <- getCampaign id ;;
  let campaign := fst cp in
  participant <- Prisma.campaignParticipant_findUnique id (userId user) ;;
  let isCreator := roleIs (option_map Participant.role participant) CREATOR in
  (if (negb isCreator && negb (isStaff user))%bool
   then
     let permissions := snd cp in
     if negb (match permissions with
              | Some p => Permissions.adminsCanDeleteCampaign p
              | None => false
              end)
     then throw (forbidden "You do not have permission to delete this campaign")
     else ret tt
   else ret tt) ;;;
  Prisma.campaign_delete id.

(** [now] is the value of [new Date()]. *)
Definition closeCampaign (now : Z) (id : string) (user : AuthUser) : M Campaign.t :=
  cp <- getCampaign id ;;
  let campaign := fst cp in
  if CampaignStatus_eqb (Campaign.status campaign) ENDED
  then throw (conflict "Campaign is already ended")
  else
    participant <- Prisma.campaignParticipant_findUnique id (userId user) ;;
    if (negb (roleIs (option_map Participant.role participant) CREATOR)
        && negb (isStaff user))%bool
    then throw (forbidden "Only the campaign creator can close a campaign")
    else
      updated <- Prisma.campaign_update id (CampaignUpdate.ended now) ;;
      publish (EvEnded id MANUAL (Campaign.enableLeaderboard campaign)
                       (Campaign.approvedClips campaign) (Campaign.totalViews campaign)
                       (Campaign.spentBudget campaign)) ;;;
      ret updated.

(** *** The platform fee

    [Math.round(campaign.totalBudget * 0.1)] is a binary64 computation.
    [Binary64.roundTenth] spells it out on IEEE-754 doubles: the budget is
    converted exactly, multiplied by the double nearest to 1/10 with
    round-to-nearest-even, and [Math.round] takes the floor of the product
    plus one half, computed exactly. *)

Module Binary64.
Definition prec : Z := 53.
Definition emax : Z := 1024.

Definition ofZ (x : Z) : spec_float := binary_normalize prec emax x 0 false.

(** The literal [0.1], i.e. 0x3FB999999999999A. *)
Definition tenth : spec_float := S754_finite false 7205759403792794 (-56).

Definition mul : spec_float -> spec_float -> spec_float := SFmul prec emax.

(** [Math.round]: the integer nearest to the argument, ties towards
    plus infinity; [None] for NaN and the infinities. *)
Definition round (y : spec_float) : option Z :=
  match y with
  | S754_zero _ => Some 0
  | S754_finite sgn m e =>
      let v := cond_Zopp sgn (Zpos m) in
      if 0 <=? e then Some (v * 2 ^ e)
      else Some ((2 * v + 2 ^ (- e)) / 2 ^ (- e + 1))
  | S754_infinity _ => None
  | S754_nan => None
  end.

Definition roundTenth (x : Z) : option Z := round (mul (ofZ x) tenth).

(** The integers from [lo], [n] of them. *)
Fixpoint range (lo : Z) (n : nat) : list Z :=
  match n with
  | O => []
  | S k => lo :: range (lo + 1) k
  end.
End Binary64.

(** [Math.round(x * 0.1)] on an integer amount [x]: on integers the double
    product is exactly [k + 0.5] at a tie and within a rounding error of
    [x / 10] elsewhere, so the result is the floor of [(x + 5) / 10]
    ([Binary64_agrees] checks the two against each other). *)
Definition roundTenth (x : Z) : Z := (x + 5) / 10.

Definition fundCampaign (id : string) (user : AuthUser) : M Campaign.t :=
  cp <- getCampaign id ;;
  let campaign := fst cp in
  if (negb (String.eqb (Campaign.createdBy campaign) (userId user))
      && negb (isStaff user))%bool
  then throw (forbidden "Only the campaign creator can fund a campaign")
  else
    if Campaign.isFunded campaign
    then throw (conflict "Campaign is already funded")
    else
      let platformFee := roundTenth (Campaign.totalBudget campaign) in
      updated <- Prisma.campaign_update id
        (CampaignUpdate.funded platformFee (Campaign.totalBudget campaign - platformFee)) ;;
      publish (EvFunded id (Campaign.totalBudget campaign)
                        (Campaign.totalBudget campaign) (userId user)) ;;;
      ret updated.

(** The body of the [for ... of] loop of [autoCloseCampaigns], with its
    try/catch: a raise of the update or of the publication is logged and
    swallowed, and the counter is incremented only after both returned. *)
Definition autoCloseOne (now : Z) (campaign : Campaign.t) (closedCount : nat) : M nat :=
  tryCatch
    (Prisma.campaign_update (Campaign.id campaign) (CampaignUpdate.ended now) ;;;
     publish (EvEnded (Campaign.id campaign) DATE_REACHED
                      (Campaign.enableLeaderboard campaign)
                      (Campaign.approvedClips campaign) (Campaign.totalViews campaign)
                      (Campaign.spentBudget campaign)) ;;;
     ret (S closedCount))
    (fun _ => (* logger.error *) ret closedCount).

Fixpoint autoCloseLoop (now : Z) (expiredCampaigns : list Campaign.t) (closedCount : nat)
  : M nat :=
  match expiredCampaigns with
  | [] => ret closedCount
  | campaign :: rest =>
      closedCount' <- autoCloseOne now campaign closedCount ;;
      autoCloseLoop now rest closedCount'
  end.

Definition isExpired (now : Z) (c : Campaign.t) : bool :=
  (CampaignStatus_eqb (Campaign.status c) ACTIVE && (Campaign.endDate c <? now))%bool.

Definition autoCloseCampaigns (now : Z) : M nat :=
  expiredCampaigns <- Prisma.campaign_findMany (isExpired now) ;;
  autoCloseLoop now expiredCampaigns O.

(** ** [campaignService.ts], second part: participants *)

Definition getParticipantRole (campaignId userId_ : string) : M (option ParticipantRole) :=
  participant <- Prisma.campaignParticipant_findUnique campaignId userId_ ;;
  ret (option_map Participant.role participant).

Module JoinResult.
Record t : Type := { role : ParticipantRole; campaignType : CampaignType }.
End JoinResult.

Definition joinCampaign (campaignId : string) (user : AuthUser)
           (answers : option (list (string * string))) : M JoinResult.t :=
  found <- Prisma.campaign_findUnique campaignId ;;
  match found with
  | None => throw (notFound ("Campaign " ++ campaignId ++ " not found"))
  | Some campaign =>
      count <- gets (countParticipants campaignId) ;;
      if negb (CampaignStatus_eqb (Campaign.status campaign) ACTIVE)
      then throw (badRequest "Campaign is not active")
      else
        (* Check if already a participant *)
        existing <- Prisma.campaignParticipant_findUnique campaignId (userId user) ;;
        match existing with
        | Some _ => throw (conflict "Already a participant in this campaign")
        | None =>
            (* Check banned *)
            banned <- Prisma.waitlistBan_findUnique campaignId (userId user) ;;
            match banned with
            | Some _ => throw (forbidden "You are banned from this campaign")
            | None =>
                let isAutoJoin := CampaignType_eqb (Campaign.campaignType campaign) AUTO_JOIN in
                let role := if isAutoJoin then MEMBER else PENDING in
                (* Check slots for auto-join *)
                if (isAutoJoin && (Campaign.editorSlots campaign <=? Z.of_nat count))%bool
                then throw (forbidden "Campaign is full")
                else
                  Prisma.campaignParticipant_create
                    {| Participant.campaignId := campaignId;
                       Participant.userId := userId user;
                       Participant.role := role |} ;;;
                  (* Save waitlist responses if provided *)
                  match answers with
                  | Some a =>
                      when (negb isAutoJoin)
                        (Prisma.waitlistResponse_create
                           {| Response.campaignId := campaignId;
                              Response.userId := userId user;
                              Response.answers := a;
                              Response.status := RS_PENDING;
                              Response.reviewedBy := None;
                              Response.reviewedAt := None;
                              Response.note := None |})
                  | None => ret tt
                  end ;;;
                  publish (EvParticipantJoined campaignId (userId user) role
                             (if isAutoJoin then DIRECT else VIA_WAITLIST)) ;;;
                  ret {| JoinResult.role := role;
                         JoinResult.campaignType := Campaign.campaignType campaign |}
            end
        end
  end.

Definition approveParticipant (now : Z) (campaignId targetUserId : string) (user : AuthUser)
  : M Participant.t :=
  found <- Prisma.campaign_findUnique campaignId ;;
  match found with
  | None => throw (notFound ("Campaign " ++ campaignId ++ " not found"))
  | Some campaign =>
      count <- gets (countParticipants campaignId) ;;
      (* Verify requester has permission *)
      requesterRole <- getParticipantRole campaignId (userId user) ;;
      if (negb (roleIs requesterRole CREATOR) && negb (roleIs requesterRole ADMIN)
          && negb (isStaff user))%bool
      then throw (forbidden "You do not have permission to approve participants")
      else
        (* Check slots *)
        if Campaign.editorSlots campaign <=? Z.of_nat count
        then throw (forbidden "Campaign is full")
        else
          (* Update to MEMBER *)
          updated <- Prisma.campaignParticipant_update campaignId targetUserId MEMBER ;;
          (* Update waitlist response *)
          Prisma.waitlistResponse_updateMany campaignId targetUserId
            (reviewResponse APPROVED (userId user) now) ;;;
          publish (EvParticipantJoined campaignId targetUserId MEMBER VIA_WAITLIST) ;;;
          ret updated
  end.

Definition removeParticipant (campaignId targetUserId : string) (user : AuthUser)
           (reason : option string) : M unit :=
  requesterRole <- getParticipantRole campaignId (userId user) ;;
  if (negb (roleIs requesterRole CREATOR) && negb (isStaff user))%bool
  then throw (forbidden "Only the campaign creator can remove participants")
  else
    if String.eqb targetUserId (userId user)
    then throw (badRequest "Cannot remove yourself")
    else
      Prisma.campaignParticipant_delete campaignId targetUserId ;;;
      publish (EvParticipantLeft campaignId targetUserId
                 (match reason with
                  | Some r => if String.eqb r "ban" then BANNED else KICKED
                  | None => KICKED
                  end)).

Definition banParticipant (now : Z) (campaignId targetUserId : string) (user : AuthUser)
           (reason : option string) : M unit :=
  requesterRole <- getParticipantRole campaignId (userId user) ;;
  if (negb (roleIs requesterRole CREATOR) && negb (roleIs requesterRole ADMIN)
      && negb (isStaff user))%bool
  then throw (forbidden "You do not have permission to ban participants")
  else
    (* Create ban record *)
    Prisma.waitlistBan_create
      {| Ban.campaignId := campaignId; Ban.userId := targetUserId; Ban.reason := reason |} ;;;
    (* Remove participant *)
    Prisma.campaignParticipant_deleteMany campaignId targetUserId ;;;
    (* Reject any pending applications *)
    Prisma.campaignApplication_updateMany campaignId targetUserId RS_PENDING
      (decideApplication REJECTED now) ;;;
    publish (EvParticipantLeft campaignId targetUserId BANNED).

Inductive ManageAction : Type := PROMOTE | DEMOTE | REMOVE.

Definition manageParticipant (campaignId targetUserId : string) (action : ManageAction)
           (user : AuthUser) : M (option Participant.t) :=
  requesterRole <- getParticipantRole campaignId (userId user) ;;
  if (negb (roleIs requesterRole CREATOR) && negb (isStaff user))%bool
  then throw (forbidden "Only the campaign creator can manage participants")
  else
    match action with
    | REMOVE => removeParticipant campaignId targetUserId user None ;;; ret None
    | PROMOTE =>
        p <- Prisma.campaignParticipant_update campaignId targetUserId ADMIN ;; ret (Some p)
    | DEMOTE =>
        p <- Prisma.campaignParticipant_update campaignId targetUserId MEMBER ;; ret (Some p)
    end.

(** ** [waitlistService.ts] *)

Module QuestionInput.
Record t : Type := { question : string; order : option Z }.
End QuestionInput.

Definition getWaitlistQuestions (campaignId : string) : M (list Question.t) :=
  Prisma.waitlistQuestion_findMany campaignId.

(** The row that iteration [i] (0-based) of the loop creates. *)
Definition questionRow (campaignId : string) (i : Z) (q : QuestionInput.t) : Question.t :=
  {| Question.campaignId := campaignId;
     Question.question := QuestionInput.question q;
     Question.order := nullish (QuestionInput.order q) (i + 1) |}.

(** The loop of [setWaitlistQuestions], from index [i] on; the result is the
    [created] array. *)
Fixpoint createQuestions (campaignId : string) (i : Z) (questions : list QuestionInput.t)
  : M (list Question.t) :=
  match questions with
  | [] => ret []
  | q :: rest =>
      row <- Prisma.waitlistQuestion_create (questionRow campaignId i q) ;;
      created <- createQuestions campaignId (i + 1) rest ;;
      ret (row :: created)
  end.

Definition setWaitlistQuestions (campaignId : string) (questions : list QuestionInput.t)
           (user : AuthUser) : M (list Question.t) :=
  role <- getParticipantRole campaignId (userId user) ;;
  if (negb (roleIs role CREATOR) && negb (isStaff user))%bool
  then throw (forbidden "Only the creator can manage waitlist questions")
  else
    (* Replace all questions *)
    Prisma.waitlistQuestion_deleteMany campaignId ;;;
    createQuestions campaignId 0 questions.

(** ** [events/handlers.ts] *)

Inductive InboundEvent : Type :=
| StatsUpdated (clipId : string)
| ClipApproved (campaignId : string)
| ClipRejected (campaignId : string)
| ClipSubmitted (campaignId : string).

(** One delivery of an inbound event to its handler.  Returning is the
    acknowledgement ([ctx.ack()] is the last statement of every handler); a
    raise leaves the message unacknowledged for the retry wrapper. *)
Definition handleEvent (event : InboundEvent) : M unit :=
  match event with
  | StatsUpdated _ => ret tt
  | ClipApproved campaignId =>
      Prisma.campaign_update campaignId CampaignUpdate.incApproved ;;; ret tt
  | ClipRejected campaignId =>
      Prisma.campaign_update campaignId CampaignUpdate.incRejected ;;; ret tt
  | ClipSubmitted campaignId =>
      Prisma.campaign_update campaignId CampaignUpdate.incPending ;;; ret tt
  end.

(** ** Vocabulary of the statements *)

(** Running a computation: its outcome and the store it leaves. *)
Definition run {A : Type} (m : M A) (env : Env) (s : Store) : (ServiceError + A) * Store :=
  m env s.

Definition outcome {A : Type} (m : M A) (env : Env) (s : Store) : ServiceError + A :=
  fst (m env s).

Definition after {A : Type} (m : M A) (env : Env) (s : Store) : Store :=
  snd (m env s).

(** No infrastructure fault: every campaign update and every publication
    is accepted. *)
Definition healthy (env : Env) : Prop :=
  (forall id, updateFails env id = false) /\ (forall e, publishFails env e = false).

(** The position of a status on the line DRAFT, ACTIVE, ENDED. *)
Definition statusRank (st : CampaignStatus) : Z :=
  match st with DRAFT => 0 | ACTIVE => 1 | ENDED => 2 end.

Definition statusOf (id : string) (s : Store) : option CampaignStatus :=
  option_map Campaign.status (findCampaign id s).

Definition roleOf (cid uid : string) (s : Store) : option ParticipantRole :=
  option_map Participant.role (findParticipant cid uid s).

(** The platform that [mapPlatform] answers, when it answers one. *)
Definition platformOf (p : string) : option Platform :=
  match mapPlatform p with inr x => Some x | inl _ => None end.

(** Successive [joinCampaign] calls on one campaign, one per request. *)
Fixpoint joinAll (campaignId : string)
         (requests : list (AuthUser * option (list (string * string))))
         (env : Env) (s : Store) : list (ServiceError + JoinResult.t) * Store :=
  match requests with
  | [] => ([], s)
  | (user, answers) :: rest =>
      let r := joinCampaign campaignId user answers env s in
      let rs := joinAll campaignId rest env (snd r) in
      (fst r :: fst rs, snd rs)
  end.

(** The operations that write the [status] column. *)
Inductive LifecycleOp : Type :=
| OpUpdate (id : string) (data : UpdateBody.t) (user : AuthUser)
| OpClose (now : Z) (id : string) (user : AuthUser)
| OpAutoClose (now : Z).

Definition carriesStatus (op : LifecycleOp) : bool :=
  match op with
  | OpUpdate _ data _ =>
      match CampaignUpdate.status (UpdateBody.fields data) with
      | Some _ => true
      | None => false
      end
  | _ => false
  end.

Definition stepOp (env : Env) (op : LifecycleOp) (s : Store) : Store :=
  match op with
  | OpUpdate id data user => after (updateCampaign id data user) env s
  | OpClose now id user => after (closeCampaign now id user) env s
  | OpAutoClose now => after (autoCloseCampaigns now) env s
  end.

(** A history: each operation runs in the environment of its moment. *)
Fixpoint runOps (ops : list (Env * LifecycleOp)) (s : Store) : Store :=
  match ops with
  | [] => s
  | (env, op) :: rest => runOps rest (stepOp env op s)
  end.

(** The [ended] event that the sweep publishes for a selected campaign. *)
Definition sweepEvent (c : Campaign.t) : Event :=
  EvEnded (Campaign.id c) DATE_REACHED (Campaign.enableLeaderboard c)
          (Campaign.approvedClips c) (Campaign.totalViews c) (Campaign.spentBudget c).

(** Both guarded calls of the sweep go through for this campaign. *)
Definition sweepSucceeds (env : Env) (c : Campaign.t) : bool :=
  (negb (updateFails env (Campaign.id c)) && negb (publishFails env (sweepEvent c)))%bool.

(** The primary key of the campaign table. *)
Definition uniqueIds (s : Store) : Prop := NoDup (map Campaign.id (campaign s)).

(** The rows that [setWaitlistQuestions] creates, from index [i] on. *)
Fixpoint questionRows (campaignId : string) (i : Z) (questions : list QuestionInput.t)
  : list Question.t :=
  match questions with
  | [] => []
  | q :: rest => questionRow campaignId i q :: questionRows campaignId (i + 1) rest
  end.

Definition byOrder (a b : Question.t) : Prop := Question.order a <= Question.order b.

(** The three clip counters of a campaign: pending, approved, rejected. *)
Definition clipCounters (c : Campaign.t) : Z * Z * Z :=
  (Campaign.pendingClips c, Campaign.approvedClips c, Campaign.rejectedClips c).

Definition countersOf (id : string) (s : Store) : option (Z * Z * Z) :=
  option_map clipCounters (findCampaign id s).

(** The actor may ban, approve and review: CREATOR, ADMIN or staff. *)
Definition mayModerate (campaignId : string) (user : AuthUser) (s : Store) : Prop :=
  roleOf campaignId (userId user) s = Some CREATOR
  \/ roleOf campaignId (userId user) s = Some ADMIN
  \/ isStaff user = true.

(** The [where] clause of the application update in [banParticipant]. *)
Definition pendingApplicationOf (cid uid : string) (a : Application.t) : bool :=
  (sameKey cid uid (Application.campaignId a) (Application.userId a)
   && ReviewStatus_eqb (Application.status a) RS_PENDING)%bool.

(** A computation that never raises InvalidInput. *)
Definition noBadRequest {A : Type} (m : M A) : Prop :=
  forall env s msg, outcome m env s <> inl (BadRequest msg).

(** The rows of the campaign table after the sweep has gone through the
    selected campaigns [l]: a row is ended when the update of a selected
    campaign with its id was accepted. *)
Definition sweptRow (env : Env) (now : Z) (l : list Campaign.t) (x : Campaign.t)
  : Campaign.t :=
  if existsb (fun c => (String.eqb (Campaign.id x) (Campaign.id c)
                        && negb (updateFails env (Campaign.id c)))%bool) l
  then CampaignUpdate.apply (CampaignUpdate.ended now) x
  else x.

(** Every campaign of [s] is still there in [s'], at the same or a later
    position of the line DRAFT, ACTIVE, ENDED. *)
Definition statusAdvances (s s' : Store) : Prop :=
  forall id st,
    statusOf id s = Some st ->
    exists st', statusOf id s' = Some st' /\ statusRank st <= statusRank st'.

(** Whatever the environment and the outcome, the computation takes a store
    to one related to it by [R]. *)
Definition preserves (R : Store -> Store -> Prop) {A : Type} (m : M A) : Prop :=
  forall env s, R s (after m env s).

(** The store keeps its participant rows and its ban records. *)
Definition sameMembership (s s' : Store) : Prop :=
  campaignParticipant s' = campaignParticipant s /\ waitlistBan s' = waitlistBan s.

(** What a successful AUTO_JOIN join returns. *)
Definition joinedAsMember : ServiceError + JoinResult.t :=
  inr {| JoinResult.role := MEMBER; JoinResult.campaignType := AUTO_JOIN |}.

Definition requester (r : AuthUser * option (list (string * string))) : string :=
  userId (fst r).

(** *** Concrete data for the examples *)

Module Example.
Definition defaults : SchemaDefaults :=
  {| default_status := DRAFT; default_isFunded := false; default_platformFee := 0;
     default_remainingBudget := 0; default_spentBudget := 0;
     default_approvedClips := 0; default_pendingClips := 0;
     default_rejectedClips := 0; default_totalViews := 0 |}.

(** No fault. *)
Definition env : Env :=
  {| schema := defaults; updateFails := fun _ => false; publishFails := fun _ => false |}.

(** The transport is down. *)
Definition envNoTransport : Env :=
  {| schema := defaults; updateFails := fun _ => false; publishFails := fun _ => true |}.

Definition alice : AuthUser := {| userId := "alice"; isStaff := false |}.
Definition bob : AuthUser := {| userId := "bob"; isStaff := false |}.
Definition carol : AuthUser := {| userId := "carol"; isStaff := false |}.
Definition mallory : AuthUser := {| userId := "mallory"; isStaff := false |}.

Definition input (type : CampaignType) (slots budget : Z) : CreateInput.t :=
  {| CreateInput.title := "Launch";
     CreateInput.platforms := ["yt"; "TikTok"];
     CreateInput.endDate := 1000;
     CreateInput.totalBudget := Some budget;
     CreateInput.campaignType := Some type;
     CreateInput.editorSlots := Some slots;
     CreateInput.enableLeaderboard := None;
     CreateInput.leaderboardRanks := None;
     CreateInput.isPrivate := None;
     CreateInput.studioId := None;
     CreateInput.invitedUsers := None |}.

(** The same request with a platform that is not one of the four. *)
Definition inputWithVimeo : CreateInput.t :=
  {| CreateInput.title := "Launch";
     CreateInput.platforms := ["yt"; "vimeo"];
     CreateInput.endDate := 1000;
     CreateInput.totalBudget := None;
     CreateInput.campaignType := None;
     CreateInput.editorSlots := None;
     CreateInput.enableLeaderboard := None;
     CreateInput.leaderboardRanks := None;
     CreateInput.isPrivate := None;
     CreateInput.studioId := None;
     CreateInput.invitedUsers := None |}.

Definition activate : UpdateBody.t := statusPatch ACTIVE.

(** Alice creates campaign [c1] and activates it. *)
Definition activeCampaign (type : CampaignType) (slots budget : Z) : Store :=
  after (updateCampaign "c1" activate alice) env
    (after (createCampaign "c1" (input type slots budget) alice) env emptyStore).

(** The creator has allowed admins to delete campaign [c1]. *)
Definition deletable : Store :=
  let s := activeCampaign AUTO_JOIN 5 1000 in
  {| campaign := campaign s; campaignParticipant := campaignParticipant s;
     waitlistBan := waitlistBan s; waitlistResponse := waitlistResponse s;
     campaignApplication := campaignApplication s;
     waitlistQuestion := waitlistQuestion s;
     campaignPermissions :=
       [ {| Permissions.campaignId := "c1";
            Permissions.adminsCanReviewClips := true;
            Permissions.adminsCanManageTeam := true;
            Permissions.adminsCanEditCampaign := false;
            Permissions.adminsCanAddBudget := false;
            Permissions.adminsCanDeleteCampaign := true |} ];
     prizeDistribution := prizeDistribution s;
     campaignInvite := campaignInvite s; outbox := outbox s |}.
End Example.

Module JoinExample.
Import Example.
(** Three slots: the creator's and two more. *)
Definition requests : list (AuthUser * option (list (string * string))) :=
  [(bob, None); (carol, Some [("why", "clips")])].
Definition extra : AuthUser * option (list (string * string)) := (mallory, None).
End JoinExample.

Module BanExample.
Import Example.
(** Bob applies to the waitlist campaign [c1] with answers. *)
Definition applied : Store :=
  after (joinCampaign "c1" bob (Some [("why", "clips")])) env
        (activeCampaign WAITLIST 5 1000).
(** Alice, the creator, bans Bob. *)
Definition banned : Store :=
  after (banParticipant 7 "c1" "bob" alice None) env applied.
End BanExample.

Module ApproveExample.
Import Example.
(** Bob applies to the waitlist campaign and Alice promotes him to ADMIN. *)
Definition start : Store :=
  after (manageParticipant "c1" "bob" PROMOTE alice) env
    (after (joinCampaign "c1" bob None) env (activeCampaign WAITLIST 5 1000)).
End ApproveExample.

Module QuestionExample.
Import Example.
Definition ask (text : string) (order : option Z) : QuestionInput.t :=
  {| QuestionInput.question := text; QuestionInput.order := order |}.
(** An earlier call left one question on the campaign. *)
Definition before : Store :=
  after (setWaitlistQuestions "c1" [ask "old" None] alice) env
        (activeCampaign WAITLIST 5 1000).
Definition submitted : list QuestionInput.t :=
  [ask "third" (Some 30); ask "second" None; ask "first" (Some 1)].
End QuestionExample.

Module SweepExample.
Import Example.
(** Two active campaigns whose end date (1000) has passed at time 2000. *)
Definition twoExpired : Store :=
  after (updateCampaign "c2" activate alice) env
    (after (createCampaign "c2" (input AUTO_JOIN 5 0) alice) env
       (activeCampaign AUTO_JOIN 5 1000)).
(** The storage engine refuses writes to [c1]. *)
Definition envC1Locked : Env :=
  {| schema := defaults; updateFails := String.eqb "c1"; publishFails := fun _ => false |}.
End SweepExample.

Module StatusExample.
Import Example.
(** Alice closes her campaign at time 50. *)
Definition closed : Store :=
  after (closeCampaign 50 "c1" alice) env (activeCampaign AUTO_JOIN 5 1000).
Definition rename : UpdateBody.t :=
  {| UpdateBody.fields :=
       {| CampaignUpdate.title := Some "Relaunch"; CampaignUpdate.status := None;
          CampaignUpdate.campaignType := None; CampaignUpdate.editorSlots := None;
          CampaignUpdate.totalBudget := None; CampaignUpdate.platformFee := None;
          CampaignUpdate.remainingBudget := None; CampaignUpdate.isFunded := None;
          CampaignUpdate.approvedClips := None; CampaignUpdate.pendingClips := None;
          CampaignUpdate.rejectedClips := None; CampaignUpdate.enableLeaderboard := None;
          CampaignUpdate.endDate := None; CampaignUpdate.archivedAt := None |};
     UpdateBody.prizeDistributions := Some [] |}.
Definition history : list (Env * LifecycleOp) :=
  [ (env, OpUpdate "c1" rename alice);
    (envNoTransport, OpAutoClose 2000);
    (env, OpClose 2001 "c1" alice) ].
End StatusExample.

(** ** Further functions of the service

    The rest of [waitlistService.ts], and the route handlers of
    [routes/permissions.ts], [routes/leaderboard.ts] and the analytics
    routes that hold logic of their own.  A route handler is modelled after
    [requireAuth]: it takes the authenticated user, and what it throws is
    what [sendError] is given. *)

Definition set_campaignPermissions (v : list Permissions.t) (s : Store) : Store :=
  {| campaign := campaign s; campaignParticipant := campaignParticipant s;
     waitlistBan := waitlistBan s; waitlistResponse := waitlistResponse s;
     campaignApplication := campaignApplication s;
     waitlistQuestion := waitlistQuestion s;
     campaignPermissions := v;
     prizeDistribution := prizeDistribution s;
     campaignInvite := campaignInvite s; outbox := outbox s |}.

(** The [action] of a review: ['APPROVED' | 'REJECTED']. *)
Inductive ReviewAction : Type := REVIEW_APPROVED | REVIEW_REJECTED.

Definition actionStatus (a : ReviewAction) : ReviewStatus :=
  match a with REVIEW_APPROVED => APPROVED | REVIEW_REJECTED => REJECTED end.

(** [{ status, reviewedBy, reviewedAt, note }]: an [undefined] note leaves
    the column as it is. *)
Definition reviewWithNote (st : ReviewStatus) (by_ : string) (at_ : Z)
           (note : option string) (r : Response.t) : Response.t :=
  {| Response.campaignId := Response.campaignId r;
     Response.userId := Response.userId r;
     Response.answers := Response.answers r;
     Response.status := st;
     Response.reviewedBy := Some by_;
     Response.reviewedAt := Some at_;
     Response.note := match note with Some n => Some n | None => Response.note r end |}.

(** The five override flags, as the permission routes answer them. *)
Module PermissionFlags.
Record t : Type := {
  adminsCanReviewClips : bool;
  adminsCanManageTeam : bool;
  adminsCanEditCampaign : bool;
  adminsCanAddBudget : bool;
  adminsCanDeleteCampaign : bool
}.
End PermissionFlags.

(** The body of [POST /:id/permissions], a [Record<string, boolean>] over
    the five flags. *)
Module PermissionsPatch.
Record t : Type := {
  adminsCanReviewClips : option bool;
  adminsCanManageTeam : option bool;
  adminsCanEditCampaign : option bool;
  adminsCanAddBudget : option bool;
  adminsCanDeleteCampaign : option bool
}.
End PermissionsPatch.


(** What [GET /:id/permissions] answers when the campaign has no record. *)
Definition routeDefaults : PermissionFlags.t :=
  {| PermissionFlags.adminsCanReviewClips := true;
     PermissionFlags.adminsCanManageTeam := true;
     PermissionFlags.adminsCanEditCampaign := false;
     PermissionFlags.adminsCanAddBudget := false;
     PermissionFlags.adminsCanDeleteCampaign := false |}.

(** [update: data] of the upsert. *)
Definition patchPermissions (d : PermissionsPatch.t) (p : Permissions.t) : Permissions.t :=
  {| Permissions.campaignId := Permissions.campaignId p;
     Permissions.adminsCanReviewClips :=
       orKeep (PermissionsPatch.adminsCanReviewClips d) (Permissions.adminsCanReviewClips p);
     Permissions.adminsCanManageTeam :=
       orKeep (PermissionsPatch.adminsCanManageTeam d) (Permissions.adminsCanManageTeam p);
     Permissions.adminsCanEditCampaign :=
       orKeep (PermissionsPatch.adminsCanEditCampaign d) (Permissions.adminsCanEditCampaign p);
     Permissions.adminsCanAddBudget :=
       orKeep (PermissionsPatch.adminsCanAddBudget d) (Permissions.adminsCanAddBudget p);
     Permissions.adminsCanDeleteCampaign :=
       orKeep (PermissionsPatch.adminsCanDeleteCampaign d)
              (Permissions.adminsCanDeleteCampaign p) |}.

(** [create: { campaignId, ...data }]: a flag that the body leaves out takes
    the column default of the schema, [columns]. *)
Definition newPermissions (columns : PermissionFlags.t) (cid : string)
           (d : PermissionsPatch.t) : Permissions.t :=
  {| Permissions.campaignId := cid;
     Permissions.adminsCanReviewClips :=
       orKeep (PermissionsPatch.adminsCanReviewClips d)
              (PermissionFlags.adminsCanReviewClips columns);
     Permissions.adminsCanManageTeam :=
       orKeep (PermissionsPatch.adminsCanManageTeam d)
              (PermissionFlags.adminsCanManageTeam columns);
     Permissions.adminsCanEditCampaign :=
       orKeep (PermissionsPatch.adminsCanEditCampaign d)
              (PermissionFlags.adminsCanEditCampaign columns);
     Permissions.adminsCanAddBudget :=
       orKeep (PermissionsPatch.adminsCanAddBudget d)
              (PermissionFlags.adminsCanAddBudget columns);
     Permissions.adminsCanDeleteCampaign :=
       orKeep (PermissionsPatch.adminsCanDeleteCampaign d)
              (PermissionFlags.adminsCanDeleteCampaign columns) |}.

(** [orderBy: { position: 'asc' }], as a stable insertion sort. *)
Fixpoint insertByPosition (p : Prize.t) (l : list Prize.t) : list Prize.t :=
  match l with
  | [] => [p]
  | x :: r =>
      if Prize.position p <=? Prize.position x then p :: l
      else x :: insertByPosition p r
  end.

Definition sortByPosition (l : list Prize.t) : list Prize.t :=
  fold_right insertByPosition [] l.

Module PrismaMore.

Definition waitlistResponse_findUnique (cid uid : string) : M (option Response.t) :=
  gets (findResponse cid uid).

Definition waitlistResponse_update (cid uid : string) (f : Response.t -> Response.t)
  : M Response.t :=
  existing <- gets (findResponse cid uid) ;;
  match existing with
  | None => throw (PrismaError "P2025")
  | Some r => Prisma.waitlistResponse_updateMany cid uid f ;;; ret (f r)
  end.

(** [findMany({ where: { campaignId, status? }, orderBy: { createdAt: 'asc' } })];
    the rows of a table are kept in the order of their creation. *)
Definition waitlistResponse_findMany (cid : string) (status : option ReviewStatus)
  : M (list Response.t) :=
  gets (fun s =>
    filter (fun r =>
              (String.eqb (Response.campaignId r) cid
               && match status with
                  | Some st => ReviewStatus_eqb (Response.status r) st
                  | None => true
                  end)%bool)
           (waitlistResponse s)).

Definition campaignPermissions_findUnique (cid : string) : M (option Permissions.t) :=
  gets (findPermissions cid).

Definition campaignPermissions_upsert (columns : PermissionFlags.t) (cid : string)
           (d : PermissionsPatch.t) : M Permissions.t :=
  existing <- gets (findPermissions cid) ;;
  match existing with
  | Some p =>
      modify (fun s =>
        set_campaignPermissions
          (map (fun x => if String.eqb (Permissions.campaignId x) cid
                         then patchPermissions d x else x)
               (campaignPermissions s)) s) ;;;
      ret (patchPermissions d p)
  | None =>
      modify (fun s =>
        set_campaignPermissions
          (campaignPermissions s ++ [newPermissions columns cid d]) s) ;;;
      ret (newPermissions columns cid d)
  end.

(** [findMany({ where: { campaignId }, orderBy: { position: 'asc' } })] *)
Definition prizeDistribution_findMany (cid : string) : M (list Prize.t) :=
  gets (fun s =>
    sortByPosition (filter (fun p => String.eqb (Prize.campaignId p) cid)
                           (prizeDistribution s))).

End PrismaMore.

(** *** [waitlistService.ts], second half *)

(** [status] is [filters?.status] when it names one of the three statuses;
    an absent or empty one sets no filter. *)
Definition getWaitlistResponses (campaignId : string) (user : AuthUser)
           (status : option ReviewStatus) : M (list Response.t) :=
  role <- getParticipantRole campaignId (userId user) ;;
  if (negb (roleIs role CREATOR) && negb (roleIs role ADMIN) && negb (isStaff user))%bool
  then throw (forbidden "You do not have permission to view waitlist responses")
  else PrismaMore.waitlistResponse_findMany campaignId status.

Definition reviewWaitlistResponse (now : Z) (campaignId responseUserId : string)
           (action : ReviewAction) (user : AuthUser) (note : option string)
  : M Response.t :=
  role <- getParticipantRole campaignId (userId user) ;;
  if (negb (roleIs role CREATOR) && negb (roleIs role ADMIN) && negb (isStaff user))%bool
  then throw (forbidden "You do not have permission to review waitlist responses")
  else
    response <- PrismaMore.waitlistResponse_findUnique campaignId responseUserId ;;
    match response with
    | None => throw (notFound "Waitlist response not found")
    | Some _ =>
        PrismaMore.waitlistResponse_update campaignId responseUserId
          (reviewWithNote (actionStatus action) (userId user) now note)
    end.

(** *** [routes/permissions.ts] *)


(** [POST /:id/permissions]; [columns] are the column defaults of the
    schema, which is not part of [src/]. *)
Definition setPermissions (columns : PermissionFlags.t) (id : string)
           (data : PermissionsPatch.t) (user : AuthUser) : M Permissions.t :=
  role <- getParticipantRole id (userId user) ;;
  if (negb (roleIs role CREATOR) && negb (isStaff user))%bool
  then throw (forbidden "Only the campaign creator can modify permissions")
  else PrismaMore.campaignPermissions_upsert columns id data.

(** *** [routes/leaderboard.ts]: [GET /:id/prizes] *)

Definition getPrizes (id : string) : M (list Prize.t) :=
  PrismaMore.prizeDistribution_findMany id.

(** *** The analytics route: [GET /:id/stats]

    The answer without the three fields whose columns the model does not
    carry ([campaignStartDate], [lastStatsRefreshedAt],
    [showParticipantCount]). *)
Module PublicStats.
Record t : Type := {
  totalViews : Z;
  totalSubmissions : Z;
  approvedSubmissions : Z;
  campaignEndDate : Z;
  isActive : bool;
  participantsCount : nat;
  totalBudget : Z
}.
End PublicStats.

Definition getStats (id : string) : M PublicStats.t :=
  found <- Prisma.campaign_findUnique id ;;
  count <- gets (countParticipants id) ;;
  match found with
  | None => throw (notFound ("Campaign " ++ id ++ " not found"))
  | Some campaign =>
      ret {| PublicStats.totalViews := Campaign.totalViews campaign;
             PublicStats.totalSubmissions :=
               Campaign.approvedClips campaign + Campaign.pendingClips campaign
               + Campaign.rejectedClips campaign;
             PublicStats.approvedSubmissions := Campaign.approvedClips campaign;
             PublicStats.campaignEndDate := Campaign.endDate campaign;
             PublicStats.isActive := CampaignStatus_eqb (Campaign.status campaign) ACTIVE;
             PublicStats.participantsCount := count;
             PublicStats.totalBudget := Campaign.totalBudget campaign |}
  end.

(** *** [campaignService.ts]: [listCampaigns]

    The listing for a page number and a page size that are at least 1
    (the defaults are 1 and 20).  The [published] column is not carried by
    the model of a campaign row: its value is read through
    [publishedColumn].  Rows are stored in the order of their creation, so
    [orderBy: { createdAt: 'desc' }] is the table read backwards.  The
    relations that the query includes are left out of the answer. *)
Module ListFilters.
Record t : Type := {
  status : option CampaignStatus;
  studioId : option string;
  createdBy : option string;
  published : option bool;
  page : option positive;
  limit : option positive
}.
End ListFilters.

Module CampaignPage.
Record t : Type := {
  campaigns : list Campaign.t;
  total : nat;
  page : positive;
  limit : positive;
  totalPages : nat
}.
End CampaignPage.

(** [if (x) where.x = x]: an empty string sets no filter. *)
Definition truthy (o : option string) : option string :=
  match o with
  | Some EmptyString => None
  | _ => o
  end.

(** The [where] object. *)
Definition listWhere (publishedColumn : Campaign.t -> bool) (filters : ListFilters.t)
           (c : Campaign.t) : bool :=
  (match ListFilters.status filters with
   | Some st => CampaignStatus_eqb (Campaign.status c) st
   | None => true
   end
   && match truthy (ListFilters.studioId filters) with
      | Some sid =>
          match Campaign.studioId c with
          | Some x => String.eqb x sid
          | None => false
          end
      | None => true
      end
   && match truthy (ListFilters.createdBy filters) with
      | Some u => String.eqb (Campaign.createdBy c) u
      | None => true
      end
   && match ListFilters.published filters with
      | Some b => Bool.eqb (publishedColumn c) b
      | None => true
      end)%bool.

(** [Math.ceil(total / limit)] *)
Definition ceilDiv (total limit : nat) : nat := Nat.div (total + limit - 1) limit.

Definition listCampaigns (publishedColumn : Campaign.t -> bool) (filters : ListFilters.t)
  : M CampaignPage.t :=
  let page := nullish (ListFilters.page filters) 1%positive in
  let limit := nullish (ListFilters.limit filters) 20%positive in
  let skip := ((Pos.to_nat page - 1) * Pos.to_nat limit)%nat in
  campaigns <- gets (fun s =>
    firstn (Pos.to_nat limit)
      (skipn skip (rev (filter (listWhere publishedColumn filters) (campaign s))))) ;;
  total <- gets (fun s =>
    List.length (filter (listWhere publishedColumn filters) (campaign s))) ;;
  ret {| CampaignPage.campaigns := campaigns;
         CampaignPage.total := total;
         CampaignPage.page := page;
         CampaignPage.limit := limit;
         CampaignPage.totalPages := ceilDiv total (Pos.to_nat limit) |}.

(** *** Vocabulary of the further statements *)

(** Who gets past the two permission tests of [updateCampaign]. *)
Definition mayEdit (id : string) (user : AuthUser) (s : Store) : Prop :=
  roleOf id (userId user) s = Some CREATOR
  \/ (roleOf id (userId user) s = Some ADMIN
      /\ option_map Permissions.adminsCanEditCampaign (findPermissions id s) = Some true)
  \/ (isStaff user = true /\ roleOf id (userId user) s <> Some ADMIN).

(** The rows that a prize loop creates from [ranks], from index [i] on. *)
Fixpoint rankRows (campaignId : string) (i : Z) (ranks : list Rank.t) : list Prize.t :=
  match ranks with
  | [] => []
  | rank :: rest =>
      {| Prize.campaignId := campaignId; Prize.position := i + 1;
         Prize.reward := Rank.reward rank; Prize.label := Rank.position rank |}
      :: rankRows campaignId (i + 1) rest
  end.

Definition prizesOf (id : string) (s : Store) : list Prize.t :=
  filter (fun p => String.eqb (Prize.campaignId p) id) (prizeDistribution s).

Definition responsesOf (id : string) (s : Store) : list Response.t :=
  filter (fun r => String.eqb (Response.campaignId r) id) (waitlistResponse s).

(** Deliveries one after the other; a delivery that raises changes nothing
    and the next one is handled all the same. *)
Fixpoint deliverAll (env : Env) (events : list InboundEvent) (s : Store) : Store :=
  match events with
  | [] => s
  | ev :: rest => deliverAll env rest (after (handleEvent ev) env s)
  end.

Definition isSubmitted (id : string) (ev : InboundEvent) : bool :=
  match ev with ClipSubmitted c => String.eqb c id | _ => false end.
Definition isApproved (id : string) (ev : InboundEvent) : bool :=
  match ev with ClipApproved c => String.eqb c id | _ => false end.
Definition isRejected (id : string) (ev : InboundEvent) : bool :=
  match ev with ClipRejected c => String.eqb c id | _ => false end.

Definition occurrences (test : InboundEvent -> bool) (events : list InboundEvent) : Z :=
  Z.of_nat (List.length (filter test events)).







Definition byPosition (a b : Prize.t) : Prop := Prize.position a <= Prize.position b.

(** The prize rows and the invites that [createCampaign] writes for its
    input. *)
Definition createdPrizes (newId : string) (data : CreateInput.t) : list Prize.t :=
  match CreateInput.enableLeaderboard data with
  | Some true => rankRows newId 0 (nullish (CreateInput.leaderboardRanks data) [])
  | _ => []
  end.

Definition createdInvites (newId : string) (data : CreateInput.t) : list Invite.t :=
  match CreateInput.isPrivate data with
  | Some true =>
      map (fun d => {| Invite.campaignId := newId; Invite.discordUserId := d |})
          (nullish (CreateInput.invitedUsers data) [])
  | _ => []
  end.

Module MoreExample.
Import Example.
Definition ranks : list Rank.t :=
  [ {| Rank.position := "1st"; Rank.reward := 100 |};
    {| Rank.position := "2nd"; Rank.reward := 50 |} ].
(** A private campaign with a leaderboard and two invited users. *)
Definition privateInput : CreateInput.t :=
  {| CreateInput.title := "Invite only";
     CreateInput.platforms := ["Instagram"];
     CreateInput.endDate := 1000;
     CreateInput.totalBudget := None;
     CreateInput.campaignType := Some WAITLIST;
     CreateInput.editorSlots := None;
     CreateInput.enableLeaderboard := Some true;
     CreateInput.leaderboardRanks := Some ranks;
     CreateInput.isPrivate := Some true;
     CreateInput.studioId := None;
     CreateInput.invitedUsers := Some ["d-1"; "d-2"] |}.
Definition newPrizes : UpdateBody.t :=
  {| UpdateBody.fields := CampaignUpdate.empty;
     UpdateBody.prizeDistributions := Some ranks |}.
(** The storage engine refuses writes to [c1]. *)
Definition envLocked : Env :=
  {| schema := defaults; updateFails := String.eqb "c1"; publishFails := fun _ => false |}.
Definition theCampaign (type : CampaignType) (slots budget : Z) : Campaign.t :=
  {| Campaign.id := "c1"; Campaign.title := "Launch";
     Campaign.createdBy := "alice"; Campaign.studioId := None;
     Campaign.platforms := [YOUTUBE; TIKTOK]; Campaign.status := ACTIVE;
     Campaign.campaignType := type; Campaign.editorSlots := slots;
     Campaign.totalBudget := budget; Campaign.platformFee := 0;
     Campaign.remainingBudget := 0; Campaign.spentBudget := 0;
     Campaign.isFunded := false; Campaign.approvedClips := 0;
     Campaign.pendingClips := 0; Campaign.rejectedClips := 0;
     Campaign.totalViews := 0; Campaign.enableLeaderboard := false;
     Campaign.isPrivate := false; Campaign.endDate := 1000;
     Campaign.archivedAt := None |}.
End MoreExample.

Module HistoryExample.
Import Example.
End HistoryExample.

(** The record that [joinCampaign] stores for the answers of an applicant. *)
Definition submittedResponse (cid uid : string) (a : list (string * string)) : Response.t :=
  {| Response.campaignId := cid; Response.userId := uid; Response.answers := a;
     Response.status := RS_PENDING; Response.reviewedBy := None;
     Response.reviewedAt := None; Response.note := None |}.


Module WaitlistExample.
Import Example.
Definition threeSlots : Store := activeCampaign WAITLIST 3 1000.
Definition answers : list (string * string) := [("q1", "I edit shorts")].
End WaitlistExample.

(** [reason === 'ban' ? 'BANNED' : 'KICKED'] *)
Definition leftReasonOf (reason : option string) : LeftReason :=
  match reason with
  | Some r => if String.eqb r "ban" then BANNED else KICKED
  | None => KICKED
  end.

Module ReapplyExample.
Import Example.
(** Bob applied to the WAITLIST campaign with answers. *)
Definition applied : Store :=
  after (joinCampaign "c1" bob (Some WaitlistExample.answers)) env WaitlistExample.threeSlots.
End ReapplyExample.

(** What one delivery does to the row of campaign [id]. *)
Definition counted (id : string) (ev : InboundEvent) (c : Campaign.t) : Campaign.t :=
  match ev with
  | StatsUpdated _ => c
  | ClipApproved i =>
      if String.eqb i id then CampaignUpdate.apply CampaignUpdate.incApproved c else c
  | ClipRejected i =>
      if String.eqb i id then CampaignUpdate.apply CampaignUpdate.incRejected c else c
  | ClipSubmitted i =>
      if String.eqb i id then CampaignUpdate.apply CampaignUpdate.incPending c else c
  end.

Definition isClipEvent (id : string) (ev : InboundEvent) : bool :=
  (isSubmitted id ev || isApproved id ev || isRejected id ev)%bool.

Module DeliveryExample.
(** One clip of [c1] is submitted and approved, another one is submitted
    and rejected; a clip of an unknown campaign is approved in between. *)
Definition events : list InboundEvent :=
  [ ClipSubmitted "c1"; ClipSubmitted "c1"; ClipApproved "c9"; StatsUpdated "clip-1";
    ClipApproved "c1"; ClipRejected "c1" ].
End DeliveryExample.



Module PermissionsExample.
Import Example.
Definition rename : UpdateBody.t :=
  {| UpdateBody.fields :=
       {| CampaignUpdate.title := Some "Relaunch"; CampaignUpdate.status := None;
          CampaignUpdate.campaignType := None; CampaignUpdate.editorSlots := None;
          CampaignUpdate.totalBudget := None; CampaignUpdate.platformFee := None;
          CampaignUpdate.remainingBudget := None; CampaignUpdate.isFunded := None;
          CampaignUpdate.approvedClips := None; CampaignUpdate.pendingClips := None;
          CampaignUpdate.rejectedClips := None; CampaignUpdate.enableLeaderboard := None;
          CampaignUpdate.endDate := None; CampaignUpdate.archivedAt := None |};
     UpdateBody.prizeDistributions := None |}.
End PermissionsExample.

(** The same query for page [p]. *)
Definition atPage (filters : ListFilters.t) (p : positive) : ListFilters.t :=
  {| ListFilters.status := ListFilters.status filters;
     ListFilters.studioId := ListFilters.studioId filters;
     ListFilters.createdBy := ListFilters.createdBy filters;
     ListFilters.published := ListFilters.published filters;
     ListFilters.page := Some p;
     ListFilters.limit := ListFilters.limit filters |}.

(** The campaigns on page [k + 1] of the listing. *)
Definition pageRows (publishedColumn : Campaign.t -> bool) (filters : ListFilters.t)
           (env : Env) (s : Store) (k : nat) : list Campaign.t :=
  match outcome (listCampaigns publishedColumn (atPage filters (Pos.of_succ_nat k))) env s with
  | inr r => CampaignPage.campaigns r
  | inl _ => []
  end.

Module ListExample.
Import Example.
(** Alice's campaigns, one per page. *)
Definition byAlice : ListFilters.t :=
  {| ListFilters.status := Some ACTIVE;
     ListFilters.studioId := Some "";
     ListFilters.createdBy := Some "alice";
     ListFilters.published := None;
     ListFilters.page := None;
     ListFilters.limit := Some 1%positive |}.
End ListExample.

(** * Properties *)

(** ** Reasoning about service computations *)

Ltac unfold_m :=
  unfold run, outcome, after, bind, ret, throw, gets, asks, modify, liftE, when, tryCatch in *.

Ltac unfold_prisma :=
  unfold Prisma.campaign_findUnique, Prisma.campaign_findMany, Prisma.campaign_create,
    Prisma.campaign_update, Prisma.campaign_delete,
    Prisma.campaignParticipant_findUnique, Prisma.campaignParticipant_create,
    Prisma.campaignParticipant_update, Prisma.campaignParticipant_deleteMany,
    Prisma.campaignParticipant_delete, Prisma.waitlistBan_findUnique,
    Prisma.waitlistBan_create, Prisma.waitlistResponse_create,
    Prisma.waitlistResponse_updateMany, Prisma.campaignApplication_updateMany,
    Prisma.waitlistQuestion_deleteMany, Prisma.waitlistQuestion_create,
    Prisma.waitlistQuestion_findMany, Prisma.prizeDistribution_deleteMany,
    Prisma.prizeDistribution_create, Prisma.campaignInvite_create,
    getParticipantRole, getCampaign, publish in *.

Lemma apply_keeps_id (d : CampaignUpdate.t) (c : Campaign.t) :
  Campaign.id (CampaignUpdate.apply d c) = Campaign.id c.
Proof. reflexivity. Qed.

(** Looking a campaign up after [update({ where: { id }, data })]. *)
Lemma find_after_update (id id' : string) (d : CampaignUpdate.t) (l : list Campaign.t) :
  find (fun c => String.eqb (Campaign.id c) id')
       (map (fun x => if String.eqb (Campaign.id x) id then CampaignUpdate.apply d x else x) l)
  = if String.eqb id' id
    then option_map (CampaignUpdate.apply d) (find (fun c => String.eqb (Campaign.id c) id) l)
    else find (fun c => String.eqb (Campaign.id c) id') l.
Proof.
  induction l as [| x l IH]; simpl.
  - now destruct (String.eqb id' id).
  - destruct (String.eqb_spec (Campaign.id x) id) as [E1 | E1].
    + rewrite apply_keeps_id, E1. destruct (String.eqb_spec id id') as [E2 | E2].
      * subst id'. now rewrite String.eqb_refl.
      * destruct (String.eqb_spec id' id) as [E3 | E3]; [congruence | exact IH].
    + destruct (String.eqb_spec id' id) as [E2 | E2].
      * subst id'. destruct (String.eqb_spec (Campaign.id x) id); [contradiction | exact IH].
      * destruct (String.eqb (Campaign.id x) id'); [reflexivity | exact IH].
Qed.

(** What a campaign update that is not refused does. *)
Lemma campaign_update_run (env : Env) (s : Store) (id : string) (d : CampaignUpdate.t)
      (c : Campaign.t) :
  findCampaign id s = Some c ->
  updateFails env id = false ->
  Prisma.campaign_update id d env s
  = (inr (CampaignUpdate.apply d c),
     set_campaign
       (map (fun x => if String.eqb (Campaign.id x) id then CampaignUpdate.apply d x else x)
            (campaign s)) s).
Proof.
  intros Hc Hu. unfold Prisma.campaign_update. unfold_m.
  rewrite Hu, Hc. reflexivity.
Qed.

Lemma findCampaign_updated (s : Store) (id id' : string) (d : CampaignUpdate.t) :
  findCampaign id'
    (set_campaign
       (map (fun x => if String.eqb (Campaign.id x) id then CampaignUpdate.apply d x else x)
            (campaign s)) s)
  = if String.eqb id' id
    then option_map (CampaignUpdate.apply d) (findCampaign id s)
    else findCampaign id' s.
Proof. unfold findCampaign. simpl. apply find_after_update. Qed.

(** ** C6: platform identifiers *)

Lemma lowerAscii_upper (c : ascii) :
  JsString.lowerAscii
    (let n := nat_of_ascii c in
     if (Nat.leb 97 n && Nat.leb n 122)%bool then ascii_of_nat (n - 32) else c)
  = JsString.lowerAscii c.
Proof.
  destruct c as [[] [] [] [] [] [] [] []]; reflexivity.
Qed.

Lemma toLowerCase_toUpperCase (s : string) :
  JsString.toLowerCase (JsString.toUpperCase s) = JsString.toLowerCase s.
Proof.
  induction s as [| c r IH]; simpl.
  - reflexivity.
  - rewrite IH. f_equal. apply lowerAscii_upper.
Qed.

Lemma platformOf_lower (p q : string) :
  JsString.toLowerCase p = JsString.toLowerCase q -> platformOf p = platformOf q.
Proof.
  intros H. unfold platformOf, mapPlatform. rewrite H.
  repeat match goal with |- context [if ?b then _ else _] => destruct b end; reflexivity.
Qed.

Lemma recognized_platformOf (p : string) :
  recognized p = true <-> exists x, platformOf p = Some x.
Proof.
  unfold recognized, platformOf, mapPlatform.
  destruct (JsString.includes _ "tiktok" || _)%bool; simpl.
  { split; eauto. }
  destruct (JsString.includes _ "instagram" || _)%bool; simpl.
  { split; eauto. }
  destruct (JsString.includes _ "youtube" || _)%bool; simpl.
  { split; eauto. }
  destruct (JsString.includes _ "twitter" || _)%bool; simpl.
  { split; eauto. }
  split; [discriminate | intros [x Hx]; discriminate].
Qed.

Lemma mapPlatform_unrecognized (p : string) :
  recognized p = false -> mapPlatform p = inl (BadRequest ("Invalid platform: " ++ p)).
Proof.
  unfold recognized, mapPlatform. intros H.
  apply orb_false_iff in H as [H H4]. apply orb_false_iff in H as [H H3].
  apply orb_false_iff in H as [H1 H2]. rewrite H1, H2, H3, H4. reflexivity.
Qed.

Lemma mapPlatform_error (p : string) (e : ServiceError) :
  mapPlatform p = inl e -> recognized p = false /\ isBadRequest e = true.
Proof.
  intros H. destruct (recognized p) eqn:R.
  - apply recognized_platformOf in R as [x Hx]. unfold platformOf in Hx.
    rewrite H in Hx. discriminate.
  - rewrite (mapPlatform_unrecognized _ R) in H. inversion H. auto.
Qed.

Lemma mapPlatforms_ok (ps : list string) :
  Forall (fun p => recognized p = true) ps ->
  exists out, mapPlatforms ps = inr out /\ Forall2 (fun p x => platformOf p = Some x) ps out.
Proof.
  induction 1 as [| p ps Hp _ IH]; simpl.
  - exists []. split; [reflexivity | constructor].
  - destruct IH as [out [E F]].
    apply recognized_platformOf in Hp as [x Hx].
    unfold platformOf in Hx. destruct (mapPlatform p) as [e | y] eqn:Ep; [discriminate|].
    inversion Hx; subst y. rewrite E. exists (x :: out). split; [reflexivity|].
    constructor; [| exact F]. unfold platformOf. now rewrite Ep.
Qed.

Lemma mapPlatforms_error (ps : list string) (e : ServiceError) :
  mapPlatforms ps = inl e ->
  Exists (fun p => recognized p = false) ps /\ isBadRequest e = true.
Proof.
  induction ps as [| p ps IH]; simpl; [discriminate|].
  destruct (mapPlatform p) as [e1 | x] eqn:Ep.
  - intros H; inversion H; subst e1. apply mapPlatform_error in Ep as [R B].
    split; [now left | exact B].
  - destruct (mapPlatforms ps) as [e2 | xs]; [| discriminate].
    intros H; inversion H; subst e2. destruct (IH eq_refl) as [X B].
    split; [now right | exact B].
Qed.

Lemma mapPlatforms_unrecognized (ps : list string) :
  Exists (fun p => recognized p = false) ps ->
  exists msg, mapPlatforms ps = inl (BadRequest msg).
Proof.
  intros H. destruct (mapPlatforms ps) as [e | out] eqn:E.
  - destruct (mapPlatforms_error _ _ E) as [_ B]. destruct e; try discriminate. eauto.
  - exfalso. revert out E. induction H as [p ps R | p ps _ IH]; intros out; simpl.
    + now rewrite (mapPlatform_unrecognized _ R).
    + destruct (mapPlatform p); [discriminate|].
      destruct (mapPlatforms ps) as [|xs]; [discriminate|]. intros _. now apply (IH xs).
Qed.

Lemma nbr_ret {A : Type} (a : A) : noBadRequest (ret a).
Proof. intros env s msg. discriminate. Qed.

Lemma nbr_gets {A : Type} (f : Store -> A) : noBadRequest (gets f).
Proof. intros env s msg. discriminate. Qed.

Lemma nbr_asks {A : Type} (f : Env -> A) : noBadRequest (asks f).
Proof. intros env s msg. discriminate. Qed.

Lemma nbr_modify (f : Store -> Store) : noBadRequest (modify f).
Proof. intros env s msg. discriminate. Qed.

Lemma nbr_throw {A : Type} (e : ServiceError) :
  isBadRequest e = false -> noBadRequest (@throw A e).
Proof.
  intros He env s msg H. unfold outcome, throw in H. simpl in H.
  inversion H; subst e. discriminate.
Qed.

Lemma nbr_bind {A B : Type} (m : M A) (k : A -> M B) :
  noBadRequest m -> (forall a, noBadRequest (k a)) -> noBadRequest (bind m k).
Proof.
  intros Hm Hk env s msg. unfold outcome, bind.
  specialize (Hm env s msg). unfold outcome in Hm.
  destruct (m env s) as [[e | a] s']; simpl in *.
  - intros H. apply Hm. now inversion H.
  - apply (Hk a env s' msg).
Qed.

Lemma nbr_forEach {A : Type} (xs : list A) (body : A -> M unit) :
  (forall x, noBadRequest (body x)) -> noBadRequest (forEach xs body).
Proof.
  intros Hb. induction xs as [| x xs IH]; simpl.
  - apply nbr_ret.
  - apply nbr_bind; [apply Hb | intros _; exact IH].
Qed.

Lemma nbr_forEachIndexed {A : Type} (xs : list A) (body : Z -> A -> M unit) :
  (forall i x, noBadRequest (body i x)) ->
  forall i, noBadRequest (forEachIndexed i xs body).
Proof.
  intros Hb. induction xs as [| x xs IH]; intros i; simpl.
  - apply nbr_ret.
  - apply nbr_bind; [apply Hb | intros _; apply IH].
Qed.

Lemma nbr_when (b : bool) (m : M unit) : noBadRequest m -> noBadRequest (when b m).
Proof. intros H. destruct b; [exact H | apply nbr_ret]. Qed.

Ltac nbr :=
  repeat first
    [ apply nbr_ret | apply nbr_gets | apply nbr_asks | apply nbr_modify
    | apply nbr_throw; reflexivity
    | apply nbr_bind; [| intros ?]
    | apply nbr_when
    | apply nbr_forEach; intros ?
    | apply nbr_forEachIndexed; intros ? ?
    | match goal with
      | |- noBadRequest (match ?x with _ => _ end) => destruct x
      end
    | progress unfold_prisma ].

(** Once the platforms are mapped, nothing in [createCampaign] raises
    InvalidInput. *)
Lemma createCampaign_badRequest (newId : string) (data : CreateInput.t)
      (creator : AuthUser) (env : Env) (s : Store) (msg : string) :
  outcome (createCampaign newId data creator) env s = inl (BadRequest msg) ->
  mapPlatforms (CreateInput.platforms data) = inl (BadRequest msg).
Proof.
  unfold createCampaign.
  destruct (mapPlatforms (CreateInput.platforms data)) as [e | platforms] eqn:E.
  - unfold outcome, bind, liftE. simpl. intros H. now inversion H.
  - intros H. exfalso. revert H.
    match goal with |- outcome (bind _ ?k) env s = _ -> False =>
      change (outcome (k platforms) env s <> inl (BadRequest msg))
    end.
    revert env s msg.
    match goal with |- forall env s msg, outcome ?m env s <> _ =>
      change (noBadRequest m)
    end.
    nbr.
Qed.

Lemma createCampaign_unrecognized (newId : string) (data : CreateInput.t)
      (creator : AuthUser) (env : Env) (s : Store) (e : ServiceError) :
  mapPlatforms (CreateInput.platforms data) = inl e ->
  run (createCampaign newId data creator) env s = (inl e, s).
Proof.
  intros E. unfold createCampaign, run, bind, liftE. now rewrite E.
Qed.

(** C6.  [mapPlatform] answers one of TIKTOK, INSTAGRAM, YOUTUBE, TWITTER
    exactly for the recognised strings, the answer depends on the
    lower-cased string only (so it is the same for the upper-cased string),
    the aliases [yt] and [x] go to YOUTUBE and TWITTER in either case; when
    every string of the list is recognised [mapPlatforms] maps the list
    element by element; and [createCampaign] fails with InvalidInput if and
    only if some string of the list is not recognised (the store is then
    untouched). *)
Theorem create_invalid_iff_unrecognized_platform
        (newId : string) (data : CreateInput.t) (creator : AuthUser)
        (env : Env) (s : Store) :
  (forall p, recognized p = true <-> exists x, platformOf p = Some x)
  /\ (forall p q, JsString.toLowerCase p = JsString.toLowerCase q ->
                  platformOf p = platformOf q)
  /\ (forall p, platformOf (JsString.toUpperCase p) = platformOf p)
  /\ (platformOf "yt" = Some YOUTUBE /\ platformOf "YT" = Some YOUTUBE
      /\ platformOf "x" = Some TWITTER /\ platformOf "X" = Some TWITTER
      /\ platformOf "TikTok" = Some TIKTOK /\ platformOf "Insta" = Some INSTAGRAM)
  /\ (Forall (fun p => recognized p = true) (CreateInput.platforms data) ->
      exists out,
        mapPlatforms (CreateInput.platforms data) = inr out
        /\ Forall2 (fun p x => platformOf p = Some x) (CreateInput.platforms data) out)
  /\ ((exists msg, outcome (createCampaign newId data creator) env s = inl (BadRequest msg))
      <-> Exists (fun p => recognized p = false) (CreateInput.platforms data))
  /\ (Exists (fun p => recognized p = false) (CreateInput.platforms data) ->
      after (createCampaign newId data creator) env s = s).
Proof.
  split; [exact recognized_platformOf |].
  split; [exact platformOf_lower |].
  split; [intros p; apply platformOf_lower, toLowerCase_toUpperCase |].
  split; [repeat split |].
  split; [apply mapPlatforms_ok |].
  split; [split |].
  - intros [msg H]. apply createCampaign_badRequest in H.
    apply mapPlatforms_error in H. apply H.
  - intros H. apply mapPlatforms_unrecognized in H as [msg H]. exists msg.
    unfold outcome. change (createCampaign newId data creator env s)
      with (run (createCampaign newId data creator) env s).
    now rewrite (createCampaign_unrecognized _ _ _ _ _ _ H).
  - intros H. apply mapPlatforms_unrecognized in H as [msg H].
    unfold after. change (createCampaign newId data creator env s)
      with (run (createCampaign newId data creator) env s).
    now rewrite (createCampaign_unrecognized _ _ _ _ _ _ H).
Qed.

Lemma create_invalid_iff_unrecognized_platform_witness :
  Exists (fun p => recognized p = false) (CreateInput.platforms Example.inputWithVimeo)
  /\ (exists msg,
        outcome (createCampaign "c1" Example.inputWithVimeo Example.alice)
                Example.env emptyStore = inl (BadRequest msg))
  /\ Forall (fun p => recognized p = true)
            (CreateInput.platforms (Example.input AUTO_JOIN 5 1000))
  /\ (exists out,
        mapPlatforms (CreateInput.platforms (Example.input AUTO_JOIN 5 1000)) = inr out
        /\ Forall2 (fun p x => platformOf p = Some x)
                   (CreateInput.platforms (Example.input AUTO_JOIN 5 1000)) out).
Proof.
  assert (Hbad : Exists (fun p => recognized p = false)
                        (CreateInput.platforms Example.inputWithVimeo))
    by (right; left; reflexivity).
  assert (Hgood : Forall (fun p => recognized p = true)
                         (CreateInput.platforms (Example.input AUTO_JOIN 5 1000)))
    by (repeat constructor).
  split; [exact Hbad | split; [| split; [exact Hgood |]]].
  - apply (create_invalid_iff_unrecognized_platform "c1" Example.inputWithVimeo
             Example.alice Example.env emptyStore). exact Hbad.
  - apply (create_invalid_iff_unrecognized_platform "c1" (Example.input AUTO_JOIN 5 1000)
             Example.alice Example.env emptyStore). exact Hgood.
Defined.

(** ** C9: the clip counters *)

Lemma handle_clip_event (env : Env) (s : Store) (id : string) (c : Campaign.t)
      (ev : InboundEvent) (d : CampaignUpdate.t) :
  findCampaign id s = Some c ->
  updateFails env id = false ->
  (ev = ClipSubmitted id /\ d = CampaignUpdate.incPending)
  \/ (ev = ClipApproved id /\ d = CampaignUpdate.incApproved)
  \/ (ev = ClipRejected id /\ d = CampaignUpdate.incRejected) ->
  outcome (handleEvent ev) env s = inr tt
  /\ findCampaign id (after (handleEvent ev) env s) = Some (CampaignUpdate.apply d c)
  /\ forall id', id' <> id ->
       findCampaign id' (after (handleEvent ev) env s) = findCampaign id' s.
Proof.
  intros Hc Hu Hev.
  assert (E : handleEvent ev = bind (Prisma.campaign_update id d) (fun _ => ret tt)).
  { destruct Hev as [[-> ->] | [[-> ->] | [-> ->]]]; reflexivity. }
  rewrite E. unfold outcome, after, bind, ret.
  rewrite (campaign_update_run env s id d c Hc Hu). simpl.
  split; [reflexivity | split].
  - rewrite findCampaign_updated, String.eqb_refl, Hc. reflexivity.
  - intros id' Hne. rewrite findCampaign_updated.
    destruct (String.eqb_spec id' id); [contradiction | reflexivity].
Qed.

(** C9.  One delivery of [clip.submitted], [clip.approved] or [clip.rejected]
    for an existing campaign is acknowledged and adds exactly 1 to
    [pendingClips], [approvedClips] or [rejectedClips] respectively, leaves
    the two other counters as they were and touches no other campaign.  The
    handlers are not idempotent: the same [clip.approved] delivered twice
    adds 2 to [approvedClips]. *)
Theorem clip_event_increments_its_counter
        (env : Env) (s : Store) (id : string) (p a r : Z) :
  countersOf id s = Some (p, a, r) ->
  updateFails env id = false ->
  (forall ev,
      ev = ClipSubmitted id \/ ev = ClipApproved id \/ ev = ClipRejected id ->
      outcome (handleEvent ev) env s = inr tt
      /\ forall id', id' <> id ->
           findCampaign id' (after (handleEvent ev) env s) = findCampaign id' s)
  /\ countersOf id (after (handleEvent (ClipSubmitted id)) env s) = Some (p + 1, a, r)
  /\ countersOf id (after (handleEvent (ClipApproved id)) env s) = Some (p, a + 1, r)
  /\ countersOf id (after (handleEvent (ClipRejected id)) env s) = Some (p, a, r + 1)
  /\ countersOf id (after (handleEvent (ClipApproved id)) env
                      (after (handleEvent (ClipApproved id)) env s))
     = Some (p, a + 2, r).
Proof.
  intros Hc Hu. unfold countersOf in *.
  destruct (findCampaign id s) as [c |] eqn:Ec; [| discriminate].
  simpl in Hc. inversion Hc as [[Hp Ha Hr]]. clear Hc.
  pose proof (handle_clip_event env s id c (ClipSubmitted id) CampaignUpdate.incPending
                Ec Hu (or_introl (conj eq_refl eq_refl))) as [S1 [S2 S3]].
  pose proof (handle_clip_event env s id c (ClipApproved id) CampaignUpdate.incApproved
                Ec Hu (or_intror (or_introl (conj eq_refl eq_refl)))) as [A1 [A2 A3]].
  pose proof (handle_clip_event env s id c (ClipRejected id) CampaignUpdate.incRejected
                Ec Hu (or_intror (or_intror (conj eq_refl eq_refl)))) as [R1 [R2 R3]].
  pose proof (handle_clip_event env _ id _ (ClipApproved id) CampaignUpdate.incApproved
                A2 Hu (or_intror (or_introl (conj eq_refl eq_refl)))) as [_ [B2 _]].
  split; [| split; [| split; [| split]]].
  - intros ev [-> | [-> | ->]]; split; assumption.
  - rewrite S2. reflexivity.
  - rewrite A2. reflexivity.
  - rewrite R2. reflexivity.
  - rewrite B2. unfold clipCounters. simpl.
    now rewrite <- Z.add_assoc.
Qed.

Lemma clip_event_increments_its_counter_witness :
  countersOf "c1" (Example.activeCampaign AUTO_JOIN 5 1000) = Some (0, 0, 0)
  /\ countersOf "c1"
       (after (handleEvent (ClipApproved "c1")) Example.env
          (after (handleEvent (ClipApproved "c1")) Example.env
             (Example.activeCampaign AUTO_JOIN 5 1000)))
     = Some (0, 0 + 2, 0).
Proof.
  split; [reflexivity |].
  apply (clip_event_increments_its_counter Example.env
           (Example.activeCampaign AUTO_JOIN 5 1000) "c1" 0 0 0);
    reflexivity.
Defined.

(** ** C5: funding *)

(** The literal [0.1] is the double nearest to one tenth. *)
Lemma Binary64_tenth :
  SFdiv Binary64.prec Binary64.emax (Binary64.ofZ 1) (Binary64.ofZ 10) = Binary64.tenth.
Proof. vm_compute. reflexivity. Qed.

(** On every integer amount from -2000 to 12000, and on a sample of
    amounts around the 32-bit bounds, the integer formula [roundTenth] is
    the binary64 computation [Math.round(x * 0.1)]. *)
Lemma Binary64_agrees :
  forallb (fun x => match Binary64.roundTenth x with
                    | Some y => y =? roundTenth x
                    | None => false
                    end)
          (Binary64.range (-2000) (Z.to_nat 14001)
           ++ Binary64.range (2 ^ 31 - 1000) (Z.to_nat 2000)
           ++ Binary64.range (- 2 ^ 31 - 1000) (Z.to_nat 2000))
  = true.
Proof. vm_compute. reflexivity. Qed.




(** ** Participants: lookups after a write *)

Lemma sameKey_refl (cid uid : string) : sameKey cid uid cid uid = true.
Proof. unfold sameKey. now rewrite !String.eqb_refl. Qed.

Lemma sameKey_eq (cid uid cid' uid' : string) :
  sameKey cid uid cid' uid' = true <-> cid' = cid /\ uid' = uid.
Proof.
  unfold sameKey. rewrite andb_true_iff, !String.eqb_eq. reflexivity.
Qed.

Lemma find_participant_after_update (cid uid : string) (r : ParticipantRole)
      (l : list Participant.t) :
  find (fun p => sameKey cid uid (Participant.campaignId p) (Participant.userId p))
       (map (fun x => if sameKey cid uid (Participant.campaignId x) (Participant.userId x)
                      then setRole r x else x) l)
  = option_map (setRole r)
      (find (fun p => sameKey cid uid (Participant.campaignId p) (Participant.userId p)) l).
Proof.
  induction l as [| x l IH]; simpl; [reflexivity |].
  destruct (sameKey cid uid (Participant.campaignId x) (Participant.userId x)) eqn:E; simpl.
  - rewrite E. reflexivity.
  - rewrite E. exact IH.
Qed.

Lemma find_participant_after_deleteMany (cid uid : string) (l : list Participant.t) :
  find (fun p => sameKey cid uid (Participant.campaignId p) (Participant.userId p))
       (filter (fun x => negb (sameKey cid uid (Participant.campaignId x)
                                       (Participant.userId x))) l)
  = None.
Proof.
  induction l as [| x l IH]; simpl; [reflexivity |].
  destruct (sameKey cid uid (Participant.campaignId x) (Participant.userId x)) eqn:E; simpl.
  - exact IH.
  - rewrite E. exact IH.
Qed.

(** A row appended to a table is found when no earlier row has its key. *)
Lemma find_append {A : Type} (test : A -> bool) (l l' : list A) :
  find test (l ++ l') = match find test l with Some x => Some x | None => find test l' end.
Proof.
  induction l as [| x l IH]; simpl; [reflexivity |].
  destruct (test x); [reflexivity | exact IH].
Qed.

(** An [updateMany] whose [where] clause matches no row changes nothing. *)
Lemma map_if_no_match {A : Type} (test : A -> bool) (f : A -> A) (l : list A) :
  find test l = None ->
  map (fun x => if test x then f x else x) l = l.
Proof.
  induction l as [| x l IH]; simpl; [reflexivity |].
  destruct (test x); [discriminate |]. intros H. now rewrite IH.
Qed.

Lemma mayModerate_check (cid : string) (user : AuthUser) (s : Store) :
  mayModerate cid user s ->
  (negb (roleIs (roleOf cid (userId user) s) CREATOR)
   && negb (roleIs (roleOf cid (userId user) s) ADMIN)
   && negb (isStaff user))%bool = false.
Proof.
  intros [H | [H | H]]; rewrite H; simpl; try reflexivity.
  now rewrite andb_false_r.
Qed.

(** ** C10: approval does not look at the current role *)

(** C10.  [approveParticipant] never tests that the target is PENDING: for
    an existing participant row of any role, an approval by a CREATOR, an
    ADMIN or staff while the participant count is below [editorSlots]
    returns the row with role MEMBER and stores it; when the target has no
    waitlist response the response update matches nothing, the response
    table is unchanged and the call still succeeds. *)
Theorem approve_sets_member_whatever_the_role
        (env : Env) (s : Store) (now : Z) (cid target : string) (actor : AuthUser)
        (c : Campaign.t) (p : Participant.t) :
  findCampaign cid s = Some c ->
  mayModerate cid actor s ->
  Z.of_nat (countParticipants cid s) < Campaign.editorSlots c ->
  findParticipant cid target s = Some p ->
  publishFails env (EvParticipantJoined cid target MEMBER VIA_WAITLIST) = false ->
  outcome (approveParticipant now cid target actor) env s = inr (setRole MEMBER p)
  /\ roleOf cid target (after (approveParticipant now cid target actor) env s) = Some MEMBER
  /\ (findResponse cid target s = None ->
      waitlistResponse (after (approveParticipant now cid target actor) env s)
      = waitlistResponse s).
Proof.
  intros Hc Hmay Hcap Hp Hpub.
  pose proof (mayModerate_check _ _ _ Hmay) as Hchk. unfold roleOf in Hchk.
  assert (Hslots : (Campaign.editorSlots c <=? Z.of_nat (countParticipants cid s)) = false)
    by (apply Z.leb_gt; exact Hcap).
  unfold approveParticipant. unfold_prisma. unfold_m. simpl.
  rewrite Hc. simpl. rewrite Hchk, Hslots, Hp. simpl. rewrite Hpub. simpl.
  split; [reflexivity | split].
  - unfold roleOf, findParticipant. simpl.
    rewrite find_participant_after_update.
    fold (findParticipant cid target s). rewrite Hp. reflexivity.
  - intros Hr. apply map_if_no_match. exact Hr.
Qed.


Lemma approve_sets_member_whatever_the_role_witness :
  roleOf "c1" "bob" ApproveExample.start = Some ADMIN
  /\ findResponse "c1" "bob" ApproveExample.start = None
  /\ roleOf "c1" "bob"
       (after (approveParticipant 7 "c1" "bob" Example.alice) Example.env
              ApproveExample.start) = Some MEMBER.
Proof.
  split; [reflexivity | split; [reflexivity |]].
  apply (approve_sets_member_whatever_the_role Example.env ApproveExample.start 7
           "c1" "bob" Example.alice
           {| Campaign.id := "c1"; Campaign.title := "Launch";
              Campaign.createdBy := "alice"; Campaign.studioId := None;
              Campaign.platforms := [YOUTUBE; TIKTOK]; Campaign.status := ACTIVE;
              Campaign.campaignType := WAITLIST; Campaign.editorSlots := 5;
              Campaign.totalBudget := 1000; Campaign.platformFee := 0;
              Campaign.remainingBudget := 0; Campaign.spentBudget := 0;
              Campaign.isFunded := false; Campaign.approvedClips := 0;
              Campaign.pendingClips := 0; Campaign.rejectedClips := 0;
              Campaign.totalViews := 0; Campaign.enableLeaderboard := false;
              Campaign.isPrivate := false; Campaign.endDate := 1000;
              Campaign.archivedAt := None |}
           {| Participant.campaignId := "c1"; Participant.userId := "bob";
              Participant.role := ADMIN |}).
  - reflexivity.
  - left. reflexivity.
  - vm_compute. reflexivity.
  - reflexivity.
  - reflexivity.
Defined.

(** ** C2: banning *)

(** C2, as stated, fails.  Bob's PENDING waitlist response, created by his
    WAITLIST join, is still PENDING after the creator's successful ban: the
    ban updates the [campaignApplication] table, not [waitlistResponse]. *)
Lemma ban_leaves_waitlist_response_pending :
  option_map Response.status (findResponse "c1" "bob" BanExample.applied) = Some RS_PENDING
  /\ outcome (banParticipant 7 "c1" "bob" Example.alice None) Example.env BanExample.applied
     = inr tt
  /\ option_map Response.status (findResponse "c1" "bob" BanExample.banned) = Some RS_PENDING
  /\ option_map Response.status (findResponse "c1" "bob" BanExample.banned) <> Some REJECTED.
Proof.
  split; [reflexivity | split; [reflexivity | split; [reflexivity |]]].
  vm_compute. discriminate.
Qed.

(** C2, amended.  On an existing campaign, a ban by a CREATOR, an ADMIN or
    staff of a target who is not banned yet succeeds whether or not the
    target has a participant row; afterwards the target has no participant row and a ban record,
    every row of [campaignApplication] of the target that was PENDING is
    REJECTED (no PENDING one is left), and the [waitlistResponse] table is
    as it was. *)
Theorem ban_rejects_pending_applications
        (env : Env) (s : Store) (now : Z) (cid target : string) (actor : AuthUser)
        (reason : option string) :
  findCampaign cid s <> None ->
  mayModerate cid actor s ->
  findBan cid target s = None ->
  publishFails env (EvParticipantLeft cid target BANNED) = false ->
  let s' := after (banParticipant now cid target actor reason) env s in
  outcome (banParticipant now cid target actor reason) env s = inr tt
  /\ findParticipant cid target s' = None
  /\ findBan cid target s' <> None
  /\ campaignApplication s'
     = map (fun a => if pendingApplicationOf cid target a
                     then decideApplication REJECTED now a else a)
           (campaignApplication s)
  /\ (forall a, In a (campaignApplication s') -> pendingApplicationOf cid target a = false)
  /\ waitlistResponse s' = waitlistResponse s.
Proof.
  intros _ Hmay Hban Hpub.
  pose proof (mayModerate_check _ _ _ Hmay) as Hchk. unfold roleOf in Hchk.
  unfold banParticipant. unfold_prisma. unfold_m. simpl.
  rewrite Hchk, Hban. simpl. rewrite Hpub. simpl.
  split; [reflexivity | split; [| split; [| split; [| split]]]].
  - unfold findParticipant. simpl. apply find_participant_after_deleteMany.
  - unfold findBan in *. simpl. rewrite find_append, Hban. simpl.
    rewrite sameKey_refl. discriminate.
  - reflexivity.
  - intros a Ha. apply in_map_iff in Ha as [b [Hb _]].
    fold (pendingApplicationOf cid target b) in Hb.
    destruct (pendingApplicationOf cid target b) eqn:E; subst a.
    + unfold pendingApplicationOf. simpl. apply andb_false_r.
    + exact E.
  - reflexivity.
Qed.

Lemma ban_rejects_pending_applications_witness :
  findParticipant "c1" "bob" BanExample.banned = None
  /\ findParticipant "c1" "carol" BanExample.applied = None
  /\ outcome (banParticipant 7 "c1" "carol" Example.alice None) Example.env BanExample.applied
     = inr tt.
Proof.
  split; [| split; [reflexivity |]].
  - apply (ban_rejects_pending_applications Example.env BanExample.applied 7 "c1" "bob"
             Example.alice None);
      [vm_compute; discriminate | left; reflexivity | reflexivity | reflexivity].
  - apply (ban_rejects_pending_applications Example.env BanExample.applied 7 "c1" "carol"
             Example.alice None);
      [vm_compute; discriminate | left; reflexivity | reflexivity | reflexivity].
Defined.

(** ** C3: deleting *)

(** With the [adminsCanDeleteCampaign] override set, [deleteCampaign] lets
    every caller through: the role of the caller is never compared with
    ADMIN. *)
Lemma delete_with_override_ignores_role
      (env : Env) (s : Store) (id : string) (user : AuthUser) (c : Campaign.t)
      (perms : Permissions.t) :
  findCampaign id s = Some c ->
  findPermissions id s = Some perms ->
  Permissions.adminsCanDeleteCampaign perms = true ->
  outcome (deleteCampaign id user) env s = inr tt
  /\ findCampaign id (after (deleteCampaign id user) env s) = None.
Proof.
  intros Hc Hp Hflag. unfold deleteCampaign. unfold_prisma. unfold_m. simpl.
  rewrite Hc, Hp. simpl. rewrite Hflag. simpl.
  assert (G : find (fun c0 => String.eqb (Campaign.id c0) id)
                   (filter (fun x => negb (String.eqb (Campaign.id x) id)) (campaign s))
              = None).
  { clear. induction (campaign s) as [| x l IH]; simpl; [reflexivity |].
    destruct (String.eqb (Campaign.id x) id) eqn:E; simpl; [exact IH | now rewrite E]. }
  destruct (negb (roleIs _ CREATOR) && negb (isStaff user))%bool; simpl;
    rewrite Hc; simpl; (split; [reflexivity | exact G]).
Qed.

(** The part of C3 that the code does implement: without the override
    (no permissions record, or the flag unset) a caller who is neither the
    CREATOR nor staff, an ADMIN included, is refused. *)
Lemma delete_without_override_forbidden
      (env : Env) (s : Store) (id : string) (user : AuthUser) (c : Campaign.t) :
  findCampaign id s = Some c ->
  roleOf id (userId user) s <> Some CREATOR ->
  isStaff user = false ->
  option_map Permissions.adminsCanDeleteCampaign (findPermissions id s) <> Some true ->
  run (deleteCampaign id user) env s
  = (inl (Forbidden "You do not have permission to delete this campaign"), s).
Proof.
  intros Hc Hrole Hstaff Hperm. unfold deleteCampaign. unfold_prisma. unfold_m. simpl.
  rewrite Hc. simpl. rewrite Hstaff.
  assert (R : roleIs (option_map Participant.role (findParticipant id (userId user) s))
                     CREATOR = false).
  { unfold roleOf in Hrole.
    destruct (option_map Participant.role (findParticipant id (userId user) s))
      as [[] |]; simpl; try reflexivity. now elim Hrole. }
  rewrite R. simpl.
  destruct (findPermissions id s) as [perms |]; simpl in *.
  - destruct (Permissions.adminsCanDeleteCampaign perms); [now elim Hperm | reflexivity].
  - reflexivity.
Qed.

(** C3 at the failing input.  Mallory is not a participant of [c1] and not
    staff; the creator has set [adminsCanDeleteCampaign]; Mallory's
    [deleteCampaign] is not refused and the campaign is gone. *)
Theorem delete_by_outsider_succeeds :
  roleOf "c1" "mallory" Example.deletable = None
  /\ isStaff Example.mallory = false
  /\ run (deleteCampaign "c1" Example.mallory) Example.env Example.deletable
     = (inr tt, set_campaign [] Example.deletable)
  /\ findCampaign "c1" (after (deleteCampaign "c1" Example.mallory) Example.env
                              Example.deletable) = None.
Proof. repeat split. Qed.

(** ** C8: waitlist questions *)

Lemma insertByOrder_perm (q : Question.t) (l : list Question.t) :
  Permutation (insertByOrder q l) (q :: l).
Proof.
  induction l as [| x l IH]; simpl.
  - apply Permutation_refl.
  - destruct (Question.order q <=? Question.order x).
    + apply Permutation_refl.
    + eapply perm_trans; [apply perm_skip, IH | apply perm_swap].
Qed.

Lemma sortByOrder_perm (l : list Question.t) : Permutation (sortByOrder l) l.
Proof.
  induction l as [| x l IH]; simpl.
  - constructor.
  - eapply perm_trans; [apply insertByOrder_perm | apply perm_skip, IH].
Qed.

Lemma insertByOrder_sorted (q : Question.t) (l : list Question.t) :
  StronglySorted byOrder l -> StronglySorted byOrder (insertByOrder q l).
Proof.
  induction 1 as [| x l Hs IH Hx]; simpl.
  - constructor; constructor.
  - destruct (Z.leb_spec (Question.order q) (Question.order x)) as [Hle | Hgt].
    + constructor; [constructor; assumption |].
      constructor; [exact Hle |].
      eapply Forall_impl; [| exact Hx]. unfold byOrder. intros; lia.
    + constructor; [exact IH |].
      eapply Permutation_Forall; [apply Permutation_sym, insertByOrder_perm |].
      constructor; [unfold byOrder; lia | exact Hx].
Qed.

Lemma sortByOrder_sorted (l : list Question.t) : StronglySorted byOrder (sortByOrder l).
Proof.
  induction l as [| x l IH]; simpl.
  - constructor.
  - apply insertByOrder_sorted, IH.
Qed.

(** A list that is already in order is listed as it is. *)
Lemma sortByOrder_of_sorted (l : list Question.t) :
  StronglySorted byOrder l -> sortByOrder l = l.
Proof.
  induction 1 as [| x l Hs IH Hx]; simpl; [reflexivity |].
  rewrite IH. destruct l as [| y l]; simpl; [reflexivity |].
  inversion Hx as [| ? ? Hxy _]; subst. unfold byOrder in Hxy.
  apply Z.leb_le in Hxy. now rewrite Hxy.
Qed.

Lemma questionRows_nth (cid : string) (qs : list QuestionInput.t) :
  forall (i : Z) (n : nat),
    nth_error (questionRows cid i qs) n
    = option_map (questionRow cid (i + Z.of_nat n)) (nth_error qs n).
Proof.
  induction qs as [| q qs IH]; intros i n; simpl.
  - now destruct n.
  - destruct n as [| n]; simpl.
    + now rewrite Z.add_0_r.
    + rewrite IH. replace (i + 1 + Z.of_nat n) with (i + Z.pos (Pos.of_succ_nat n)) by lia.
      reflexivity.
Qed.

Lemma questionRows_length (cid : string) (qs : list QuestionInput.t) :
  forall i, List.length (questionRows cid i qs) = List.length qs.
Proof.
  induction qs as [| q qs IH]; intros i; simpl; [reflexivity | now rewrite IH].
Qed.

Lemma questionRows_campaign (cid : string) (qs : list QuestionInput.t) :
  forall i, Forall (fun r => Question.campaignId r = cid) (questionRows cid i qs).
Proof.
  induction qs as [| q qs IH]; intros i; simpl; constructor; [reflexivity | apply IH].
Qed.

(** Without explicit [order] fields the rows are numbered upwards. *)
Lemma questionRows_positional (cid : string) (qs : list QuestionInput.t) :
  Forall (fun q => QuestionInput.order q = None) qs ->
  forall i,
    StronglySorted byOrder (questionRows cid i qs)
    /\ Forall (fun r => i + 1 <= Question.order r) (questionRows cid i qs).
Proof.
  induction 1 as [| q qs Hq _ IH]; intros i; simpl.
  - split; constructor.
  - destruct (IH (i + 1)) as [S1 F1].
    assert (Eo : Question.order (questionRow cid i q) = i + 1).
    { unfold questionRow. simpl. now rewrite Hq. }
    split.
    + constructor; [exact S1 |].
      eapply Forall_impl; [| exact F1]. unfold byOrder. intros r Hr. rewrite Eo. lia.
    + constructor; [rewrite Eo; lia |].
      eapply Forall_impl; [| exact F1]. simpl. intros; lia.
Qed.

Lemma createQuestions_run (cid : string) (qs : list QuestionInput.t) :
  forall (i : Z) (env : Env) (s : Store),
    run (createQuestions cid i qs) env s
    = (inr (questionRows cid i qs),
       set_waitlistQuestion (waitlistQuestion s ++ questionRows cid i qs) s).
Proof.
  induction qs as [| q qs IH]; intros i env s; simpl.
  - unfold run, ret. rewrite app_nil_r. now destruct s.
  - unfold run, bind, Prisma.waitlistQuestion_create, modify, ret in *. simpl.
    rewrite IH. simpl. rewrite <- app_assoc. reflexivity.
Qed.

(** The rows of one campaign, after its old rows were deleted and [rows]
    appended. *)
Lemma filter_replaced (cid : string) (old rows : list Question.t) :
  Forall (fun r => Question.campaignId r = cid) rows ->
  filter (fun q => String.eqb (Question.campaignId q) cid)
         (filter (fun q => negb (String.eqb (Question.campaignId q) cid)) old ++ rows)
  = rows.
Proof.
  intros Hrows. rewrite filter_app.
  assert (E1 : filter (fun q => String.eqb (Question.campaignId q) cid)
                      (filter (fun q => negb (String.eqb (Question.campaignId q) cid)) old)
               = []).
  { induction old as [| x old IH]; simpl; [reflexivity |].
    destruct (String.eqb (Question.campaignId x) cid) eqn:E; simpl; [exact IH |].
    now rewrite E. }
  rewrite E1. simpl.
  induction Hrows as [| r rows Hr _ IH]; simpl; [reflexivity |].
  rewrite Hr, String.eqb_refl, IH. reflexivity.
Qed.

(** C8.  On an existing campaign, [setWaitlistQuestions] by the CREATOR or
    by staff succeeds and creates one row per supplied question, in input
    order, row [n] (0-based) carrying the question text and the order
    [order ?? n + 1].
    Listing the questions afterwards returns exactly these rows (a
    permutation of them: nothing of an earlier call is left), sorted by
    their order; when the rows are already in order, in particular when no
    question carries an explicit [order], the listing is the submitted
    sequence. *)
Theorem setQuestions_roundtrip
        (env : Env) (s : Store) (cid : string) (questions : list QuestionInput.t)
        (user : AuthUser) :
  findCampaign cid s <> None ->
  roleOf cid (userId user) s = Some CREATOR \/ isStaff user = true ->
  let rows := questionRows cid 0 questions in
  let s' := after (setWaitlistQuestions cid questions user) env s in
  outcome (setWaitlistQuestions cid questions user) env s = inr rows
  /\ (forall n q, nth_error questions n = Some q ->
        nth_error rows n
        = Some {| Question.campaignId := cid;
                  Question.question := QuestionInput.question q;
                  Question.order := nullish (QuestionInput.order q) (Z.of_nat n + 1) |})
  /\ List.length rows = List.length questions
  /\ outcome (getWaitlistQuestions cid) env s' = inr (sortByOrder rows)
  /\ Permutation (sortByOrder rows) rows
  /\ StronglySorted byOrder (sortByOrder rows)
  /\ (StronglySorted byOrder rows -> sortByOrder rows = rows)
  /\ (Forall (fun q => QuestionInput.order q = None) questions -> sortByOrder rows = rows).
Proof.
  intros _ Hauth rows s'.
  assert (Hchk : (negb (roleIs (roleOf cid (userId user) s) CREATOR)
                  && negb (isStaff user))%bool = false).
  { destruct Hauth as [H | H]; rewrite H; [reflexivity | apply andb_false_r]. }
  unfold roleOf in Hchk.
  assert (E : run (setWaitlistQuestions cid questions user) env s
              = (inr rows,
                 set_waitlistQuestion
                   (filter (fun q => negb (String.eqb (Question.campaignId q) cid))
                           (waitlistQuestion s) ++ rows) s)).
  { unfold setWaitlistQuestions. unfold_prisma. unfold run, bind, gets, ret, modify.
    simpl. rewrite Hchk.
    pose proof (createQuestions_run cid questions 0 env
                  (set_waitlistQuestion
                     (filter (fun q => negb (String.eqb (Question.campaignId q) cid))
                             (waitlistQuestion s)) s)) as R.
    unfold run in R. rewrite R. reflexivity. }
  unfold run in E.
  split; [unfold outcome; now rewrite E |].
  split.
  { intros n q Hn. subst rows. rewrite questionRows_nth, Hn. reflexivity. }
  split.
  { apply questionRows_length. }
  split.
  { subst s'. unfold after. rewrite E. unfold getWaitlistQuestions, outcome.
    unfold_prisma. unfold gets. simpl.
    rewrite filter_replaced; [reflexivity | apply questionRows_campaign]. }
  split; [apply sortByOrder_perm |].
  split; [apply sortByOrder_sorted |].
  split; [apply sortByOrder_of_sorted |].
  intros Hnone. apply sortByOrder_of_sorted.
  apply (questionRows_positional cid questions Hnone 0).
Qed.

Lemma setQuestions_roundtrip_witness :
  roleOf "c1" "alice" QuestionExample.before = Some CREATOR
  /\ outcome (getWaitlistQuestions "c1") Example.env
       (after (setWaitlistQuestions "c1" QuestionExample.submitted Example.alice)
              Example.env QuestionExample.before)
     = inr (sortByOrder (questionRows "c1" 0 QuestionExample.submitted))
  /\ map Question.question (sortByOrder (questionRows "c1" 0 QuestionExample.submitted))
     = ["first"; "second"; "third"].
Proof.
  split; [reflexivity | split; [| reflexivity]].
  apply (setQuestions_roundtrip Example.env QuestionExample.before "c1"
           QuestionExample.submitted Example.alice).
  - vm_compute. discriminate.
  - left. reflexivity.
Defined.

(** ** C7: the auto-close sweep *)

(** C7, as stated, fails.  With the transport down, the sweep has ended
    campaign [c1] in the store although closing it failed (no [ended] event
    went out and the returned count is 0); the campaign is not ACTIVE, so
    no later sweep selects it. *)
Lemma sweep_failure_leaves_campaign_ended :
  statusOf "c1" (Example.activeCampaign AUTO_JOIN 5 1000) = Some ACTIVE
  /\ run (autoCloseCampaigns 2000) Example.envNoTransport
         (Example.activeCampaign AUTO_JOIN 5 1000)
     = (inr 0%nat,
        after (autoCloseCampaigns 2000) Example.envNoTransport
              (Example.activeCampaign AUTO_JOIN 5 1000))
  /\ outbox (after (autoCloseCampaigns 2000) Example.envNoTransport
                   (Example.activeCampaign AUTO_JOIN 5 1000))
     = outbox (Example.activeCampaign AUTO_JOIN 5 1000)
  /\ statusOf "c1" (after (autoCloseCampaigns 2000) Example.envNoTransport
                          (Example.activeCampaign AUTO_JOIN 5 1000))
     = Some ENDED
  /\ statusOf "c1" (after (autoCloseCampaigns 2000) Example.envNoTransport
                          (Example.activeCampaign AUTO_JOIN 5 1000))
     <> Some ACTIVE
  /\ filter (isExpired 3000)
            (campaign (after (autoCloseCampaigns 2000) Example.envNoTransport
                             (Example.activeCampaign AUTO_JOIN 5 1000)))
     = [].
Proof.
  repeat apply conj; try (vm_compute; reflexivity).
  vm_compute. discriminate.
Qed.

Lemma sweptRow_id (env : Env) (now : Z) (l : list Campaign.t) (x : Campaign.t) :
  Campaign.id (sweptRow env now l x) = Campaign.id x.
Proof. unfold sweptRow. now destruct (existsb _ l). Qed.

Lemma sweptRow_step (env : Env) (now : Z) (c : Campaign.t) (l : list Campaign.t)
      (x : Campaign.t) :
  updateFails env (Campaign.id c) = false ->
  sweptRow env now l
    (if String.eqb (Campaign.id x) (Campaign.id c)
     then CampaignUpdate.apply (CampaignUpdate.ended now) x else x)
  = sweptRow env now (c :: l) x.
Proof.
  intros Hu. unfold sweptRow. simpl. rewrite Hu. simpl. rewrite andb_true_r.
  destruct (String.eqb (Campaign.id x) (Campaign.id c)); simpl.
  - now destruct (existsb _ l).
  - reflexivity.
Qed.

Lemma sweptRow_skip (env : Env) (now : Z) (c : Campaign.t) (l : list Campaign.t)
      (x : Campaign.t) :
  updateFails env (Campaign.id c) = true ->
  sweptRow env now l x = sweptRow env now (c :: l) x.
Proof.
  intros Hu. unfold sweptRow. simpl. rewrite Hu. simpl. now rewrite andb_false_r.
Qed.

Lemma find_map_keeping_id (f : Campaign.t -> Campaign.t) (id : string) (l : list Campaign.t) :
  (forall x, Campaign.id (f x) = Campaign.id x) ->
  find (fun c => String.eqb (Campaign.id c) id) (map f l)
  = option_map f (find (fun c => String.eqb (Campaign.id c) id) l).
Proof.
  intros Hf. induction l as [| x l IH]; simpl; [reflexivity |].
  rewrite Hf. destruct (String.eqb (Campaign.id x) id); [reflexivity | exact IH].
Qed.

(** One iteration of the sweep. *)
Lemma autoCloseOne_run (env : Env) (now : Z) (c c0 : Campaign.t) (n : nat) (s : Store) :
  findCampaign (Campaign.id c) s = Some c0 ->
  run (autoCloseOne now c n) env s
  = if updateFails env (Campaign.id c) then (inr n, s)
    else
      let s1 := set_campaign
                  (map (fun x => if String.eqb (Campaign.id x) (Campaign.id c)
                                 then CampaignUpdate.apply (CampaignUpdate.ended now) x
                                 else x) (campaign s)) s in
      if publishFails env (sweepEvent c) then (inr n, s1)
      else (inr (S n), set_outbox (outbox s1 ++ [sweepEvent c]) s1).
Proof.
  intros Hc. unfold autoCloseOne. unfold_prisma. unfold_m. simpl.
  destruct (updateFails env (Campaign.id c)); simpl; [reflexivity |].
  rewrite Hc. simpl. fold (sweepEvent c).
  destruct (publishFails env (sweepEvent c)); reflexivity.
Qed.

(** The whole loop, from any store in which the selected campaigns exist. *)
Lemma autoCloseLoop_run (env : Env) (now : Z) (l : list Campaign.t) :
  forall (n : nat) (s : Store),
    Forall (fun c => findCampaign (Campaign.id c) s <> None) l ->
    exists s',
      run (autoCloseLoop now l n) env s
      = (inr (n + List.length (filter (sweepSucceeds env) l))%nat, s')
      /\ campaign s' = map (sweptRow env now l) (campaign s)
      /\ outbox s' = (outbox s ++ map sweepEvent (filter (sweepSucceeds env) l))%list.
Proof.
  induction l as [| c l IH]; intros n s Hall; simpl.
  - exists s. unfold run, ret. rewrite Nat.add_0_r, app_nil_r.
    split; [reflexivity | split; [| reflexivity]].
    unfold sweptRow. simpl. now rewrite map_id.
  - inversion Hall as [| ? ? Hc Hl]; subst.
    destruct (findCampaign (Campaign.id c) s) as [c0 |] eqn:Ec; [| now elim Hc].
    pose proof (autoCloseOne_run env now c c0 n s Ec) as R1.
    unfold run, bind in *. rewrite R1. clear R1.
    destruct (updateFails env (Campaign.id c)) eqn:Eu; simpl.
    + assert (Hs : sweepSucceeds env c = false)
        by (unfold sweepSucceeds; now rewrite Eu).
      rewrite Hs.
      destruct (IH n s Hl) as [s' [R [C O]]]. exists s'. rewrite R.
      split; [reflexivity | split; [| exact O]].
      rewrite C. apply map_ext. intros x. now apply sweptRow_skip.
    + set (s1 := set_campaign
                   (map (fun x => if String.eqb (Campaign.id x) (Campaign.id c)
                                  then CampaignUpdate.apply (CampaignUpdate.ended now) x
                                  else x) (campaign s)) s).
      assert (Hl1 : Forall (fun c' => findCampaign (Campaign.id c') s1 <> None) l).
      { eapply Forall_impl; [| exact Hl]. intros c' Hc'. subst s1.
        rewrite findCampaign_updated.
        destruct (String.eqb (Campaign.id c') (Campaign.id c)); [now rewrite Ec | exact Hc']. }
      destruct (publishFails env (sweepEvent c)) eqn:Ep; simpl.
      * assert (Hs : sweepSucceeds env c = false)
          by (unfold sweepSucceeds; rewrite Eu, Ep; reflexivity).
        rewrite Hs.
        destruct (IH n s1 Hl1) as [s' [R [C O]]]. exists s'. rewrite R.
        split; [reflexivity | split; [| exact O]].
        rewrite C. subst s1. simpl. rewrite map_map. apply map_ext. intros x.
        now apply sweptRow_step.
      * assert (Hs : sweepSucceeds env c = true)
          by (unfold sweepSucceeds; rewrite Eu, Ep; reflexivity).
        rewrite Hs.
        destruct (IH (S n) (set_outbox (outbox s ++ [sweepEvent c])%list s1) Hl1)
          as [s' [R [C O]]].
        exists s'. rewrite R.
        split; [f_equal; f_equal; simpl; lia | split].
        -- rewrite C. subst s1. simpl. rewrite map_map. apply map_ext. intros x.
           now apply sweptRow_step.
        -- rewrite O. simpl. now rewrite <- app_assoc.
Qed.

Lemma find_of_unique (l : list Campaign.t) (c : Campaign.t) :
  NoDup (map Campaign.id l) -> In c l ->
  find (fun x => String.eqb (Campaign.id x) (Campaign.id c)) l = Some c.
Proof.
  induction l as [| x l IH]; simpl; intros Hnd Hin; [contradiction |].
  inversion Hnd as [| ? ? Hx Hl]; subst.
  destruct Hin as [-> | Hin].
  - now rewrite String.eqb_refl.
  - destruct (String.eqb_spec (Campaign.id x) (Campaign.id c)) as [E | E].
    + exfalso. apply Hx. rewrite E. now apply in_map.
    + now apply IH.
Qed.

Lemma same_id_same_row (l : list Campaign.t) (c c' : Campaign.t) :
  NoDup (map Campaign.id l) -> In c l -> In c' l ->
  Campaign.id c = Campaign.id c' -> c = c'.
Proof.
  intros Hnd Hc Hc' E.
  pose proof (find_of_unique l c Hnd Hc) as F1.
  pose proof (find_of_unique l c' Hnd Hc') as F2.
  rewrite E in F1. congruence.
Qed.

(** C7, amended.  The sweep selects every ACTIVE campaign whose end date
    has passed and never raises.  It returns the number of selected
    campaigns for which both the status update and the publication of the
    [ended] event went through, and exactly these events, with reason
    DATE_REACHED, are published.  A selected campaign whose update was
    accepted is ENDED and archived at the time of the sweep; one whose
    update was refused is left as it was, ACTIVE, and is selected again by
    every later sweep; a campaign that was not selected is untouched. *)
Theorem autoClose_counts_and_isolates (env : Env) (s : Store) (now : Z) :
  uniqueIds s ->
  let expired := filter (isExpired now) (campaign s) in
  let s' := after (autoCloseCampaigns now) env s in
  outcome (autoCloseCampaigns now) env s
  = inr (List.length (filter (sweepSucceeds env) expired))
  /\ outbox s' = (outbox s ++ map sweepEvent (filter (sweepSucceeds env) expired))%list
  /\ (forall c, In c (campaign s) -> isExpired now c = true ->
        updateFails env (Campaign.id c) = false ->
        findCampaign (Campaign.id c) s'
        = Some (CampaignUpdate.apply (CampaignUpdate.ended now) c)
        /\ statusOf (Campaign.id c) s' = Some ENDED)
  /\ (forall c, In c (campaign s) -> isExpired now c = true ->
        updateFails env (Campaign.id c) = true ->
        findCampaign (Campaign.id c) s' = Some c
        /\ statusOf (Campaign.id c) s' = Some ACTIVE
        /\ forall later, now <= later -> isExpired later c = true)
  /\ (forall c, In c (campaign s) -> isExpired now c = false ->
        findCampaign (Campaign.id c) s' = Some c).
Proof.
  intros Hu expired s'.
  assert (Hall : Forall (fun c => findCampaign (Campaign.id c) s <> None) expired).
  { apply Forall_forall. intros c Hc. apply filter_In in Hc as [Hc _].
    unfold findCampaign. now rewrite (find_of_unique _ _ Hu Hc). }
  destruct (autoCloseLoop_run env now expired 0 s Hall) as [s1 [R [C O]]].
  assert (E : run (autoCloseCampaigns now) env s
              = (inr (List.length (filter (sweepSucceeds env) expired)), s1)).
  { unfold autoCloseCampaigns, Prisma.campaign_findMany, run, bind, gets. simpl.
    unfold run in R. fold expired. rewrite R. reflexivity. }
  unfold run in E.
  assert (Es : s' = s1) by (subst s'; unfold after; now rewrite E).
  assert (F : forall c, In c (campaign s) ->
                findCampaign (Campaign.id c) s' = Some (sweptRow env now expired c)).
  { intros c Hc. rewrite Es. unfold findCampaign. rewrite C.
    rewrite find_map_keeping_id by (intros; apply sweptRow_id).
    now rewrite (find_of_unique _ _ Hu Hc). }
  split; [unfold outcome; now rewrite E |].
  split; [rewrite Es; exact O |].
  split; [| split].
  - intros c Hc He Hf.
    assert (G : sweptRow env now expired c
                = CampaignUpdate.apply (CampaignUpdate.ended now) c).
    { unfold sweptRow.
      replace (existsb _ expired) with true; [reflexivity |].
      symmetry. apply existsb_exists. exists c. split.
      - apply filter_In. now split.
      - now rewrite String.eqb_refl, Hf. }
    unfold statusOf. rewrite (F c Hc), G. split; reflexivity.
  - intros c Hc He Hf.
    assert (G : sweptRow env now expired c = c).
    { unfold sweptRow.
      replace (existsb _ expired) with false; [reflexivity |].
      symmetry. apply not_true_is_false. intros H.
      apply existsb_exists in H as [c' [_ H]].
      apply andb_true_iff in H as [H1 H2]. apply String.eqb_eq in H1.
      rewrite <- H1, Hf in H2. discriminate. }
    unfold statusOf. rewrite (F c Hc), G.
    unfold isExpired in *. apply andb_true_iff in He as [H1 H2].
    split; [reflexivity | split].
    + simpl. destruct (Campaign.status c); try discriminate. reflexivity.
    + intros later Hl. rewrite H1. simpl. apply Z.ltb_lt. apply Z.ltb_lt in H2. lia.
  - intros c Hc He.
    assert (G : sweptRow env now expired c = c).
    { unfold sweptRow.
      replace (existsb _ expired) with false; [reflexivity |].
      symmetry. apply not_true_is_false. intros H.
      apply existsb_exists in H as [c' [Hc' H]].
      apply andb_true_iff in H as [H1 _]. apply String.eqb_eq in H1.
      apply filter_In in Hc' as [Hin He'].
      rewrite (same_id_same_row _ _ _ Hu Hc Hin H1) in He. congruence. }
    now rewrite (F c Hc), G.
Qed.

Lemma autoClose_counts_and_isolates_witness :
  uniqueIds SweepExample.twoExpired
  /\ outcome (autoCloseCampaigns 2000) SweepExample.envC1Locked SweepExample.twoExpired
     = inr 1%nat
  /\ statusOf "c1" (after (autoCloseCampaigns 2000) SweepExample.envC1Locked
                          SweepExample.twoExpired) = Some ACTIVE
  /\ statusOf "c2" (after (autoCloseCampaigns 2000) SweepExample.envC1Locked
                          SweepExample.twoExpired) = Some ENDED.
Proof.
  assert (U : uniqueIds SweepExample.twoExpired).
  { unfold uniqueIds. vm_compute.
    repeat constructor; simpl; intuition discriminate. }
  split; [exact U | split; [| split; vm_compute; reflexivity]].
  pose proof (autoClose_counts_and_isolates SweepExample.envC1Locked
                SweepExample.twoExpired 2000 U) as [H _].
  exact H.
Defined.

(** ** C4: the status line *)

(** C4, as stated, fails.  [updateCampaign] writes the [status] of its
    patch without looking at the stored one: the creator brings an ENDED
    campaign back to ACTIVE, and to DRAFT. *)
Lemma update_reopens_ended_campaign :
  statusOf "c1" StatusExample.closed = Some ENDED
  /\ statusOf "c1" (after (updateCampaign "c1" (statusPatch ACTIVE) Example.alice)
                          Example.env StatusExample.closed) = Some ACTIVE
  /\ statusOf "c1" (after (updateCampaign "c1" (statusPatch DRAFT) Example.alice)
                          Example.env StatusExample.closed) = Some DRAFT
  /\ ~ statusAdvances StatusExample.closed
         (runOps [(Example.env, OpUpdate "c1" (statusPatch ACTIVE) Example.alice)]
                 StatusExample.closed).
Proof.
  repeat apply conj; try (vm_compute; reflexivity).
  intros H. destruct (H "c1" ENDED) as [st' [H1 H2]]; [vm_compute; reflexivity |].
  vm_compute in H1. inversion H1; subst st'. simpl in H2. lia.
Qed.

Lemma statusAdvances_refl (s : Store) : statusAdvances s s.
Proof. intros id st H. exists st. split; [exact H | lia]. Qed.

Lemma statusAdvances_trans (s1 s2 s3 : Store) :
  statusAdvances s1 s2 -> statusAdvances s2 s3 -> statusAdvances s1 s3.
Proof.
  intros H12 H23 id st H.
  destruct (H12 id st H) as [st2 [H2 L2]].
  destruct (H23 id st2 H2) as [st3 [H3 L3]].
  exists st3. split; [exact H3 | lia].
Qed.

Lemma statusAdvances_same_campaigns (s s' : Store) :
  campaign s' = campaign s -> statusAdvances s s'.
Proof.
  intros E id st H. exists st. split; [| lia].
  unfold statusOf, findCampaign in *. now rewrite E.
Qed.

(** An update whose data carries no status, or the status ENDED, moves no
    campaign backwards. *)
Lemma statusAdvances_update (s : Store) (id : string) (d : CampaignUpdate.t) :
  CampaignUpdate.status d = None \/ CampaignUpdate.status d = Some ENDED ->
  statusAdvances s
    (set_campaign
       (map (fun x => if String.eqb (Campaign.id x) id then CampaignUpdate.apply d x else x)
            (campaign s)) s).
Proof.
  intros Hd id' st H. unfold statusOf in *. rewrite findCampaign_updated.
  destruct (String.eqb_spec id' id) as [-> | Hne].
  - destruct (findCampaign id s) as [c |]; [| discriminate].
    simpl in *. inversion H; subst st.
    destruct Hd as [Hd | Hd]; rewrite Hd; simpl.
    + exists (Campaign.status c). split; [reflexivity | lia].
    + exists ENDED. split; [reflexivity | destruct (Campaign.status c); simpl; lia].
  - exists st. split; [exact H | lia].
Qed.

Section Preservation.
Variable R : Store -> Store -> Prop.
Hypothesis R_refl : forall s, R s s.
Hypothesis R_trans : forall s1 s2 s3, R s1 s2 -> R s2 s3 -> R s1 s3.

Lemma preserves_ret {A : Type} (a : A) : preserves R (ret a).
Proof. intros env s. apply R_refl. Qed.

Lemma preserves_throw {A : Type} (e : ServiceError) : preserves R (@throw A e).
Proof. intros env s. apply R_refl. Qed.

Lemma preserves_gets {A : Type} (f : Store -> A) : preserves R (gets f).
Proof. intros env s. apply R_refl. Qed.

Lemma preserves_asks {A : Type} (f : Env -> A) : preserves R (asks f).
Proof. intros env s. apply R_refl. Qed.

Lemma preserves_modify (f : Store -> Store) :
  (forall s, R s (f s)) -> preserves R (modify f).
Proof. intros H env s. apply H. Qed.

Lemma preserves_bind {A B : Type} (m : M A) (k : A -> M B) :
  preserves R m -> (forall a, preserves R (k a)) -> preserves R (bind m k).
Proof.
  intros Hm Hk env s. unfold after, bind.
  specialize (Hm env s). unfold after in Hm.
  destruct (m env s) as [[e | a] s1]; simpl in *.
  - exact Hm.
  - eapply R_trans; [exact Hm | apply (Hk a env s1)].
Qed.

Lemma preserves_tryCatch {A : Type} (m : M A) (h : ServiceError -> M A) :
  preserves R m -> (forall e, preserves R (h e)) -> preserves R (tryCatch m h).
Proof.
  intros Hm Hh env s. unfold after, tryCatch.
  specialize (Hm env s). unfold after in Hm.
  destruct (m env s) as [[e | a] s1]; simpl in *.
  - eapply R_trans; [exact Hm | apply (Hh e env s1)].
  - exact Hm.
Qed.

Lemma preserves_when (b : bool) (m : M unit) : preserves R m -> preserves R (when b m).
Proof. intros H. destruct b; [exact H | apply preserves_ret]. Qed.

Lemma preserves_forEachIndexed {A : Type} (xs : list A) (body : Z -> A -> M unit) :
  (forall i x, preserves R (body i x)) ->
  forall i, preserves R (forEachIndexed i xs body).
Proof.
  intros Hb. induction xs as [| x xs IH]; intros i; simpl.
  - apply preserves_ret.
  - apply preserves_bind; [apply Hb | intros _; apply IH].
Qed.
End Preservation.

Ltac advance :=
  repeat first
    [ apply (preserves_ret _ statusAdvances_refl)
    | apply (preserves_throw _ statusAdvances_refl)
    | apply (preserves_gets _ statusAdvances_refl)
    | apply (preserves_asks _ statusAdvances_refl)
    | apply (preserves_when _ statusAdvances_refl)
    | apply (preserves_bind _ statusAdvances_trans); [| intros ?]
    | apply (preserves_tryCatch _ statusAdvances_trans); [| intros ?]
    | apply (preserves_forEachIndexed _ statusAdvances_refl statusAdvances_trans);
      intros ? ?
    | apply preserves_modify; intros ?;
      first [ apply statusAdvances_same_campaigns; reflexivity
            | apply statusAdvances_update; auto ]
    | match goal with
      | |- preserves _ (match ?x with _ => _ end) => destruct x
      end
    | progress unfold_prisma ].

Lemma updateCampaign_advances (id : string) (data : UpdateBody.t) (user : AuthUser) :
  CampaignUpdate.status (UpdateBody.fields data) = None ->
  preserves statusAdvances (updateCampaign id data user).
Proof. intros Hd. unfold updateCampaign. advance. Qed.

Lemma closeCampaign_advances (now : Z) (id : string) (user : AuthUser) :
  preserves statusAdvances (closeCampaign now id user).
Proof. unfold closeCampaign. advance. Qed.

Lemma autoCloseLoop_advances (now : Z) (l : list Campaign.t) :
  forall n, preserves statusAdvances (autoCloseLoop now l n).
Proof.
  induction l as [| c l IH]; intros n; simpl.
  - advance.
  - unfold autoCloseOne. advance. apply IH.
Qed.

Lemma autoCloseCampaigns_advances (now : Z) :
  preserves statusAdvances (autoCloseCampaigns now).
Proof.
  unfold autoCloseCampaigns. advance. apply autoCloseLoop_advances.
Qed.

Lemma runOps_advances (ops : list (Env * LifecycleOp)) :
  Forall (fun eo => carriesStatus (snd eo) = false) ops ->
  forall s, statusAdvances s (runOps ops s).
Proof.
  induction 1 as [| [env op] ops Hop _ IH]; intros s; simpl.
  - apply statusAdvances_refl.
  - eapply statusAdvances_trans; [| apply IH].
    destruct op as [id data user | now id user | now]; simpl in *.
    + apply updateCampaign_advances.
      destruct (CampaignUpdate.status (UpdateBody.fields data)); [discriminate | reflexivity].
    + apply closeCampaign_advances.
    + apply autoCloseCampaigns_advances.
Qed.

Lemma forEachIndexed_prizes (cid : string) (ranks : list Rank.t) :
  forall (i : Z) (env : Env) (s : Store),
  exists v,
    forEachIndexed i ranks
      (fun i rank =>
         Prisma.prizeDistribution_create
           {| Prize.campaignId := cid; Prize.position := i + 1;
              Prize.reward := Rank.reward rank; Prize.label := Rank.position rank |})
      env s
    = (inr tt, set_prizeDistribution v s).
Proof.
  induction ranks as [| r ranks IH]; intros i env s; simpl.
  - exists (prizeDistribution s). destruct s; reflexivity.
  - unfold bind. unfold Prisma.prizeDistribution_create at 1. unfold modify at 1.
    match goal with
    | |- context [forEachIndexed ?j ranks ?f env ?s1] =>
        destruct (IH j env s1) as [v Hv]; rewrite Hv
    end.
    exists v. reflexivity.
Qed.

(** The campaign row after the creator's [updateCampaign]. *)
Lemma updateCampaign_by_creator
      (env : Env) (s : Store) (id : string) (data : UpdateBody.t) (user : AuthUser)
      (c : Campaign.t) :
  findCampaign id s = Some c ->
  roleOf id (userId user) s = Some CREATOR ->
  updateFails env id = false ->
  findCampaign id (after (updateCampaign id data user) env s)
  = Some (CampaignUpdate.apply (UpdateBody.fields data) c).
Proof.
  intros Hc Hrole Hu. unfold roleOf in Hrole.
  assert (G : forall v o,
             findCampaign id
               (set_outbox o
                 (set_campaign
                   (map (fun x => if String.eqb (Campaign.id x) id
                                  then CampaignUpdate.apply (UpdateBody.fields data) x
                                  else x) (campaign s))
                   (set_prizeDistribution v s)))
             = Some (CampaignUpdate.apply (UpdateBody.fields data) c)).
  { intros v o. unfold findCampaign in *. simpl.
    now rewrite find_after_update, String.eqb_refl, Hc. }
  assert (G' : forall v,
             findCampaign id
               (set_campaign
                 (map (fun x => if String.eqb (Campaign.id x) id
                                then CampaignUpdate.apply (UpdateBody.fields data) x
                                else x) (campaign s))
                 (set_prizeDistribution v s))
             = Some (CampaignUpdate.apply (UpdateBody.fields data) c)).
  { intros v. apply (G v (outbox s)). }
  unfold updateCampaign. unfold_prisma. unfold_m.
  simpl. rewrite Hc. simpl. rewrite Hrole. simpl.
  destruct (UpdateBody.prizeDistributions data) as [ranks |].
  - match goal with
    | |- context [forEachIndexed ?j ranks ?f env ?s1] =>
        destruct (forEachIndexed_prizes id ranks j env s1) as [v Hv]
    end.
    unfold Prisma.prizeDistribution_create, modify in Hv. rewrite Hv. simpl.
    rewrite Hu. simpl. unfold findCampaign in Hc |- *. simpl. rewrite Hc. simpl.
    destruct (CampaignUpdate.status (UpdateBody.fields data)) as [st |]; simpl;
      [destruct (negb (CampaignStatus_eqb st (Campaign.status c))); simpl;
       [destruct (publishFails env _); simpl |] |];
      first [apply (G v) | apply (G' v)].
  - simpl. rewrite Hu. simpl. rewrite Hc. simpl.
    destruct (CampaignUpdate.status (UpdateBody.fields data)) as [st |]; simpl;
      [destruct (negb (CampaignStatus_eqb st (Campaign.status c))); simpl;
       [destruct (publishFails env _); simpl |] |];
      first [apply (G (prizeDistribution s)) | apply (G' (prizeDistribution s))].
Qed.

(** The creator's patch is written as it is. *)
Lemma updateCampaign_writes_status
      (env : Env) (s : Store) (id : string) (data : UpdateBody.t) (user : AuthUser)
      (c : Campaign.t) (st : CampaignStatus) :
  findCampaign id s = Some c ->
  roleOf id (userId user) s = Some CREATOR ->
  updateFails env id = false ->
  CampaignUpdate.status (UpdateBody.fields data) = Some st ->
  statusOf id (after (updateCampaign id data user) env s) = Some st.
Proof.
  intros Hc Hrole Hu Hst. unfold statusOf.
  rewrite (updateCampaign_by_creator env s id data user c Hc Hrole Hu).
  simpl. now rewrite Hst.
Qed.

(** C4, amended.  Along every history of [updateCampaign] calls whose patch
    carries no [status], [closeCampaign] calls and [autoCloseCampaigns]
    sweeps, whoever calls and whatever fails, every campaign stays in the
    store and its status only moves forward on the line DRAFT, ACTIVE,
    ENDED.  An [updateCampaign] by the creator whose patch carries a
    [status] stores that status as it is, whatever the stored one was. *)
Theorem status_forward_unless_patched :
  (forall (ops : list (Env * LifecycleOp)) (s : Store),
      Forall (fun eo => carriesStatus (snd eo) = false) ops ->
      statusAdvances s (runOps ops s))
  /\ (forall (env : Env) (s : Store) (id : string) (data : UpdateBody.t)
             (user : AuthUser) (c : Campaign.t) (st : CampaignStatus),
         findCampaign id s = Some c ->
         roleOf id (userId user) s = Some CREATOR ->
         updateFails env id = false ->
         CampaignUpdate.status (UpdateBody.fields data) = Some st ->
         statusOf id (after (updateCampaign id data user) env s) = Some st).
Proof.
  split.
  - intros ops s H. now apply runOps_advances.
  - apply updateCampaign_writes_status.
Qed.

Lemma status_forward_unless_patched_witness :
  Forall (fun eo => carriesStatus (snd eo) = false) StatusExample.history
  /\ statusAdvances (Example.activeCampaign AUTO_JOIN 5 1000)
       (runOps StatusExample.history (Example.activeCampaign AUTO_JOIN 5 1000))
  /\ roleOf "c1" "alice"
       (after (createCampaign "c1" (Example.input AUTO_JOIN 5 1000) Example.alice)
              Example.env emptyStore) = Some CREATOR
  /\ statusOf "c1" (Example.activeCampaign AUTO_JOIN 5 1000) = Some ACTIVE.
Proof.
  assert (H : Forall (fun eo => carriesStatus (snd eo) = false) StatusExample.history)
    by (repeat constructor).
  destruct status_forward_unless_patched as [T1 T2].
  split; [exact H | split; [exact (T1 _ _ H) | split; [vm_compute; reflexivity |]]].
  apply (T2 Example.env
            (after (createCampaign "c1" (Example.input AUTO_JOIN 5 1000) Example.alice)
                   Example.env emptyStore)
            "c1" Example.activate Example.alice
            {| Campaign.id := "c1"; Campaign.title := "Launch";
               Campaign.createdBy := "alice"; Campaign.studioId := None;
               Campaign.platforms := [YOUTUBE; TIKTOK]; Campaign.status := DRAFT;
               Campaign.campaignType := AUTO_JOIN; Campaign.editorSlots := 5;
               Campaign.totalBudget := 1000; Campaign.platformFee := 0;
               Campaign.remainingBudget := 0; Campaign.spentBudget := 0;
               Campaign.isFunded := false; Campaign.approvedClips := 0;
               Campaign.pendingClips := 0; Campaign.rejectedClips := 0;
               Campaign.totalViews := 0; Campaign.enableLeaderboard := false;
               Campaign.isPrivate := false; Campaign.endDate := 1000;
               Campaign.archivedAt := None |}
            ACTIVE); vm_compute; reflexivity.
Defined.

(** ** C1: capacity of an AUTO_JOIN campaign *)

(** C1, as stated, fails.  The creator's own row counts towards
    [editorSlots]: on a campaign created with one slot, the first join is
    already refused. *)
Lemma first_join_refused_with_one_slot :
  statusOf "c1" (Example.activeCampaign AUTO_JOIN 1 1000) = Some ACTIVE
  /\ option_map Campaign.editorSlots (findCampaign "c1" (Example.activeCampaign AUTO_JOIN 1 1000))
     = Some 1
  /\ findParticipant "c1" "bob" (Example.activeCampaign AUTO_JOIN 1 1000) = None
  /\ findBan "c1" "bob" (Example.activeCampaign AUTO_JOIN 1 1000) = None
  /\ outcome (joinCampaign "c1" Example.bob None) Example.env
             (Example.activeCampaign AUTO_JOIN 1 1000)
     = inl (Forbidden "Campaign is full").
Proof. repeat apply conj; vm_compute; reflexivity. Qed.

Lemma forEach_invites (cid : string) (users : list string) :
  forall (env : Env) (s : Store),
  exists v,
    forEach users
      (fun discordUserId =>
         Prisma.campaignInvite_create
           {| Invite.campaignId := cid; Invite.discordUserId := discordUserId |})
      env s
    = (inr tt, set_campaignInvite v s).
Proof.
  induction users as [| u users IH]; intros env s; simpl.
  - exists (campaignInvite s). destruct s; reflexivity.
  - unfold bind. unfold Prisma.campaignInvite_create at 1. unfold modify at 1.
    match goal with
    | |- context [forEach users ?f env ?s1] =>
        destruct (IH env s1) as [v Hv]; rewrite Hv
    end.
    exists v. reflexivity.
Qed.

Lemma no_rows_no_participant (cid uid : string) (s : Store) :
  countParticipants cid s = 0%nat -> findParticipant cid uid s = None.
Proof.
  unfold countParticipants, findParticipant.
  induction (campaignParticipant s) as [| p l IH]; simpl; [reflexivity |].
  unfold sameKey at 1.
  destruct (String.eqb (Participant.campaignId p) cid); simpl; [discriminate | exact IH].
Qed.

Lemma count_after_insert (cid : string) (l : list Participant.t) (p : Participant.t) :
  Participant.campaignId p = cid ->
  List.length (filter (fun x => String.eqb (Participant.campaignId x) cid) (l ++ [p]))
  = S (List.length (filter (fun x => String.eqb (Participant.campaignId x) cid) l)).
Proof.
  intros E. rewrite filter_app, length_app. simpl.
  rewrite E, String.eqb_refl. simpl. lia.
Qed.

(** Closes [createCampaign_run] once the two loops are done: the event goes
    out and the new row is the one found under [newId]. *)
Ltac created F Hp :=
  simpl; rewrite Hp; simpl; eexists; eexists; split; [reflexivity |];
  repeat split; unfold findCampaign; simpl; rewrite F; simpl;
  now rewrite String.eqb_refl.

(** The store after a successful [createCampaign]. *)
Lemma createCampaign_run (env : Env) (s : Store) (newId : string) (data : CreateInput.t)
      (creator : AuthUser) :
  healthy env ->
  Forall (fun p => recognized p = true) (CreateInput.platforms data) ->
  findCampaign newId s = None ->
  countParticipants newId s = 0%nat ->
  exists c s1,
    run (createCampaign newId data creator) env s = (inr c, s1)
    /\ Campaign.id c = newId
    /\ Campaign.campaignType c = nullish (CreateInput.campaignType data) AUTO_JOIN
    /\ Campaign.editorSlots c = nullish (CreateInput.editorSlots data) 5
    /\ findCampaign newId s1 = Some c
    /\ campaignParticipant s1
       = (campaignParticipant s
          ++ [{| Participant.campaignId := newId; Participant.userId := userId creator;
                 Participant.role := CREATOR |}])%list
    /\ waitlistBan s1 = waitlistBan s.
Proof.
  intros [Hu Hp] Hrec Hc Hn.
  destruct (mapPlatforms_ok _ Hrec) as [out [Eout _]].
  pose proof (no_rows_no_participant newId (userId creator) s Hn) as Hnp.
  unfold createCampaign. unfold_prisma. unfold_m. simpl.
  rewrite Eout. simpl. rewrite Hc. simpl.
  unfold findParticipant in Hnp |- *. simpl. rewrite Hnp. simpl.
  assert (F : forall l, find (fun c => String.eqb (Campaign.id c) newId) (campaign s ++ [l])
                        = if String.eqb (Campaign.id l) newId then Some l else None).
  { intros l. rewrite find_append. unfold findCampaign in Hc. rewrite Hc. reflexivity. }
  destruct (flagAndNonEmpty (CreateInput.enableLeaderboard data)
                            (CreateInput.leaderboardRanks data)).
  - match goal with
    | |- context [forEachIndexed ?j ?l ?f env ?s1] =>
        destruct (forEachIndexed_prizes newId l j env s1) as [v Hv]
    end.
    unfold Prisma.prizeDistribution_create, modify in Hv. rewrite Hv. simpl.
    destruct (flagAndNonEmpty (CreateInput.isPrivate data) (CreateInput.invitedUsers data)).
    + match goal with
      | |- context [forEach ?l ?f env ?s1] =>
          destruct (forEach_invites newId l env s1) as [w Hw]
      end.
      unfold Prisma.campaignInvite_create, modify in Hw. rewrite Hw.
      created F Hp.
    + created F Hp.
  - simpl.
    destruct (flagAndNonEmpty (CreateInput.isPrivate data) (CreateInput.invitedUsers data)).
    + match goal with
      | |- context [forEach ?l ?f env ?s1] =>
          destruct (forEach_invites newId l env s1) as [w Hw]
      end.
      unfold Prisma.campaignInvite_create, modify in Hw. rewrite Hw.
      created F Hp.
    + created F Hp.
Qed.

Lemma sameMembership_refl (s : Store) : sameMembership s s.
Proof. split; reflexivity. Qed.

Lemma sameMembership_trans (s1 s2 s3 : Store) :
  sameMembership s1 s2 -> sameMembership s2 s3 -> sameMembership s1 s3.
Proof. intros [A1 B1] [A2 B2]. split; congruence. Qed.

(** [updateCampaign] writes no participant row and no ban. *)
Lemma updateCampaign_sameMembership (id : string) (data : UpdateBody.t) (user : AuthUser) :
  preserves sameMembership (updateCampaign id data user).
Proof.
  unfold updateCampaign.
  repeat first
    [ apply (preserves_ret _ sameMembership_refl)
    | apply (preserves_throw _ sameMembership_refl)
    | apply (preserves_gets _ sameMembership_refl)
    | apply (preserves_asks _ sameMembership_refl)
    | apply (preserves_when _ sameMembership_refl)
    | apply (preserves_bind _ sameMembership_trans); [| intros ?]
    | apply (preserves_forEachIndexed _ sameMembership_refl sameMembership_trans);
      intros ? ?
    | apply preserves_modify; intros ?; split; reflexivity
    | match goal with
      | |- preserves _ (match ?x with _ => _ end) => destruct x
      end
    | progress unfold_prisma ].
Qed.

(** One join on an AUTO_JOIN campaign with a free slot. *)
Lemma join_with_free_slot
      (env : Env) (s : Store) (cid : string) (user : AuthUser)
      (answers : option (list (string * string))) (c : Campaign.t) :
  (forall e, publishFails env e = false) ->
  findCampaign cid s = Some c ->
  Campaign.status c = ACTIVE ->
  Campaign.campaignType c = AUTO_JOIN ->
  findParticipant cid (userId user) s = None ->
  findBan cid (userId user) s = None ->
  Z.of_nat (countParticipants cid s) < Campaign.editorSlots c ->
  run (joinCampaign cid user answers) env s
  = (joinedAsMember,
     set_outbox (outbox s ++ [EvParticipantJoined cid (userId user) MEMBER DIRECT])
       (set_campaignParticipant
          (campaignParticipant s
           ++ [{| Participant.campaignId := cid; Participant.userId := userId user;
                  Participant.role := MEMBER |}]) s)).
Proof.
  intros Hp Hc Hst Hty Hnp Hnb Hcap.
  assert (Hslots : (Campaign.editorSlots c <=? Z.of_nat (countParticipants cid s)) = false)
    by (apply Z.leb_gt; exact Hcap).
  unfold joinCampaign. unfold_prisma. unfold_m. simpl.
  rewrite Hc. simpl. rewrite Hst. simpl. rewrite Hnp, Hnb. simpl.
  rewrite Hty. simpl. rewrite Hslots. simpl.
  destruct answers; simpl; rewrite Hnp; simpl; rewrite Hp; reflexivity.
Qed.

(** One join on an AUTO_JOIN campaign without a free slot. *)
Lemma join_when_full
      (env : Env) (s : Store) (cid : string) (user : AuthUser)
      (answers : option (list (string * string))) (c : Campaign.t) :
  findCampaign cid s = Some c ->
  Campaign.status c = ACTIVE ->
  Campaign.campaignType c = AUTO_JOIN ->
  findParticipant cid (userId user) s = None ->
  findBan cid (userId user) s = None ->
  Campaign.editorSlots c <= Z.of_nat (countParticipants cid s) ->
  run (joinCampaign cid user answers) env s = (inl (Forbidden "Campaign is full"), s).
Proof.
  intros Hc Hst Hty Hnp Hnb Hcap.
  assert (Hslots : (Campaign.editorSlots c <=? Z.of_nat (countParticipants cid s)) = true)
    by (apply Z.leb_le; exact Hcap).
  unfold joinCampaign. unfold_prisma. unfold_m. simpl.
  rewrite Hc. simpl. rewrite Hst. simpl. rewrite Hnp, Hnb. simpl.
  rewrite Hty. simpl. rewrite Hslots. reflexivity.
Qed.

Lemma findParticipant_after_insert (cid uid : string) (row : Participant.t) (s : Store)
      (o : list Event) :
  findParticipant cid uid
    (set_outbox o (set_campaignParticipant (campaignParticipant s ++ [row]) s))
  = match findParticipant cid uid s with
    | Some p => Some p
    | None => if sameKey cid uid (Participant.campaignId row) (Participant.userId row)
              then Some row else None
    end.
Proof. unfold findParticipant. simpl. now rewrite find_append. Qed.

(** Successive joins while slots are free. *)
Lemma joinAll_while_free (env : Env) (cid : string) (c : Campaign.t)
      (requests : list (AuthUser * option (list (string * string)))) :
  (forall e, publishFails env e = false) ->
  Campaign.status c = ACTIVE ->
  Campaign.campaignType c = AUTO_JOIN ->
  forall s,
    findCampaign cid s = Some c ->
    NoDup (map requester requests) ->
    Forall (fun r => findParticipant cid (requester r) s = None
                     /\ findBan cid (requester r) s = None) requests ->
    (requests <> [] ->
     Z.of_nat (countParticipants cid s + List.length requests) <= Campaign.editorSlots c) ->
    let res := joinAll cid requests env s in
    fst res = map (fun _ => joinedAsMember) requests
    /\ findCampaign cid (snd res) = Some c
    /\ countParticipants cid (snd res) = (countParticipants cid s + List.length requests)%nat
    /\ waitlistBan (snd res) = waitlistBan s
    /\ (forall u, ~ In u (map requester requests) ->
          findParticipant cid u (snd res) = findParticipant cid u s)
    /\ (forall r, In r requests -> roleOf cid (requester r) (snd res) = Some MEMBER).
Proof.
  intros Hp Hst Hty.
  induction requests as [| [user answers] rest IH]; intros s Hc Hnd Hall Hcap; simpl.
  - repeat split; auto. intros r [].
  - inversion Hnd as [| ? ? Hnotin Hnd']; subst.
    inversion Hall as [| ? ? [Hnp Hnb] Hall']; subst.
    unfold requester in Hnp, Hnb. simpl in Hnp, Hnb.
    assert (Hcap0 : Z.of_nat (countParticipants cid s + S (List.length rest))
                    <= Campaign.editorSlots c) by (apply Hcap; discriminate).
    pose proof (join_with_free_slot env s cid user answers c Hp Hc Hst Hty Hnp Hnb
                  ltac:(lia)) as R.
    unfold run in R. rewrite R. simpl.
    set (row := {| Participant.campaignId := cid; Participant.userId := userId user;
                   Participant.role := MEMBER |}) in *.
    set (s1 := set_outbox (outbox s ++ [EvParticipantJoined cid (userId user) MEMBER DIRECT])
                 (set_campaignParticipant (campaignParticipant s ++ [row]) s)) in *.
    assert (Hcount : countParticipants cid s1 = S (countParticipants cid s)).
    { unfold countParticipants. subst s1. simpl. now apply count_after_insert. }
    assert (Hfind : forall u, findParticipant cid u s1
                              = match findParticipant cid u s with
                                | Some p => Some p
                                | None => if String.eqb (userId user) u then Some row else None
                                end).
    { intros u. subst s1. rewrite findParticipant_after_insert. subst row. simpl.
      unfold sameKey. now rewrite String.eqb_refl. }
    destruct (IH s1) as [I1 [I2 [I3 [I4 [I5 I6]]]]].
    + exact Hc.
    + exact Hnd'.
    + apply Forall_forall. intros r Hr.
      rewrite Forall_forall in Hall'. destruct (Hall' r Hr) as [A B].
      split; [| exact B]. rewrite Hfind, A.
      destruct (String.eqb_spec (userId user) (requester r)) as [E | E]; [| reflexivity].
      exfalso. apply Hnotin. unfold requester at 1. simpl. rewrite E. now apply in_map.
    + intros _. rewrite Hcount. lia.
    + split; [now rewrite I1 | split; [exact I2 | split; [rewrite I3, Hcount; lia |]]].
      split; [exact I4 | split].
      * intros u Hu. rewrite I5 by (intros H; apply Hu; now right).
        rewrite Hfind. destruct (findParticipant cid u s); [reflexivity |].
        destruct (String.eqb_spec (userId user) u) as [E | E]; [| reflexivity].
        exfalso. apply Hu. left. exact E.
      * intros r [<- | Hr]; [| now apply I6].
        unfold roleOf, requester. simpl. rewrite (I5 (userId user) Hnotin), Hfind, Hnp.
        now rewrite String.eqb_refl.
Qed.

(** C1, amended.  The CREATOR row that [createCampaign] inserts counts
    towards the capacity.  On an AUTO_JOIN campaign created with
    [editorSlots = N] and then made ACTIVE by its creator, the first
    [max (N - 1) 0] joins by distinct users who are neither the creator nor
    banned all succeed, each inserting a MEMBER row, and the next such join
    fails with Forbidden, "Campaign is full", leaving the store as it
    was. *)
Theorem auto_join_capacity_includes_creator
        (env : Env) (s0 : Store) (newId : string) (data : CreateInput.t)
        (creator : AuthUser) (N : Z)
        (requests : list (AuthUser * option (list (string * string))))
        (extra : AuthUser * option (list (string * string))) :
  healthy env ->
  Forall (fun p => recognized p = true) (CreateInput.platforms data) ->
  findCampaign newId s0 = None ->
  countParticipants newId s0 = 0%nat ->
  nullish (CreateInput.campaignType data) AUTO_JOIN = AUTO_JOIN ->
  CreateInput.editorSlots data = Some N ->
  NoDup (map requester (requests ++ [extra])) ->
  Forall (fun r => requester r <> userId creator
                   /\ findBan newId (requester r) s0 = None) (requests ++ [extra]) ->
  List.length requests = Z.to_nat (N - 1) ->
  let s1 := after (createCampaign newId data creator) env s0 in
  let s2 := after (updateCampaign newId (statusPatch ACTIVE) creator) env s1 in
  let joined := joinAll newId requests env s2 in
  statusOf newId s2 = Some ACTIVE
  /\ roleOf newId (userId creator) s2 = Some CREATOR
  /\ fst joined = map (fun _ => joinedAsMember) requests
  /\ (forall r, In r requests -> roleOf newId (requester r) (snd joined) = Some MEMBER)
  /\ Z.of_nat (countParticipants newId (snd joined)) = Z.max N 1
  /\ run (joinCampaign newId (fst extra) (snd extra)) env (snd joined)
     = (inl (Forbidden "Campaign is full"), snd joined).
Proof.
  intros Hh Hrec Hc0 Hn0 Hty HN Hnd Hall Hlen s1 s2 joined.
  destruct (createCampaign_run env s0 newId data creator Hh Hrec Hc0 Hn0)
    as [c [s1' [R [Hid [Hct [Hslots [Hf1 [Hp1 Hb1]]]]]]]].
  assert (Es1 : s1 = s1') by (subst s1; unfold after; unfold run in R; now rewrite R).
  rewrite <- Es1 in Hf1, Hp1, Hb1. clear R Es1 s1'.
  destruct Hh as [Hu Hp].
  pose proof (no_rows_no_participant newId) as Hnone.
  assert (Hfp1 : forall u, findParticipant newId u s1
                           = if String.eqb (userId creator) u
                             then Some {| Participant.campaignId := newId;
                                          Participant.userId := userId creator;
                                          Participant.role := CREATOR |}
                             else None).
  { intros u. unfold findParticipant. rewrite Hp1, find_append.
    fold (findParticipant newId u s0). rewrite (Hnone u s0 Hn0). simpl.
    unfold sameKey. now rewrite String.eqb_refl. }
  assert (Hrole1 : roleOf newId (userId creator) s1 = Some CREATOR).
  { unfold roleOf. now rewrite Hfp1, String.eqb_refl. }
  set (c2 := CampaignUpdate.apply (CampaignUpdate.onlyStatus ACTIVE) c).
  assert (Hf2 : findCampaign newId s2 = Some c2).
  { subst s2. apply (updateCampaign_by_creator env s1 newId (statusPatch ACTIVE) creator c);
      [exact Hf1 | exact Hrole1 | apply Hu]. }
  destruct (updateCampaign_sameMembership newId (statusPatch ACTIVE) creator env s1)
    as [Hp2 Hb2].
  fold s2 in Hp2, Hb2.
  assert (Hfp2 : forall u, findParticipant newId u s2 = findParticipant newId u s1).
  { intros u. unfold findParticipant. now rewrite Hp2. }
  assert (Hcount2 : countParticipants newId s2 = 1%nat).
  { unfold countParticipants in *. rewrite Hp2, Hp1.
    rewrite count_after_insert by reflexivity. now rewrite Hn0. }
  assert (Hfb2 : forall u, findBan newId u s2 = findBan newId u s0).
  { intros u. unfold findBan. now rewrite Hb2, Hb1. }
  assert (Hfree : forall r, In r (requests ++ [extra]) ->
                            findParticipant newId (requester r) s2 = None
                            /\ findBan newId (requester r) s2 = None).
  { intros r Hr. rewrite Forall_forall in Hall. destruct (Hall r Hr) as [A B].
    rewrite Hfp2, Hfp1, Hfb2. split; [| exact B].
    destruct (String.eqb_spec (userId creator) (requester r)); [congruence | reflexivity]. }
  rewrite map_app in Hnd. simpl in Hnd.
  assert (Hnd1 : NoDup (map requester requests)).
  { eapply NoDup_app_remove_r. exact Hnd. }
  assert (Hex : ~ In (requester extra) (map requester requests)).
  { intros Hin. apply NoDup_remove_2 in Hnd. rewrite app_nil_r in Hnd. contradiction. }
  assert (Hst2 : Campaign.status c2 = ACTIVE) by reflexivity.
  assert (Hty2 : Campaign.campaignType c2 = AUTO_JOIN) by (subst c2; simpl; congruence).
  assert (Hsl2 : Campaign.editorSlots c2 = N).
  { subst c2. simpl. rewrite Hslots, HN. reflexivity. }
  destruct (joinAll_while_free env newId c2 requests Hp Hst2 Hty2 s2 Hf2 Hnd1)
    as [J1 [J2 [J3 [J4 [J5 J6]]]]].
  { apply Forall_forall. intros r Hr. apply Hfree. apply in_or_app. now left. }
  { intros Hne. rewrite Hcount2, Hsl2, Hlen.
    destruct requests as [| r0 rest]; [contradiction |]. simpl in Hlen. lia. }
  fold joined in J1, J2, J3, J4, J5, J6.
  split; [unfold statusOf; now rewrite Hf2 |].
  split; [unfold roleOf; rewrite Hfp2; exact Hrole1 |].
  split; [exact J1 | split; [exact J6 | split]].
  - rewrite J3, Hcount2, Hlen. lia.
  - destruct (Hfree extra) as [A B]; [apply in_or_app; right; now left |].
    apply (join_when_full env (snd joined) newId (fst extra) (snd extra) c2 J2 Hst2 Hty2).
    + fold (requester extra). now rewrite J5.
    + unfold findBan. rewrite J4. exact B.
    + rewrite J3, Hcount2, Hsl2, Hlen. lia.
Qed.

Lemma auto_join_capacity_includes_creator_witness :
  healthy Example.env
  /\ fst (joinAll "c1" JoinExample.requests Example.env (Example.activeCampaign AUTO_JOIN 3 1000))
     = [joinedAsMember; joinedAsMember]
  /\ outcome (joinCampaign "c1" Example.mallory None) Example.env
       (snd (joinAll "c1" JoinExample.requests Example.env
                     (Example.activeCampaign AUTO_JOIN 3 1000)))
     = inl (Forbidden "Campaign is full").
Proof.
  assert (H : healthy Example.env) by (split; reflexivity).
  assert (H1 : Forall (fun p => recognized p = true)
                      (CreateInput.platforms (Example.input AUTO_JOIN 3 1000)))
    by (repeat constructor).
  assert (H2 : NoDup (map requester (JoinExample.requests ++ [JoinExample.extra]))).
  { vm_compute. repeat constructor; simpl; intuition discriminate. }
  assert (H3 : Forall (fun r => requester r <> userId Example.alice
                                /\ findBan "c1" (requester r) emptyStore = None)
                      (JoinExample.requests ++ [JoinExample.extra])).
  { repeat constructor; vm_compute; discriminate. }
  pose proof (auto_join_capacity_includes_creator Example.env emptyStore "c1"
                (Example.input AUTO_JOIN 3 1000) Example.alice 3
                JoinExample.requests JoinExample.extra
                H H1 eq_refl eq_refl eq_refl eq_refl H2 H3 eq_refl)
    as [_ [_ [J [_ [_ F]]]]].
  split; [exact H | split].
  - vm_compute in J |- *. exact J.
  - vm_compute in F |- *. exact (f_equal fst F).
Defined.

(** * Further properties *)

(** ** Lifecycle: close, fund, update *)

Lemma not_creator_not_staff (id : string) (user : AuthUser) (s : Store) :
  roleOf id (userId user) s <> Some CREATOR ->
  isStaff user = false ->
  (negb (roleIs (option_map Participant.role (findParticipant id (userId user) s)) CREATOR)
   && negb (isStaff user))%bool = true.
Proof.
  intros Hr Hs. rewrite Hs. unfold roleOf in Hr.
  destruct (option_map Participant.role (findParticipant id (userId user) s)) as [[] |];
    simpl; try reflexivity. now elim Hr.
Qed.


Lemma status_not_ended (st : CampaignStatus) :
  st <> ENDED -> CampaignStatus_eqb st ENDED = false.
Proof. destruct st; simpl; intros H; try reflexivity. now elim H. Qed.



(** X2.  The failure order of [closeCampaign] and of [fundCampaign].
    [closeCampaign] looks at the state before the caller: on an ENDED
    campaign everybody, the creator included, gets Conflict, and on any
    other campaign a caller who is neither its CREATOR nor staff gets
    Forbidden, an ADMIN with whatever override flags included.
    [fundCampaign] looks at the caller before the state: a caller who is
    neither the [createdBy] user nor staff gets Forbidden on a funded and on
    an unfunded campaign alike, and only the owner or staff get Conflict on
    a funded one.  Every one of these failures leaves the store
    untouched. *)
Theorem close_and_fund_failure_order
        (env : Env) (s : Store) (now : Z) (id : string) (user : AuthUser) (c : Campaign.t) :
  findCampaign id s = Some c ->
  (Campaign.status c = ENDED ->
   run (closeCampaign now id user) env s
   = (inl (Conflict "Campaign is already ended"), s))
  /\ (Campaign.status c <> ENDED ->
      roleOf id (userId user) s <> Some CREATOR -> isStaff user = false ->
      run (closeCampaign now id user) env s
      = (inl (Forbidden "Only the campaign creator can close a campaign"), s))
  /\ (Campaign.createdBy c <> userId user -> isStaff user = false ->
      run (fundCampaign id user) env s
      = (inl (Forbidden "Only the campaign creator can fund a campaign"), s))
  /\ (Campaign.createdBy c = userId user \/ isStaff user = true ->
      Campaign.isFunded c = true ->
      run (fundCampaign id user) env s
      = (inl (Conflict "Campaign is already funded"), s)).
Proof.
  intros Hc. repeat split.
  - intros He. unfold closeCampaign. unfold_prisma. unfold_m. simpl.
    rewrite Hc. simpl. rewrite He. reflexivity.
  - intros He Hr Hs. unfold closeCampaign. unfold_prisma. unfold_m. simpl.
    rewrite Hc. simpl. rewrite (status_not_ended _ He).
    rewrite (not_creator_not_staff id user s Hr Hs). reflexivity.
  - intros Hne Hs. unfold fundCampaign. unfold_prisma. unfold_m. simpl.
    rewrite Hc. simpl. rewrite Hs.
    destruct (String.eqb_spec (Campaign.createdBy c) (userId user)); [contradiction |].
    reflexivity.
  - intros Ha Hf. unfold fundCampaign. unfold_prisma. unfold_m. simpl.
    rewrite Hc. simpl. rewrite Hf.
    destruct Ha as [Ha | Ha]; rewrite Ha.
    + now rewrite String.eqb_refl.
    + now rewrite andb_false_r.
Qed.

Lemma close_and_fund_failure_order_witness :
  run (closeCampaign 60 "c1" Example.mallory) Example.env
      (Example.activeCampaign AUTO_JOIN 5 1000)
  = (inl (Forbidden "Only the campaign creator can close a campaign"),
     Example.activeCampaign AUTO_JOIN 5 1000)
  /\ run (closeCampaign 60 "c1" Example.mallory) Example.env StatusExample.closed
     = (inl (Conflict "Campaign is already ended"), StatusExample.closed).
Proof.
  pose proof (close_and_fund_failure_order Example.env
                (Example.activeCampaign AUTO_JOIN 5 1000) 60 "c1" Example.mallory)
    as Hopen.
  pose proof (close_and_fund_failure_order Example.env StatusExample.closed 60 "c1"
                Example.mallory) as Hclosed.
  split.
  - eapply Hopen.
    + vm_compute. reflexivity.
    + discriminate.
    + vm_compute. discriminate.
    + reflexivity.
  - eapply Hclosed.
    + vm_compute. reflexivity.
    + reflexivity.
Defined.

Lemma mayEdit_checks (id : string) (user : AuthUser) (s : Store) :
  mayEdit id user s ->
  let role := option_map Participant.role (findParticipant id (userId user) s) in
  (negb (roleIs role CREATOR) && negb (roleIs role ADMIN) && negb (isStaff user))%bool = false
  /\ (roleIs role ADMIN
      && negb (match findPermissions id s with
               | Some p => Permissions.adminsCanEditCampaign p
               | None => false
               end))%bool = false.
Proof.
  unfold mayEdit, roleOf. intros [H | [[H F] | [H N]]].
  - rewrite H. split; reflexivity.
  - rewrite H. simpl. destruct (findPermissions id s) as [p |]; simpl in *; [| discriminate].
    destruct (Permissions.adminsCanEditCampaign p); [split; reflexivity | discriminate].
  - rewrite H. simpl.
    destruct (option_map Participant.role (findParticipant id (userId user) s)) as [[] |];
      simpl; try (split; [now rewrite ?andb_false_r | reflexivity]).
    now elim N.
Qed.

Lemma not_mayEdit_refused (env : Env) (s : Store) (id : string) (data : UpdateBody.t)
      (user : AuthUser) (c : Campaign.t) :
  findCampaign id s = Some c ->
  ~ mayEdit id user s ->
  run (updateCampaign id data user) env s
  = (inl (Forbidden "You do not have permission to edit this campaign"), s)
  \/ run (updateCampaign id data user) env s
     = (inl (Forbidden "Admins do not have permission to edit this campaign"), s).
Proof.
  intros Hc Hno. unfold mayEdit, roleOf in Hno.
  unfold updateCampaign. unfold_prisma. unfold_m. simpl. rewrite Hc. simpl.
  destruct (option_map Participant.role (findParticipant id (userId user) s))
    as [[] |] eqn:Er; simpl.
  - exfalso. apply Hno. now left.
  - destruct (findPermissions id s) as [p |]; simpl in *.
    + destruct (Permissions.adminsCanEditCampaign p) eqn:Ef; simpl.
      * exfalso. apply Hno. right. left. split; reflexivity.
      * now right.
    + now right.
  - destruct (isStaff user) eqn:Es; simpl; [| now left].
    exfalso. apply Hno. right. right. split; [reflexivity | discriminate].
  - destruct (isStaff user) eqn:Es; simpl; [| now left].
    exfalso. apply Hno. right. right. split; [reflexivity | discriminate].
  - destruct (isStaff user) eqn:Es; simpl; [| now left].
    exfalso. apply Hno. right. right. split; [reflexivity | discriminate].
Qed.

(** The prize loop appends its rows. *)
Lemma prize_loop_run (cid : string) (ranks : list Rank.t) :
  forall (i : Z) (env : Env) (s : Store),
    forEachIndexed i ranks
      (fun i rank =>
         Prisma.prizeDistribution_create
           {| Prize.campaignId := cid; Prize.position := i + 1;
              Prize.reward := Rank.reward rank; Prize.label := Rank.position rank |})
      env s
    = (inr tt, set_prizeDistribution (prizeDistribution s ++ rankRows cid i ranks) s).
Proof.
  induction ranks as [| r ranks IH]; intros i env s; simpl.
  - rewrite app_nil_r. unfold ret. now destruct s.
  - unfold bind. unfold Prisma.prizeDistribution_create at 1. unfold modify at 1.
    rewrite IH. simpl. now rewrite <- app_assoc.
Qed.

(** The store after an [updateCampaign] that passes the permission tests,
    with the storage and the transport answering. *)
Lemma updateCampaign_allowed
      (env : Env) (s : Store) (id : string) (data : UpdateBody.t) (user : AuthUser)
      (c : Campaign.t) :
  findCampaign id s = Some c ->
  mayEdit id user s ->
  updateFails env id = false ->
  (forall e, publishFails env e = false) ->
  exists s',
    run (updateCampaign id data user) env s
    = (inr (CampaignUpdate.apply (UpdateBody.fields data) c), s')
    /\ findCampaign id s' = Some (CampaignUpdate.apply (UpdateBody.fields data) c)
    /\ outbox s'
       = (outbox s
          ++ match CampaignUpdate.status (UpdateBody.fields data) with
             | Some st =>
                 if CampaignStatus_eqb st (Campaign.status c) then []
                 else [EvStatusChanged id (Campaign.status c) st (userId user)]
             | None => []
             end)%list.
Proof.
  intros Hc Hmay Hu Hp. destruct (mayEdit_checks id user s Hmay) as [K1 K2].
  unfold updateCampaign. unfold_prisma. unfold_m. simpl. rewrite Hc. simpl.
  rewrite K1, K2.
  destruct (UpdateBody.prizeDistributions data) as [ranks |].
  - pose proof (prize_loop_run id ranks 0 env
                  (set_prizeDistribution
                     (filter (fun p => negb (String.eqb (Prize.campaignId p) id))
                             (prizeDistribution s)) s)) as L.
    unfold Prisma.prizeDistribution_create, modify in L. rewrite L. simpl.
    rewrite Hu. simpl. unfold findCampaign in Hc |- *. simpl. rewrite Hc. simpl.
    destruct (CampaignUpdate.status (UpdateBody.fields data)) as [st |]; simpl;
      [destruct (CampaignStatus_eqb st (Campaign.status c)); simpl; [| rewrite Hp; simpl] |];
      (eexists; split; [reflexivity |]; split;
       [simpl; now rewrite find_after_update, String.eqb_refl, Hc
       | simpl; now rewrite ?app_nil_r]).
  - simpl. rewrite Hu. simpl. rewrite Hc. simpl. unfold findCampaign in Hc |- *.
    destruct (CampaignUpdate.status (UpdateBody.fields data)) as [st |]; simpl;
      [destruct (CampaignStatus_eqb st (Campaign.status c)); simpl; [| rewrite Hp; simpl] |];
      (eexists; split; [reflexivity |]; split;
       [simpl; now rewrite find_after_update, String.eqb_refl, Hc
       | simpl; now rewrite ?app_nil_r]).
Qed.

(** X3.  Who may edit.  With the storage and the transport answering,
    [updateCampaign] on an existing campaign succeeds exactly for the
    CREATOR, for an ADMIN of a campaign whose permissions record sets
    [adminsCanEditCampaign], and for a staff user who is not an ADMIN of the
    campaign; everybody else, a staff user who is an ADMIN without the
    override included, gets Forbidden and the store is untouched.  On
    success the patched row is returned and stored, and one [statusChanged]
    event is published if and only if the patch carries a status different
    from the stored one. *)
Theorem update_permission_matrix
        (env : Env) (s : Store) (id : string) (data : UpdateBody.t) (user : AuthUser)
        (c : Campaign.t) :
  findCampaign id s = Some c ->
  healthy env ->
  (mayEdit id user s ->
   outcome (updateCampaign id data user) env s
   = inr (CampaignUpdate.apply (UpdateBody.fields data) c)
   /\ findCampaign id (after (updateCampaign id data user) env s)
      = Some (CampaignUpdate.apply (UpdateBody.fields data) c)
   /\ outbox (after (updateCampaign id data user) env s)
      = (outbox s
         ++ match CampaignUpdate.status (UpdateBody.fields data) with
            | Some st =>
                if CampaignStatus_eqb st (Campaign.status c) then []
                else [EvStatusChanged id (Campaign.status c) st (userId user)]
            | None => []
            end)%list)
  /\ (~ mayEdit id user s ->
      after (updateCampaign id data user) env s = s
      /\ exists msg, outcome (updateCampaign id data user) env s = inl (Forbidden msg))
  /\ (isStaff user = true -> roleOf id (userId user) s = Some ADMIN ->
      option_map Permissions.adminsCanEditCampaign (findPermissions id s) <> Some true ->
      ~ mayEdit id user s).
Proof.
  intros Hc [Hu Hp]. split; [| split].
  - intros Hmay.
    destruct (updateCampaign_allowed env s id data user c Hc Hmay (Hu id) Hp)
      as [s' [R [F O]]].
    unfold run in R. unfold outcome, after. rewrite R. simpl. auto.
  - intros Hno. unfold outcome, after.
    destruct (not_mayEdit_refused env s id data user c Hc Hno) as [R | R];
      unfold run in R; rewrite R; simpl; eauto.
  - intros Hs Hr Hf [H | [[_ H] | [_ H]]]; [congruence | contradiction | contradiction].
Qed.

Lemma update_permission_matrix_witness :
  healthy Example.env
  /\ mayEdit "c1" Example.alice (Example.activeCampaign AUTO_JOIN 5 1000)
  /\ ~ mayEdit "c1" Example.mallory (Example.activeCampaign AUTO_JOIN 5 1000)
  /\ statusOf "c1" (after (updateCampaign "c1" (statusPatch ENDED) Example.alice) Example.env
                          (Example.activeCampaign AUTO_JOIN 5 1000)) = Some ENDED
  /\ after (updateCampaign "c1" (statusPatch ENDED) Example.mallory) Example.env
           (Example.activeCampaign AUTO_JOIN 5 1000)
     = Example.activeCampaign AUTO_JOIN 5 1000.
Proof.
  assert (H : healthy Example.env) by (split; reflexivity).
  assert (Ha : mayEdit "c1" Example.alice (Example.activeCampaign AUTO_JOIN 5 1000))
    by (left; vm_compute; reflexivity).
  assert (Hm : ~ mayEdit "c1" Example.mallory (Example.activeCampaign AUTO_JOIN 5 1000)).
  { intros [X | [[X _] | [X _]]]; vm_compute in X; discriminate. }
  assert (Hc : findCampaign "c1" (Example.activeCampaign AUTO_JOIN 5 1000)
               = Some {| Campaign.id := "c1"; Campaign.title := "Launch";
                         Campaign.createdBy := "alice"; Campaign.studioId := None;
                         Campaign.platforms := [YOUTUBE; TIKTOK]; Campaign.status := ACTIVE;
                         Campaign.campaignType := AUTO_JOIN; Campaign.editorSlots := 5;
                         Campaign.totalBudget := 1000; Campaign.platformFee := 0;
                         Campaign.remainingBudget := 0; Campaign.spentBudget := 0;
                         Campaign.isFunded := false; Campaign.approvedClips := 0;
                         Campaign.pendingClips := 0; Campaign.rejectedClips := 0;
                         Campaign.totalViews := 0; Campaign.enableLeaderboard := false;
                         Campaign.isPrivate := false; Campaign.endDate := 1000;
                         Campaign.archivedAt := None |})
    by (vm_compute; reflexivity).
  split; [exact H | split; [exact Ha | split; [exact Hm | split]]].
  - destruct (update_permission_matrix Example.env _ "c1" (statusPatch ENDED)
                Example.alice _ Hc H) as [T _].
    destruct (T Ha) as [_ [F _]]. unfold statusOf. rewrite F. reflexivity.
  - destruct (update_permission_matrix Example.env _ "c1" (statusPatch ENDED)
                Example.mallory _ Hc H) as [_ [T _]].
    exact (proj1 (T Hm)).
Defined.

(** ** Prize lists *)

Lemma sortByPosition_of_sorted (l : list Prize.t) :
  StronglySorted byPosition l -> sortByPosition l = l.
Proof.
  induction 1 as [| x l Hs IH Hx]; simpl; [reflexivity |].
  rewrite IH. destruct l as [| y l]; simpl; [reflexivity |].
  inversion Hx as [| ? ? Hxy _]; subst. unfold byPosition in Hxy.
  apply Z.leb_le in Hxy. now rewrite Hxy.
Qed.

Lemma rankRows_sorted (cid : string) (ranks : list Rank.t) :
  forall i,
    StronglySorted byPosition (rankRows cid i ranks)
    /\ Forall (fun p => i + 1 <= Prize.position p) (rankRows cid i ranks).
Proof.
  induction ranks as [| r ranks IH]; intros i; simpl.
  - split; constructor.
  - destruct (IH (i + 1)) as [S1 F1]. split.
    + constructor; [exact S1 |].
      eapply Forall_impl; [| exact F1]. unfold byPosition. simpl. intros; lia.
    + constructor; [simpl; lia |].
      eapply Forall_impl; [| exact F1]. simpl. intros; lia.
Qed.

Lemma rankRows_nth (cid : string) (ranks : list Rank.t) :
  forall (i : Z) (n : nat),
    nth_error (rankRows cid i ranks) n
    = option_map (fun rank => {| Prize.campaignId := cid;
                                 Prize.position := i + Z.of_nat n + 1;
                                 Prize.reward := Rank.reward rank;
                                 Prize.label := Rank.position rank |})
                 (nth_error ranks n).
Proof.
  induction ranks as [| r ranks IH]; intros i n; simpl.
  - now destruct n.
  - destruct n as [| n]; simpl.
    + now rewrite Z.add_0_r.
    + rewrite IH. destruct (nth_error ranks n); simpl; [| reflexivity].
      do 2 f_equal. lia.
Qed.

Lemma rankRows_campaign (cid : string) (ranks : list Rank.t) :
  forall i, Forall (fun p => Prize.campaignId p = cid) (rankRows cid i ranks).
Proof.
  induction ranks as [| r ranks IH]; intros i; simpl; constructor; [reflexivity | apply IH].
Qed.

Lemma filter_own_rows (cid : string) (rows : list Prize.t) :
  Forall (fun p => Prize.campaignId p = cid) rows ->
  filter (fun p => String.eqb (Prize.campaignId p) cid) rows = rows.
Proof.
  induction 1 as [| r rows Hr _ IH]; simpl; [reflexivity |].
  now rewrite Hr, String.eqb_refl, IH.
Qed.

Lemma filter_foreign_rows (cid cid' : string) (rows : list Prize.t) :
  cid' <> cid ->
  Forall (fun p => Prize.campaignId p = cid) rows ->
  filter (fun p => String.eqb (Prize.campaignId p) cid') rows = [].
Proof.
  intros Hne. induction 1 as [| r rows Hr _ IH]; simpl; [reflexivity |].
  rewrite Hr. destruct (String.eqb_spec cid cid'); [congruence | exact IH].
Qed.

Lemma filter_after_deleteMany (cid cid' : string) (l : list Prize.t) :
  filter (fun p => String.eqb (Prize.campaignId p) cid')
         (filter (fun p => negb (String.eqb (Prize.campaignId p) cid)) l)
  = if String.eqb cid' cid then []
    else filter (fun p => String.eqb (Prize.campaignId p) cid') l.
Proof.
  induction l as [| x l IH]; simpl.
  - now destruct (String.eqb cid' cid).
  - destruct (String.eqb_spec (Prize.campaignId x) cid) as [E | E]; simpl.
    + rewrite IH. destruct (String.eqb_spec cid' cid) as [E' | E']; [reflexivity |].
      rewrite E. destruct (String.eqb_spec cid cid'); [congruence | reflexivity].
    + rewrite IH. destruct (String.eqb_spec cid' cid) as [E' | E'].
      * subst cid'. destruct (String.eqb_spec (Prize.campaignId x) cid);
          [contradiction | reflexivity].
      * reflexivity.
Qed.

(** The prize table after an [updateCampaign] that passes the permission
    tests, whatever happens afterwards. *)
Lemma updateCampaign_prizes
      (env : Env) (s : Store) (id : string) (data : UpdateBody.t) (user : AuthUser)
      (c : Campaign.t) :
  findCampaign id s = Some c ->
  mayEdit id user s ->
  prizeDistribution (after (updateCampaign id data user) env s)
  = match UpdateBody.prizeDistributions data with
    | Some ranks =>
        (filter (fun p => negb (String.eqb (Prize.campaignId p) id)) (prizeDistribution s)
         ++ rankRows id 0 ranks)%list
    | None => prizeDistribution s
    end.
Proof.
  intros Hc Hmay. destruct (mayEdit_checks id user s Hmay) as [K1 K2].
  unfold updateCampaign. unfold_prisma. unfold_m. simpl. rewrite Hc. simpl.
  rewrite K1, K2.
  destruct (UpdateBody.prizeDistributions data) as [ranks |].
  - pose proof (prize_loop_run id ranks 0 env
                  (set_prizeDistribution
                     (filter (fun p => negb (String.eqb (Prize.campaignId p) id))
                             (prizeDistribution s)) s)) as L.
    unfold Prisma.prizeDistribution_create, modify in L. rewrite L. simpl.
    destruct (updateFails env id); simpl; [reflexivity |].
    unfold findCampaign in Hc |- *. simpl. rewrite Hc. simpl.
    destruct (CampaignUpdate.status (UpdateBody.fields data)) as [st |]; simpl;
      [destruct (CampaignStatus_eqb st (Campaign.status c)); simpl;
       [| destruct (publishFails env _); simpl] |]; reflexivity.
  - simpl. destruct (updateFails env id); simpl; [reflexivity |].
    rewrite Hc. simpl.
    destruct (CampaignUpdate.status (UpdateBody.fields data)) as [st |]; simpl;
      [destruct (CampaignStatus_eqb st (Campaign.status c)); simpl;
       [| destruct (publishFails env _); simpl] |]; reflexivity.
Qed.

(** X4.  Replacing the prize list.  When a caller who may edit passes
    [prizeDistributions] to [updateCampaign], the prizes of the campaign as
    [GET /:id/prizes] lists them are afterwards exactly the supplied ranks,
    in the supplied order, numbered from 1, with nothing left of the earlier
    list; the prizes of every other campaign are as before.  This holds
    whether or not the rest of the call succeeds: when the storage refuses
    the campaign update, the call raises and the prize list is replaced all
    the same. *)
Theorem update_replaces_prizes
        (env env' : Env) (s : Store) (id : string) (data : UpdateBody.t) (user : AuthUser)
        (c : Campaign.t) (ranks : list Rank.t) :
  findCampaign id s = Some c ->
  mayEdit id user s ->
  UpdateBody.prizeDistributions data = Some ranks ->
  let s' := after (updateCampaign id data user) env s in
  outcome (getPrizes id) env' s' = inr (rankRows id 0 ranks)
  /\ (forall n rank,
        nth_error ranks n = Some rank ->
        nth_error (rankRows id 0 ranks) n
        = Some {| Prize.campaignId := id; Prize.position := Z.of_nat n + 1;
                  Prize.reward := Rank.reward rank; Prize.label := Rank.position rank |})
  /\ (forall id', id' <> id ->
        outcome (getPrizes id') env' s' = outcome (getPrizes id') env' s)
  /\ (updateFails env id = true ->
      outcome (updateCampaign id data user) env s = inl (PrismaError "P1001")).
Proof.
  intros Hc Hmay Hd s'.
  pose proof (updateCampaign_prizes env s id data user c Hc Hmay) as P.
  fold s' in P. rewrite Hd in P.
  unfold getPrizes, PrismaMore.prizeDistribution_findMany, outcome, gets. simpl.
  split; [| split; [| split]].
  - rewrite P, filter_app, filter_after_deleteMany, String.eqb_refl. simpl.
    rewrite filter_own_rows by apply rankRows_campaign.
    f_equal. apply sortByPosition_of_sorted. apply (rankRows_sorted id ranks 0).
  - intros n rank Hn. rewrite rankRows_nth, Hn. reflexivity.
  - intros id' Hne. rewrite P, filter_app, filter_after_deleteMany.
    destruct (String.eqb_spec id' id); [contradiction |].
    rewrite (filter_foreign_rows id id' (rankRows id 0 ranks) n (rankRows_campaign id ranks 0)).
    now rewrite app_nil_r.
  - intros Hf. destruct (mayEdit_checks id user s Hmay) as [K1 K2].
    unfold updateCampaign. unfold_prisma. unfold_m. simpl. rewrite Hc. simpl.
    rewrite K1, K2, Hd.
    pose proof (prize_loop_run id ranks 0 env
                  (set_prizeDistribution
                     (filter (fun p => negb (String.eqb (Prize.campaignId p) id))
                             (prizeDistribution s)) s)) as L.
    unfold Prisma.prizeDistribution_create, modify in L. rewrite L. simpl.
    now rewrite Hf.
Qed.

Lemma update_replaces_prizes_witness :
  mayEdit "c1" Example.alice (Example.activeCampaign AUTO_JOIN 5 1000)
  /\ outcome (updateCampaign "c1" MoreExample.newPrizes Example.alice) MoreExample.envLocked
             (Example.activeCampaign AUTO_JOIN 5 1000)
     = inl (PrismaError "P1001")
  /\ outcome (getPrizes "c1") Example.env
       (after (updateCampaign "c1" MoreExample.newPrizes Example.alice) MoreExample.envLocked
              (Example.activeCampaign AUTO_JOIN 5 1000))
     = inr (rankRows "c1" 0 MoreExample.ranks).
Proof.
  assert (Ha : mayEdit "c1" Example.alice (Example.activeCampaign AUTO_JOIN 5 1000))
    by (left; vm_compute; reflexivity).
  assert (Hc : findCampaign "c1" (Example.activeCampaign AUTO_JOIN 5 1000)
               = Some (MoreExample.theCampaign AUTO_JOIN 5 1000))
    by (vm_compute; reflexivity).
  destruct (update_replaces_prizes MoreExample.envLocked Example.env
              (Example.activeCampaign AUTO_JOIN 5 1000) "c1" MoreExample.newPrizes
              Example.alice _ MoreExample.ranks Hc Ha eq_refl) as [P [_ [_ F]]].
  split; [exact Ha | split; [apply F; reflexivity | exact P]].
Defined.

(** ** Creation *)

Lemma invite_loop_run (cid : string) (users : list string) :
  forall (env : Env) (s : Store),
    forEach users
      (fun discordUserId =>
         Prisma.campaignInvite_create
           {| Invite.campaignId := cid; Invite.discordUserId := discordUserId |})
      env s
    = (inr tt,
       set_campaignInvite
         (campaignInvite s
          ++ map (fun d => {| Invite.campaignId := cid; Invite.discordUserId := d |}) users)
         s).
Proof.
  induction users as [| u users IH]; intros env s; simpl.
  - rewrite app_nil_r. unfold ret. now destruct s.
  - unfold bind. unfold Prisma.campaignInvite_create at 1. unfold modify at 1.
    rewrite IH. simpl. now rewrite <- app_assoc.
Qed.

Lemma flagAndNonEmpty_false_rows {A B : Type} (flag : option bool) (l : option (list A))
      (f : list A -> list B) :
  f [] = [] ->
  flagAndNonEmpty flag l = false ->
  match flag with Some true => f (nullish l []) | _ => [] end = [].
Proof.
  intros Hf. destruct flag as [[] |]; try reflexivity.
  destruct l as [[| x r] |]; simpl; try discriminate; intros _; exact Hf.
Qed.

Lemma flagAndNonEmpty_true_rows {A B : Type} (flag : option bool) (l : option (list A))
      (f : list A -> list B) :
  flagAndNonEmpty flag l = true ->
  match flag with Some true => f (nullish l []) | _ => [] end = f (nullish l []).
Proof.
  destruct flag as [[] |]; simpl; try discriminate; reflexivity.
Qed.

(** Every table after a [createCampaign] that goes through. *)
Lemma createCampaign_tables (env : Env) (s : Store) (newId : string) (data : CreateInput.t)
      (creator : AuthUser) (platforms : list Platform) :
  (forall e, publishFails env e = false) ->
  mapPlatforms (CreateInput.platforms data) = inr platforms ->
  findCampaign newId s = None ->
  findParticipant newId (userId creator) s = None ->
  exists c s',
    run (createCampaign newId data creator) env s = (inr c, s')
    /\ Campaign.id c = newId
    /\ Campaign.createdBy c = userId creator
    /\ Campaign.platforms c = platforms
    /\ Campaign.status c = default_status (schema env)
    /\ Campaign.campaignType c = nullish (CreateInput.campaignType data) AUTO_JOIN
    /\ Campaign.editorSlots c = nullish (CreateInput.editorSlots data) 5
    /\ Campaign.totalBudget c = nullish (CreateInput.totalBudget data) 0
    /\ campaign s' = (campaign s ++ [c])%list
    /\ campaignParticipant s'
       = (campaignParticipant s
          ++ [{| Participant.campaignId := newId; Participant.userId := userId creator;
                 Participant.role := CREATOR |}])%list
    /\ prizeDistribution s' = (prizeDistribution s ++ createdPrizes newId data)%list
    /\ campaignInvite s' = (campaignInvite s ++ createdInvites newId data)%list
    /\ outbox s'
       = (outbox s ++ [EvCreated newId (userId creator) (CreateInput.title data)
                                 (default_status (schema env))
                                 (CreateInput.studioId data)])%list
    /\ waitlistBan s' = waitlistBan s
    /\ waitlistResponse s' = waitlistResponse s
    /\ campaignPermissions s' = campaignPermissions s.
Proof.
  intros Hp Eout Hc Hnp.
  unfold createCampaign. unfold_prisma. unfold_m. simpl.
  rewrite Eout. simpl. rewrite Hc. simpl.
  unfold findParticipant in Hnp |- *. simpl. rewrite Hnp. simpl.
  unfold createdPrizes, createdInvites.
  destruct (flagAndNonEmpty (CreateInput.enableLeaderboard data)
                            (CreateInput.leaderboardRanks data)) eqn:E1.
  - rewrite (flagAndNonEmpty_true_rows _ _ (rankRows newId 0) E1).
    match goal with
    | |- context [forEachIndexed ?j ?l ?f env ?s1] =>
        pose proof (prize_loop_run newId l j env s1) as L
    end.
    unfold Prisma.prizeDistribution_create, modify in L. rewrite L. simpl.
    destruct (flagAndNonEmpty (CreateInput.isPrivate data) (CreateInput.invitedUsers data))
      eqn:E2.
    + rewrite (flagAndNonEmpty_true_rows _ _
                 (map (fun d => {| Invite.campaignId := newId; Invite.discordUserId := d |}))
                 E2).
      match goal with
      | |- context [forEach ?l ?f env ?s1] =>
          pose proof (invite_loop_run newId l env s1) as W
      end.
      unfold Prisma.campaignInvite_create, modify in W. rewrite W. simpl.
      rewrite Hp. simpl. eexists. eexists. split; [reflexivity |]. repeat split.
    + rewrite (flagAndNonEmpty_false_rows _ _
                 (map (fun d => {| Invite.campaignId := newId; Invite.discordUserId := d |}))
                 eq_refl E2).
      simpl. rewrite Hp. simpl. eexists. eexists. split; [reflexivity |].
      repeat split. simpl. now rewrite app_nil_r.
  - rewrite (flagAndNonEmpty_false_rows _ _ (rankRows newId 0) eq_refl E1). simpl.
    destruct (flagAndNonEmpty (CreateInput.isPrivate data) (CreateInput.invitedUsers data))
      eqn:E2.
    + rewrite (flagAndNonEmpty_true_rows _ _
                 (map (fun d => {| Invite.campaignId := newId; Invite.discordUserId := d |}))
                 E2).
      match goal with
      | |- context [forEach ?l ?f env ?s1] =>
          pose proof (invite_loop_run newId l env s1) as W
      end.
      unfold Prisma.campaignInvite_create, modify in W. rewrite W. simpl.
      rewrite Hp. simpl. eexists. eexists. split; [reflexivity |].
      repeat split. simpl. now rewrite app_nil_r.
    + rewrite (flagAndNonEmpty_false_rows _ _
                 (map (fun d => {| Invite.campaignId := newId; Invite.discordUserId := d |}))
                 eq_refl E2).
      simpl. rewrite Hp. simpl. eexists. eexists. split; [reflexivity |].
      repeat split; simpl; now rewrite app_nil_r.
Qed.

(** X5.  What [createCampaign] leaves behind.  With recognised platforms,
    an identifier that is already taken makes the call raise P2002 with the
    store untouched.  With a fresh identifier and the transport answering,
    the call returns the new row, which carries the creator as [createdBy],
    the status of the schema default and the documented defaults of the
    fields left out (AUTO_JOIN, 5 slots, budget 0); the creator holds the
    CREATOR role; the prizes listed for the campaign are the
    [leaderboardRanks] numbered from 1 when [enableLeaderboard] is true and
    none otherwise; one invite per invited user is stored when [isPrivate]
    is true and none otherwise; exactly one [created] event is published;
    and every other campaign is as it was. *)
Theorem create_postconditions
        (env env' : Env) (s : Store) (newId : string) (data : CreateInput.t)
        (creator : AuthUser) :
  Forall (fun p => recognized p = true) (CreateInput.platforms data) ->
  (findCampaign newId s <> None ->
   run (createCampaign newId data creator) env s = (inl (PrismaError "P2002"), s))
  /\ ((forall e, publishFails env e = false) ->
      findCampaign newId s = None ->
      findParticipant newId (userId creator) s = None ->
      prizesOf newId s = [] ->
      let s' := after (createCampaign newId data creator) env s in
      exists c,
        outcome (createCampaign newId data creator) env s = inr c
        /\ findCampaign newId s' = Some c
        /\ Campaign.createdBy c = userId creator
        /\ Campaign.status c = default_status (schema env)
        /\ Campaign.campaignType c = nullish (CreateInput.campaignType data) AUTO_JOIN
        /\ Campaign.editorSlots c = nullish (CreateInput.editorSlots data) 5
        /\ Campaign.totalBudget c = nullish (CreateInput.totalBudget data) 0
        /\ roleOf newId (userId creator) s' = Some CREATOR
        /\ outcome (getPrizes newId) env' s' = inr (createdPrizes newId data)
        /\ campaignInvite s' = (campaignInvite s ++ createdInvites newId data)%list
        /\ outbox s'
           = (outbox s ++ [EvCreated newId (userId creator) (CreateInput.title data)
                                     (default_status (schema env))
                                     (CreateInput.studioId data)])%list
        /\ forall id', id' <> newId -> findCampaign id' s' = findCampaign id' s).
Proof.
  intros Hrec. destruct (mapPlatforms_ok _ Hrec) as [platforms [Eout _]]. split.
  - intros Hused. unfold createCampaign. unfold_prisma. unfold_m. simpl.
    rewrite Eout. simpl. destruct (findCampaign newId s); [reflexivity | now elim Hused].
  - intros Hp Hc Hnp Hnoprize s'.
    destruct (createCampaign_tables env s newId data creator platforms Hp Eout Hc Hnp)
      as [c [s1 [R [I [B [_ [St [Ty [Sl [Bu [Tc [Tp [Tz [Ti [To _]]]]]]]]]]]]]]].
    assert (Es : s' = s1) by (subst s'; unfold after; unfold run in R; now rewrite R).
    exists c. rewrite Es.
    split; [unfold outcome; unfold run in R; now rewrite R |].
    split.
    { unfold findCampaign in *. rewrite Tc, find_append, Hc. simpl.
      now rewrite I, String.eqb_refl. }
    split; [exact B | split; [exact St | split; [exact Ty | split; [exact Sl |]]]].
    split; [exact Bu |].
    split.
    { unfold roleOf, findParticipant in *. rewrite Tp, find_append, Hnp. simpl.
      now rewrite sameKey_refl. }
    split.
    { unfold getPrizes, PrismaMore.prizeDistribution_findMany, outcome, gets. simpl.
      rewrite Tz, filter_app. unfold prizesOf in Hnoprize. rewrite Hnoprize. simpl.
      unfold createdPrizes.
      destruct (CreateInput.enableLeaderboard data) as [[] |]; simpl; try reflexivity.
      rewrite filter_own_rows by apply rankRows_campaign.
      f_equal. apply sortByPosition_of_sorted. apply (rankRows_sorted newId _ 0). }
    split; [exact Ti | split; [exact To |]].
    intros id' Hne. unfold findCampaign in *. rewrite Tc, find_append.
    destruct (find (fun c0 => String.eqb (Campaign.id c0) id') (campaign s));
      [reflexivity |].
    simpl. rewrite I.
    destruct (String.eqb_spec newId id'); [congruence | reflexivity].
Qed.

Lemma create_postconditions_witness :
  Forall (fun p => recognized p = true) (CreateInput.platforms MoreExample.privateInput)
  /\ outcome (getPrizes "c7") Example.env
       (after (createCampaign "c7" MoreExample.privateInput Example.bob) Example.env
              (Example.activeCampaign AUTO_JOIN 5 1000))
     = inr (rankRows "c7" 0 MoreExample.ranks)
  /\ run (createCampaign "c1" MoreExample.privateInput Example.bob) Example.env
         (Example.activeCampaign AUTO_JOIN 5 1000)
     = (inl (PrismaError "P2002"), Example.activeCampaign AUTO_JOIN 5 1000).
Proof.
  assert (Hrec : Forall (fun p => recognized p = true)
                        (CreateInput.platforms MoreExample.privateInput))
    by (repeat constructor).
  split; [exact Hrec | split].
  - destruct (create_postconditions Example.env Example.env
                (Example.activeCampaign AUTO_JOIN 5 1000) "c7" MoreExample.privateInput
                Example.bob Hrec) as [_ T].
    assert (H1 : forall e, publishFails Example.env e = false) by reflexivity.
    assert (H2 : findCampaign "c7" (Example.activeCampaign AUTO_JOIN 5 1000) = None)
      by (vm_compute; reflexivity).
    assert (H3 : findParticipant "c7" (userId Example.bob)
                   (Example.activeCampaign AUTO_JOIN 5 1000) = None)
      by (vm_compute; reflexivity).
    assert (H4 : prizesOf "c7" (Example.activeCampaign AUTO_JOIN 5 1000) = [])
      by (vm_compute; reflexivity).
    destruct (T H1 H2 H3 H4) as [c [_ [_ [_ [_ [_ [_ [_ [_ [P _]]]]]]]]]].
    exact P.
  - destruct (create_postconditions Example.env Example.env
                (Example.activeCampaign AUTO_JOIN 5 1000) "c1" MoreExample.privateInput
                Example.bob Hrec) as [T _].
    apply T. vm_compute. discriminate.
Defined.

(** ** Missing campaigns *)

(** X6.  A campaign that does not exist.  [updateCampaign],
    [deleteCampaign], [closeCampaign], [fundCampaign], [joinCampaign],
    [approveParticipant] and the stats route look the campaign up first: for
    an unknown identifier each of them fails with NotFound, "Campaign <id>
    not found", whoever calls, and changes nothing.  [removeParticipant],
    [banParticipant], [manageParticipant] and [setWaitlistQuestions] never
    look the campaign up: a caller who is not staff has no role there and
    gets Forbidden instead, again with the store untouched. *)
Theorem unknown_campaign_errors
        (env : Env) (s : Store) (now : Z) (id target : string) (user : AuthUser)
        (data : UpdateBody.t) (answers : option (list (string * string)))
        (reason : option string) (action : ManageAction)
        (questions : list QuestionInput.t) :
  findCampaign id s = None ->
  let missing {A : Type} : (ServiceError + A) * Store :=
    (inl (NotFound ("Campaign " ++ id ++ " not found")), s) in
  (run (updateCampaign id data user) env s = missing
   /\ run (deleteCampaign id user) env s = missing
   /\ run (closeCampaign now id user) env s = missing
   /\ run (fundCampaign id user) env s = missing
   /\ run (joinCampaign id user answers) env s = missing
   /\ run (approveParticipant now id target user) env s = missing
   /\ run (getStats id) env s = missing)
  /\ (findParticipant id (userId user) s = None -> isStaff user = false ->
      run (removeParticipant id target user reason) env s
      = (inl (Forbidden "Only the campaign creator can remove participants"), s)
      /\ run (banParticipant now id target user reason) env s
         = (inl (Forbidden "You do not have permission to ban participants"), s)
      /\ run (manageParticipant id target action user) env s
         = (inl (Forbidden "Only the campaign creator can manage participants"), s)
      /\ run (setWaitlistQuestions id questions user) env s
         = (inl (Forbidden "Only the creator can manage waitlist questions"), s)).
Proof.
  intros Hc missing. split.
  - repeat split;
      [ unfold updateCampaign | unfold deleteCampaign | unfold closeCampaign
      | unfold fundCampaign | unfold joinCampaign | unfold approveParticipant
      | unfold getStats ];
      unfold_prisma; unfold_m; simpl; rewrite Hc; reflexivity.
  - intros Hp Hs. repeat split;
      [ unfold removeParticipant | unfold banParticipant | unfold manageParticipant
      | unfold setWaitlistQuestions ];
      unfold_prisma; unfold_m; simpl; rewrite Hp, Hs; reflexivity.
Qed.

Lemma unknown_campaign_errors_witness :
  findCampaign "nope" (Example.activeCampaign AUTO_JOIN 5 1000) = None
  /\ run (fundCampaign "nope" Example.alice) Example.env
         (Example.activeCampaign AUTO_JOIN 5 1000)
     = (inl (NotFound "Campaign nope not found"), Example.activeCampaign AUTO_JOIN 5 1000)
  /\ run (banParticipant 7 "nope" "bob" Example.alice None) Example.env
         (Example.activeCampaign AUTO_JOIN 5 1000)
     = (inl (Forbidden "You do not have permission to ban participants"),
        Example.activeCampaign AUTO_JOIN 5 1000).
Proof.
  assert (H : findCampaign "nope" (Example.activeCampaign AUTO_JOIN 5 1000) = None)
    by (vm_compute; reflexivity).
  pose proof (unknown_campaign_errors Example.env (Example.activeCampaign AUTO_JOIN 5 1000)
                7 "nope" "bob" Example.alice Example.activate None None REMOVE [] H)
    as [[_ [_ [_ [F _]]]] T].
  split; [exact H | split; [exact F |]].
  apply T; vm_compute; reflexivity.
Defined.

(** ** Invariants of the whole service *)

Ltac unfold_more :=
  unfold PrismaMore.waitlistResponse_findUnique, PrismaMore.waitlistResponse_update,
    PrismaMore.waitlistResponse_findMany, PrismaMore.campaignPermissions_findUnique,
    PrismaMore.campaignPermissions_upsert, PrismaMore.prizeDistribution_findMany in *.



Section Loops.
Variable R : Store -> Store -> Prop.
Hypothesis R_refl : forall s, R s s.
Hypothesis R_trans : forall s1 s2 s3, R s1 s2 -> R s2 s3 -> R s1 s3.
Hypothesis R_campaign : forall s v, R s (set_campaign v s).
Hypothesis R_outbox : forall s v, R s (set_outbox v s).
Hypothesis R_question : forall s v, R s (set_waitlistQuestion v s).


End Loops.

(** *** Ban records are never removed *)













(** *** The CREATOR role is never granted *)












(** ** Applying to a WAITLIST campaign *)

Lemma not_auto_join (c : Campaign.t) :
  Campaign.campaignType c <> AUTO_JOIN ->
  CampaignType_eqb (Campaign.campaignType c) AUTO_JOIN = false.
Proof. destruct (Campaign.campaignType c); [contradiction | reflexivity]. Qed.

Lemma findResponse_other_table (cid uid : string) (v : list Participant.t) (s : Store) :
  findResponse cid uid (set_campaignParticipant v s) = findResponse cid uid s.
Proof. reflexivity. Qed.





Lemma find_response_after_update (cid uid : string) (f : Response.t -> Response.t)
      (l : list Response.t) :
  (forall x, Response.campaignId (f x) = Response.campaignId x
             /\ Response.userId (f x) = Response.userId x) ->
  find (fun r => sameKey cid uid (Response.campaignId r) (Response.userId r))
       (map (fun x => if sameKey cid uid (Response.campaignId x) (Response.userId x)
                      then f x else x) l)
  = option_map f
      (find (fun r => sameKey cid uid (Response.campaignId r) (Response.userId r)) l).
Proof.
  intros Hk. induction l as [| x l IH]; simpl; [reflexivity |].
  destruct (sameKey cid uid (Response.campaignId x) (Response.userId x)) eqn:E; simpl.
  - destruct (Hk x) as [-> ->]. rewrite E. reflexivity.
  - rewrite E. exact IH.
Qed.



(** ** Removal and a second application *)

Lemma creator_check (cid : string) (user : AuthUser) (s : Store) :
  roleOf cid (userId user) s = Some CREATOR \/ isStaff user = true ->
  (negb (roleIs (roleOf cid (userId user) s) CREATOR) && negb (isStaff user))%bool = false.
Proof.
  intros [H | H]; rewrite H; simpl; [reflexivity | apply andb_false_r].
Qed.

(** The store after a removal. *)
Lemma remove_run
      (env : Env) (s : Store) (cid target : string) (user : AuthUser)
      (reason : option string) :
  roleOf cid (userId user) s = Some CREATOR \/ isStaff user = true ->
  target <> userId user ->
  findParticipant cid target s <> None ->
  publishFails env (EvParticipantLeft cid target (leftReasonOf reason)) = false ->
  run (removeParticipant cid target user reason) env s
  = (inr tt,
     set_outbox (outbox s ++ [EvParticipantLeft cid target (leftReasonOf reason)])
       (set_campaignParticipant
          (filter (fun x => negb (sameKey cid target (Participant.campaignId x)
                                          (Participant.userId x)))
                  (campaignParticipant s)) s)).
Proof.
  intros Hm Hself Hrow Hp. apply creator_check in Hm. unfold roleOf in Hm.
  apply String.eqb_neq in Hself.
  unfold removeParticipant. unfold_prisma. unfold_m. simpl.
  rewrite Hm, Hself.
  destruct (findParticipant cid target s); [| contradiction].
  simpl. unfold leftReasonOf in Hp. rewrite Hp. reflexivity.
Qed.

(** A join with answers by a user whose earlier response is still there:
    the participant row is created, then the response creation raises. *)
Lemma join_waitlist_duplicate_response
      (env : Env) (s : Store) (cid : string) (user : AuthUser)
      (a : list (string * string)) (c : Campaign.t) (r : Response.t) :
  findCampaign cid s = Some c ->
  Campaign.status c = ACTIVE ->
  Campaign.campaignType c <> AUTO_JOIN ->
  findParticipant cid (userId user) s = None ->
  findBan cid (userId user) s = None ->
  findResponse cid (userId user) s = Some r ->
  run (joinCampaign cid user (Some a)) env s
  = (inl (PrismaError "P2002"),
     set_campaignParticipant
       (campaignParticipant s
        ++ [{| Participant.campaignId := cid; Participant.userId := userId user;
               Participant.role := PENDING |}]) s).
Proof.
  intros Hc Hst Hty Hnp Hnb Hr. apply not_auto_join in Hty.
  unfold joinCampaign. unfold_prisma. unfold_m. simpl.
  rewrite Hc. simpl. rewrite Hst. simpl. rewrite Hnp, Hnb. simpl.
  rewrite Hty. simpl. rewrite Hnp. simpl.
  rewrite findResponse_other_table, Hr. reflexivity.
Qed.

Lemma join_already_participant
      (env : Env) (s : Store) (cid : string) (user : AuthUser)
      (answers : option (list (string * string))) (c : Campaign.t) :
  findCampaign cid s = Some c ->
  Campaign.status c = ACTIVE ->
  findParticipant cid (userId user) s <> None ->
  run (joinCampaign cid user answers) env s
  = (inl (Conflict "Already a participant in this campaign"), s).
Proof.
  intros Hc Hst Hp.
  unfold joinCampaign. unfold_prisma. unfold_m. simpl.
  rewrite Hc. simpl. rewrite Hst. simpl.
  destruct (findParticipant cid (userId user) s); [reflexivity | contradiction].
Qed.

(** X10.  Applying again after a removal.  [removeParticipant] by the
    CREATOR or staff deletes the participant row of the target and nothing
    else: no ban record is written, also when the reason given is "ban", and
    the waitlist response of the target stays.  When the removed user then
    applies again with answers to the campaign (ACTIVE, not AUTO_JOIN), the
    PENDING participant row is created first and the creation of the
    response then fails on the stored one: the call raises P2002, the user
    is a PENDING participant all the same, the old response with its old
    answers and status is kept, no event is published, and the next attempt
    is refused with Conflict. *)
Theorem reapplication_after_removal
        (env env' : Env) (s : Store) (cid : string) (owner user : AuthUser)
        (reason : option string) (a : list (string * string))
        (c : Campaign.t) (r : Response.t) :
  roleOf cid (userId owner) s = Some CREATOR \/ isStaff owner = true ->
  userId user <> userId owner ->
  findParticipant cid (userId user) s <> None ->
  findResponse cid (userId user) s = Some r ->
  findBan cid (userId user) s = None ->
  findCampaign cid s = Some c ->
  Campaign.status c = ACTIVE ->
  Campaign.campaignType c <> AUTO_JOIN ->
  publishFails env (EvParticipantLeft cid (userId user) (leftReasonOf reason)) = false ->
  let s1 := after (removeParticipant cid (userId user) owner reason) env s in
  let s2 := after (joinCampaign cid user (Some a)) env' s1 in
  outcome (removeParticipant cid (userId user) owner reason) env s = inr tt
  /\ findParticipant cid (userId user) s1 = None
  /\ findBan cid (userId user) s1 = None
  /\ waitlistResponse s1 = waitlistResponse s
  /\ outcome (joinCampaign cid user (Some a)) env' s1 = inl (PrismaError "P2002")
  /\ roleOf cid (userId user) s2 = Some PENDING
  /\ findResponse cid (userId user) s2 = Some r
  /\ outbox s2 = outbox s1
  /\ run (joinCampaign cid user (Some a)) env' s2
     = (inl (Conflict "Already a participant in this campaign"), s2).
Proof.
  intros Hm Hself Hrow Hr Hnb Hc Hst Hty Hp s1 s2.
  pose proof (remove_run env s cid (userId user) owner reason Hm Hself Hrow Hp) as E.
  assert (E1 : s1 = snd (run (removeParticipant cid (userId user) owner reason) env s))
    by reflexivity.
  rewrite E in E1. simpl in E1.
  assert (Hnp1 : findParticipant cid (userId user) s1 = None).
  { rewrite E1. unfold findParticipant. simpl. apply find_participant_after_deleteMany. }
  assert (Hnb1 : findBan cid (userId user) s1 = None) by (rewrite E1; exact Hnb).
  assert (Hr1 : findResponse cid (userId user) s1 = Some r) by (rewrite E1; exact Hr).
  assert (Hc1 : findCampaign cid s1 = Some c) by (rewrite E1; exact Hc).
  pose proof (join_waitlist_duplicate_response env' s1 cid user a c r
                Hc1 Hst Hty Hnp1 Hnb1 Hr1) as J.
  assert (E2 : s2 = snd (run (joinCampaign cid user (Some a)) env' s1)) by reflexivity.
  rewrite J in E2. simpl in E2.
  assert (Hrow2 : findParticipant cid (userId user) s2
                  = Some {| Participant.campaignId := cid; Participant.userId := userId user;
                            Participant.role := PENDING |}).
  { rewrite E2. unfold findParticipant in *. simpl. rewrite find_append, Hnp1. simpl.
    now rewrite sameKey_refl. }
  split; [unfold outcome; fold (run (removeParticipant cid (userId user) owner reason) env s);
          now rewrite E |].
  split; [exact Hnp1 |].
  split; [exact Hnb1 |].
  split; [rewrite E1; reflexivity |].
  split; [unfold outcome; fold (run (joinCampaign cid user (Some a)) env' s1);
          now rewrite J |].
  split; [unfold roleOf; now rewrite Hrow2 |].
  split; [rewrite E2; exact Hr1 |].
  split; [rewrite E2; reflexivity |].
  apply (join_already_participant env' s2 cid user (Some a) c).
  - rewrite E2. exact Hc1.
  - exact Hst.
  - rewrite Hrow2. discriminate.
Qed.

Lemma reapplication_after_removal_witness :
  outcome (joinCampaign "c1" Example.bob (Some WaitlistExample.answers)) Example.env
    (after (removeParticipant "c1" "bob" Example.alice (Some "ban")) Example.env
           ReapplyExample.applied)
  = inl (PrismaError "P2002")
  /\ roleOf "c1" "bob"
       (after (joinCampaign "c1" Example.bob (Some WaitlistExample.answers)) Example.env
          (after (removeParticipant "c1" "bob" Example.alice (Some "ban")) Example.env
                 ReapplyExample.applied))
     = Some PENDING.
Proof.
  assert (Hc : findCampaign "c1" ReapplyExample.applied
               = Some (MoreExample.theCampaign WAITLIST 3 1000)) by (vm_compute; reflexivity).
  assert (Hr : findResponse "c1" "bob" ReapplyExample.applied
               = Some (submittedResponse "c1" "bob" WaitlistExample.answers))
    by (vm_compute; reflexivity).
  assert (Hm : roleOf "c1" "alice" ReapplyExample.applied = Some CREATOR
               \/ isStaff Example.alice = true) by (left; vm_compute; reflexivity).
  assert (Hrow : findParticipant "c1" "bob" ReapplyExample.applied <> None)
    by (vm_compute; discriminate).
  destruct (reapplication_after_removal Example.env Example.env ReapplyExample.applied "c1"
              Example.alice Example.bob (Some "ban") WaitlistExample.answers _ _
              Hm ltac:(vm_compute; discriminate) Hrow Hr eq_refl Hc eq_refl
              ltac:(discriminate) eq_refl)
    as (_ & _ & _ & _ & J & P & _).
  split; [exact J | exact P].
Defined.

(** ** Reviewing a waitlist response *)

Lemma review_run
      (env : Env) (s : Store) (now : Z) (cid target : string) (action : ReviewAction)
      (user : AuthUser) (note : option string) (r : Response.t) :
  mayModerate cid user s ->
  findResponse cid target s = Some r ->
  run (reviewWaitlistResponse now cid target action user note) env s
  = (inr (reviewWithNote (actionStatus action) (userId user) now note r),
     set_waitlistResponse
       (map (fun x => if sameKey cid target (Response.campaignId x) (Response.userId x)
                      then reviewWithNote (actionStatus action) (userId user) now note x
                      else x)
            (waitlistResponse s)) s).
Proof.
  intros Hm Hr. apply mayModerate_check in Hm. unfold roleOf in Hm.
  unfold reviewWaitlistResponse. unfold_more. unfold_prisma. unfold_m. simpl.
  rewrite Hm, Hr. simpl. rewrite Hr. reflexivity.
Qed.

(** The rows that a listing with a status filter answers. *)
Lemma listing_run (env : Env) (s : Store) (cid : string) (user : AuthUser)
      (status : option ReviewStatus) :
  mayModerate cid user s ->
  outcome (getWaitlistResponses cid user status) env s
  = inr (filter (fun r =>
                   (String.eqb (Response.campaignId r) cid
                    && match status with
                       | Some st => ReviewStatus_eqb (Response.status r) st
                       | None => true
                       end)%bool)
                (waitlistResponse s)).
Proof.
  intros Hm. apply mayModerate_check in Hm. unfold roleOf in Hm.
  unfold getWaitlistResponses. unfold_more. unfold_prisma. unfold_m. simpl.
  rewrite Hm. reflexivity.
Qed.

Lemma ReviewStatus_eqb_eq (a b : ReviewStatus) : ReviewStatus_eqb a b = true <-> a = b.
Proof. destruct a, b; simpl; split; intros H; try reflexivity; discriminate. Qed.

(** X11.  Reviewing a response.  For a CREATOR, an ADMIN or staff and a
    stored response, [reviewWaitlistResponse] returns and stores the
    response with the chosen status, the moderator and the time; the answers
    stay, and the note stays too when none is passed.  The earlier status is
    not looked at, so a decision can be reversed.  Nothing but the response
    table is written: the participant row of the applicant keeps its role
    (an APPROVED review makes nobody a member) and nothing is published.
    Afterwards the listing filtered by the chosen status contains the
    response, and the listing filtered by any other status contains no
    response of that user.  Without a stored response the call fails with
    NotFound and changes nothing. *)
Theorem review_records_decision
        (env : Env) (s : Store) (now : Z) (cid target : string) (action : ReviewAction)
        (user : AuthUser) (note : option string) :
  mayModerate cid user s ->
  (findResponse cid target s = None ->
   run (reviewWaitlistResponse now cid target action user note) env s
   = (inl (NotFound "Waitlist response not found"), s))
  /\ forall r,
       findResponse cid target s = Some r ->
       let s' := after (reviewWaitlistResponse now cid target action user note) env s in
       let r' := reviewWithNote (actionStatus action) (userId user) now note r in
       outcome (reviewWaitlistResponse now cid target action user note) env s = inr r'
       /\ findResponse cid target s' = Some r'
       /\ Response.status r' = actionStatus action
       /\ Response.answers r' = Response.answers r
       /\ (note = None -> Response.note r' = Response.note r)
       /\ campaignParticipant s' = campaignParticipant s
       /\ outbox s' = outbox s
       /\ forall env' viewer status rows,
            mayModerate cid viewer s' ->
            outcome (getWaitlistResponses cid viewer status) env' s' = inr rows ->
            (status = Some (actionStatus action) \/ status = None -> In r' rows)
            /\ (forall st, status = Some st -> st <> actionStatus action ->
                forall x, In x rows -> Response.userId x <> target).
Proof.
  intros Hm. split.
  - intros Hr. pose proof Hm as Hm'. apply mayModerate_check in Hm'. unfold roleOf in Hm'.
    unfold reviewWaitlistResponse. unfold_more. unfold_prisma. unfold_m. simpl.
    rewrite Hm', Hr. reflexivity.
  - intros r Hr s' r'.
    pose proof (review_run env s now cid target action user note r Hm Hr) as E.
    assert (E1 : s' = snd (run (reviewWaitlistResponse now cid target action user note) env s))
      by reflexivity.
    rewrite E in E1. simpl in E1.
    assert (Hkey : Response.campaignId r = cid /\ Response.userId r = target).
    { unfold findResponse in Hr. apply find_some in Hr as [_ Hk].
      apply sameKey_eq in Hk. exact Hk. }
    assert (Hr' : findResponse cid target s' = Some r').
    { rewrite E1. unfold findResponse in *. simpl.
      rewrite find_response_after_update by (intros x; split; reflexivity).
      now rewrite Hr. }
    split; [unfold outcome;
            fold (run (reviewWaitlistResponse now cid target action user note) env s);
            now rewrite E |].
    split; [exact Hr' |].
    split; [reflexivity |].
    split; [reflexivity |].
    split; [intros ->; reflexivity |].
    split; [rewrite E1; reflexivity |].
    split; [rewrite E1; reflexivity |].
    intros env' viewer status rows Hv Hrows.
    rewrite (listing_run env' s' cid viewer status Hv) in Hrows.
    inversion Hrows as [Erows]. clear Hrows. split.
    + intros Hs. apply filter_In. split.
      * unfold findResponse in Hr'. apply find_some in Hr'. apply Hr'.
      * destruct Hkey as [Hk _].
        assert (Hk' : Response.campaignId r' = cid) by exact Hk.
        rewrite Hk', String.eqb_refl. simpl.
        destruct Hs as [-> | ->]; [| reflexivity].
        now destruct action.
    + intros st -> Hne x Hx Hu.
      apply filter_In in Hx as [Hin Htest].
      apply andb_true_iff in Htest as [Hcid Hst].
      apply String.eqb_eq in Hcid. apply ReviewStatus_eqb_eq in Hst.
      rewrite E1 in Hin. simpl in Hin. apply in_map_iff in Hin as [y [Hy _]].
      destruct (sameKey cid target (Response.campaignId y) (Response.userId y)) eqn:K.
      * subst x. simpl in Hst. congruence.
      * subst x. assert (K' : sameKey cid target (Response.campaignId y) (Response.userId y)
                              = true) by (apply sameKey_eq; split; assumption).
        congruence.
Qed.

Lemma review_records_decision_witness :
  mayModerate "c1" Example.alice ReapplyExample.applied
  /\ findResponse "c1" "bob"
       (after (reviewWaitlistResponse 9 "c1" "bob" REVIEW_APPROVED Example.alice None)
              Example.env ReapplyExample.applied)
     = Some (reviewWithNote APPROVED "alice" 9 None
               (submittedResponse "c1" "bob" WaitlistExample.answers))
  /\ campaignParticipant
       (after (reviewWaitlistResponse 9 "c1" "bob" REVIEW_APPROVED Example.alice None)
              Example.env ReapplyExample.applied)
     = campaignParticipant ReapplyExample.applied.
Proof.
  assert (Hm : mayModerate "c1" Example.alice ReapplyExample.applied)
    by (left; vm_compute; reflexivity).
  assert (Hr : findResponse "c1" "bob" ReapplyExample.applied
               = Some (submittedResponse "c1" "bob" WaitlistExample.answers))
    by (vm_compute; reflexivity).
  destruct (review_records_decision Example.env ReapplyExample.applied 9 "c1" "bob"
              REVIEW_APPROVED Example.alice None Hm) as [_ R].
  destruct (R _ Hr) as (_ & F & _ & _ & _ & P & _).
  split; [exact Hm | split; [exact F | exact P]].
Defined.

(** ** The creator steps down *)

(** The role of any user after an update of one role. *)
Lemma roleOf_after_update (cid target uid : string) (r : ParticipantRole)
      (l : list Participant.t) :
  option_map Participant.role
    (find (fun p => sameKey cid uid (Participant.campaignId p) (Participant.userId p))
       (map (fun x => if sameKey cid target (Participant.campaignId x) (Participant.userId x)
                      then setRole r x else x) l))
  = match find (fun p => sameKey cid uid (Participant.campaignId p) (Participant.userId p)) l
    with
    | Some p => Some (if String.eqb uid target then r else Participant.role p)
    | None => None
    end.
Proof.
  induction l as [| x l IH]; simpl; [reflexivity |].
  destruct (sameKey cid target (Participant.campaignId x) (Participant.userId x)) eqn:E1;
    simpl;
    destruct (sameKey cid uid (Participant.campaignId x) (Participant.userId x)) eqn:E2;
    simpl; try exact IH.
  - apply sameKey_eq in E1 as [_ B1]. apply sameKey_eq in E2 as [_ B2].
    assert (E : uid = target) by congruence. apply String.eqb_eq in E. now rewrite E.
  - destruct (String.eqb_spec uid target) as [-> |]; [| reflexivity].
    apply sameKey_eq in E2 as [A2 B2].
    assert (K : sameKey cid target (Participant.campaignId x) (Participant.userId x) = true)
      by (apply sameKey_eq; split; assumption).
    congruence.
Qed.

Lemma manage_role_run
      (env : Env) (s : Store) (cid target : string) (action : ManageAction)
      (user : AuthUser) (p : Participant.t) (r : ParticipantRole) :
  roleOf cid (userId user) s = Some CREATOR \/ isStaff user = true ->
  findParticipant cid target s = Some p ->
  (action = PROMOTE /\ r = ADMIN) \/ (action = DEMOTE /\ r = MEMBER) ->
  run (manageParticipant cid target action user) env s
  = (inr (Some (setRole r p)),
     set_campaignParticipant
       (map (fun x => if sameKey cid target (Participant.campaignId x) (Participant.userId x)
                      then setRole r x else x)
            (campaignParticipant s)) s).
Proof.
  intros Hm Hp Ha. apply creator_check in Hm. unfold roleOf in Hm.
  unfold manageParticipant. unfold_prisma. unfold_m. simpl. rewrite Hm.
  destruct Ha as [[-> ->] | [-> ->]]; simpl; rewrite Hp; reflexivity.
Qed.

Lemma manage_remove_self (env : Env) (s : Store) (cid : string) (user : AuthUser) :
  roleOf cid (userId user) s = Some CREATOR \/ isStaff user = true ->
  run (manageParticipant cid (userId user) REMOVE user) env s
  = (inl (BadRequest "Cannot remove yourself"), s).
Proof.
  intros Hm. apply creator_check in Hm. unfold roleOf in Hm.
  unfold manageParticipant, removeParticipant. unfold_prisma. unfold_m. simpl.
  rewrite Hm. simpl. rewrite Hm. now rewrite String.eqb_refl.
Qed.

(** X12.  The creator can step down, for good.  [manageParticipant] guards
    the REMOVE of oneself ("Cannot remove yourself") but not the DEMOTE: the
    CREATOR of a campaign who demotes themself becomes a MEMBER.  When they
    were the only CREATOR, nobody holds the role afterwards, and every caller
    who is not staff, the former creator included, is refused by
    [manageParticipant], [removeParticipant], [setWaitlistQuestions] and the
    permissions route, whatever the arguments.  PROMOTE and DEMOTE do not
    look at the current role of the target either: they set ADMIN and
    MEMBER on any existing row. *)
Theorem creator_can_step_down
        (env : Env) (s : Store) (cid : string) (creator : AuthUser) :
  roleOf cid (userId creator) s = Some CREATOR ->
  isStaff creator = false ->
  let s' := after (manageParticipant cid (userId creator) DEMOTE creator) env s in
  run (manageParticipant cid (userId creator) REMOVE creator) env s
  = (inl (BadRequest "Cannot remove yourself"), s)
  /\ (exists p, outcome (manageParticipant cid (userId creator) DEMOTE creator) env s
                = inr (Some p)
                /\ Participant.role p = MEMBER)
  /\ roleOf cid (userId creator) s' = Some MEMBER
  /\ (forall uid, uid <> userId creator -> roleOf cid uid s' = roleOf cid uid s)
  /\ ((forall uid, roleOf cid uid s = Some CREATOR -> uid = userId creator) ->
      forall env' user target action reason questions columns data,
        isStaff user = false ->
        run (manageParticipant cid target action user) env' s'
        = (inl (Forbidden "Only the campaign creator can manage participants"), s')
        /\ run (removeParticipant cid target user reason) env' s'
           = (inl (Forbidden "Only the campaign creator can remove participants"), s')
        /\ run (setWaitlistQuestions cid questions user) env' s'
           = (inl (Forbidden "Only the creator can manage waitlist questions"), s')
        /\ run (setPermissions columns cid data user) env' s'
           = (inl (Forbidden "Only the campaign creator can modify permissions"), s'))
  /\ forall env' target p action r,
       findParticipant cid target s = Some p ->
       (action = PROMOTE /\ r = ADMIN) \/ (action = DEMOTE /\ r = MEMBER) ->
       roleOf cid target (after (manageParticipant cid target action creator) env' s)
       = Some r.
Proof.
  intros Hc Hns s'.
  destruct (findParticipant cid (userId creator) s) as [p |] eqn:Hp;
    [| unfold roleOf in Hc; rewrite Hp in Hc; discriminate].
  pose proof (manage_role_run env s cid (userId creator) DEMOTE creator p MEMBER
                (or_introl Hc) Hp (or_intror (conj eq_refl eq_refl))) as E.
  assert (E1 : s' = snd (run (manageParticipant cid (userId creator) DEMOTE creator) env s))
    by reflexivity.
  rewrite E in E1. simpl in E1.
  assert (Hrole : forall uid,
             roleOf cid uid s'
             = match findParticipant cid uid s with
               | Some q => Some (if String.eqb uid (userId creator) then MEMBER
                                 else Participant.role q)
               | None => None
               end).
  { intros uid. rewrite E1. unfold roleOf, findParticipant. simpl.
    apply roleOf_after_update. }
  split; [apply manage_remove_self; now left |].
  split.
  { exists (setRole MEMBER p). split; [| reflexivity].
    unfold outcome. fold (run (manageParticipant cid (userId creator) DEMOTE creator) env s).
    now rewrite E. }
  split; [rewrite Hrole, Hp, String.eqb_refl; reflexivity |].
  split.
  { intros uid Hne. rewrite Hrole. unfold roleOf.
    destruct (findParticipant cid uid s); [| reflexivity].
    apply String.eqb_neq in Hne. now rewrite Hne. }
  split.
  - intros Honly env' user target action reason questions columns data Hstaff.
    assert (Hno : (negb (roleIs (option_map Participant.role
                                   (findParticipant cid (userId user) s')) CREATOR)
                   && negb (isStaff user))%bool = true).
    { rewrite Hstaff. simpl. rewrite andb_true_r.
      fold (roleOf cid (userId user) s'). rewrite Hrole.
      destruct (findParticipant cid (userId user) s) as [q |] eqn:Hq; [| reflexivity].
      destruct (String.eqb_spec (userId user) (userId creator)) as [Heq | Hne];
        [reflexivity |].
      destruct (Participant.role q) eqn:Hrq; try reflexivity.
      exfalso. apply Hne, Honly. unfold roleOf. now rewrite Hq, <- Hrq. }
    repeat split.
    + unfold manageParticipant. unfold_prisma. unfold_m. simpl. now rewrite Hno.
    + unfold removeParticipant. unfold_prisma. unfold_m. simpl. now rewrite Hno.
    + unfold setWaitlistQuestions. unfold_prisma. unfold_m. simpl. now rewrite Hno.
    + unfold setPermissions. unfold_prisma. unfold_m. simpl. now rewrite Hno.
  - intros env' target q action r Hq Ha.
    pose proof (manage_role_run env' s cid target action creator q r (or_introl Hc) Hq Ha)
      as F.
    unfold after. fold (run (manageParticipant cid target action creator) env' s).
    rewrite F. unfold roleOf, findParticipant. simpl. rewrite roleOf_after_update.
    unfold findParticipant in Hq. now rewrite Hq, String.eqb_refl.
Qed.

Lemma creator_can_step_down_witness :
  roleOf "c1" "alice" (Example.activeCampaign AUTO_JOIN 5 1000) = Some CREATOR
  /\ roleOf "c1" "alice"
       (after (manageParticipant "c1" "alice" DEMOTE Example.alice) Example.env
              (Example.activeCampaign AUTO_JOIN 5 1000))
     = Some MEMBER
  /\ outcome (manageParticipant "c1" "bob" PROMOTE Example.alice) Example.env
       (after (manageParticipant "c1" "alice" DEMOTE Example.alice) Example.env
              (Example.activeCampaign AUTO_JOIN 5 1000))
     = inl (Forbidden "Only the campaign creator can manage participants").
Proof.
  assert (Hc : roleOf "c1" (userId Example.alice) (Example.activeCampaign AUTO_JOIN 5 1000)
               = Some CREATOR) by (vm_compute; reflexivity).
  assert (Hrows : campaignParticipant (Example.activeCampaign AUTO_JOIN 5 1000)
                  = [{| Participant.campaignId := "c1"; Participant.userId := "alice";
                        Participant.role := CREATOR |}]) by (vm_compute; reflexivity).
  assert (Honly : forall uid,
             roleOf "c1" uid (Example.activeCampaign AUTO_JOIN 5 1000) = Some CREATOR ->
             uid = userId Example.alice).
  { intros uid H. unfold roleOf, findParticipant in H. rewrite Hrows in H. simpl in H.
    destruct (sameKey "c1" uid "c1" "alice") eqn:K; [| discriminate].
    apply sameKey_eq in K. symmetry. apply K. }
  destruct (creator_can_step_down Example.env (Example.activeCampaign AUTO_JOIN 5 1000)
              "c1" Example.alice Hc eq_refl) as (_ & _ & R & _ & L & _).
  split; [exact Hc | split; [exact R |]].
  destruct (L Honly Example.env Example.alice "bob" PROMOTE None [] routeDefaults
              {| PermissionsPatch.adminsCanReviewClips := None;
                 PermissionsPatch.adminsCanManageTeam := None;
                 PermissionsPatch.adminsCanEditCampaign := None;
                 PermissionsPatch.adminsCanAddBudget := None;
                 PermissionsPatch.adminsCanDeleteCampaign := None |} eq_refl) as [F _].
  pose proof (f_equal fst F) as F'. vm_compute in F'. vm_compute. exact F'.
Defined.

(** ** The counters after any number of deliveries *)

Lemma deliver_step (env : Env) (s : Store) (id : string) (c : Campaign.t)
      (ev : InboundEvent) :
  findCampaign id s = Some c ->
  updateFails env id = false ->
  findCampaign id (after (handleEvent ev) env s) = Some (counted id ev c)
  /\ campaignParticipant (after (handleEvent ev) env s) = campaignParticipant s.
Proof.
  intros Hc Hu.
  assert (G : forall i d,
             findCampaign id (after (Prisma.campaign_update i d ;;; ret tt) env s)
             = Some (if String.eqb i id then CampaignUpdate.apply d c else c)
             /\ campaignParticipant (after (Prisma.campaign_update i d ;;; ret tt) env s)
                = campaignParticipant s).
  { intros i d. unfold Prisma.campaign_update. unfold_m.
    destruct (String.eqb_spec i id) as [-> | Hne].
    - rewrite Hu, Hc. simpl. split; [| reflexivity].
      now rewrite findCampaign_updated, String.eqb_refl, Hc.
    - destruct (updateFails env i); simpl; [split; [exact Hc | reflexivity] |].
      destruct (findCampaign i s); simpl; [| split; [exact Hc | reflexivity]].
      split; [| reflexivity]. rewrite findCampaign_updated.
      destruct (String.eqb_spec id i); [congruence | exact Hc]. }
  destruct ev; simpl; try apply G.
  split; [exact Hc | reflexivity].
Qed.

Lemma occurrences_cons (test : InboundEvent -> bool) (ev : InboundEvent)
      (events : list InboundEvent) :
  occurrences test (ev :: events)
  = (if test ev then 1 else 0) + occurrences test events.
Proof.
  unfold occurrences. simpl filter. destruct (test ev); [| lia].
  change (List.length (ev :: filter test events))
    with (S (List.length (filter test events))).
  rewrite Nat2Z.inj_succ. lia.
Qed.

Lemma counted_fields (id : string) (ev : InboundEvent) (c : Campaign.t) :
  Campaign.pendingClips (counted id ev c)
  = Campaign.pendingClips c + (if isSubmitted id ev then 1 else 0)
  /\ Campaign.approvedClips (counted id ev c)
     = Campaign.approvedClips c + (if isApproved id ev then 1 else 0)
  /\ Campaign.rejectedClips (counted id ev c)
     = Campaign.rejectedClips c + (if isRejected id ev then 1 else 0)
  /\ Campaign.status (counted id ev c) = Campaign.status c
  /\ Campaign.totalViews (counted id ev c) = Campaign.totalViews c
  /\ Campaign.totalBudget (counted id ev c) = Campaign.totalBudget c
  /\ Campaign.endDate (counted id ev c) = Campaign.endDate c.
Proof.
  destruct ev; simpl; try destruct (String.eqb campaignId id); simpl;
    repeat split; try reflexivity; lia.
Qed.

Lemma deliverAll_counters (env : Env) (id : string) (events : list InboundEvent) :
  updateFails env id = false ->
  forall s c,
    findCampaign id s = Some c ->
    exists c',
      findCampaign id (deliverAll env events s) = Some c'
      /\ Campaign.pendingClips c'
         = Campaign.pendingClips c + occurrences (isSubmitted id) events
      /\ Campaign.approvedClips c'
         = Campaign.approvedClips c + occurrences (isApproved id) events
      /\ Campaign.rejectedClips c'
         = Campaign.rejectedClips c + occurrences (isRejected id) events
      /\ Campaign.status c' = Campaign.status c
      /\ Campaign.totalViews c' = Campaign.totalViews c
      /\ Campaign.totalBudget c' = Campaign.totalBudget c
      /\ Campaign.endDate c' = Campaign.endDate c
      /\ campaignParticipant (deliverAll env events s) = campaignParticipant s.
Proof.
  intros Hu. induction events as [| ev events IH]; intros s c Hc; simpl.
  - exists c. unfold occurrences. simpl. repeat split; try lia. exact Hc.
  - destruct (deliver_step env s id c ev Hc Hu) as [Hc1 Hp1].
    destruct (IH _ _ Hc1) as (c' & F & P & A & R & St & V & B & D & Pp).
    destruct (counted_fields id ev c) as (P1 & A1 & R1 & St1 & V1 & B1 & D1).
    exists c'. rewrite !occurrences_cons.
    repeat split; try congruence; try lia.
Qed.

Lemma occurrences_clip (id : string) (events : list InboundEvent) :
  occurrences (isClipEvent id) events
  = occurrences (isSubmitted id) events + occurrences (isApproved id) events
    + occurrences (isRejected id) events.
Proof.
  induction events as [| ev events IH]; [reflexivity |].
  rewrite !occurrences_cons, IH. unfold isClipEvent.
  generalize (occurrences (isSubmitted id) events) (occurrences (isApproved id) events)
             (occurrences (isRejected id) events).
  intros x y z.
  destruct ev; unfold isSubmitted, isApproved, isRejected;
    try destruct (String.eqb campaignId id); cbv [orb]; lia.
Qed.

(** X13.  The counters after any number of deliveries.  Whatever events are
    delivered, in whatever order, to a store that holds campaign [id] and
    accepts its updates, the campaign is still there afterwards and its
    [pendingClips], [approvedClips] and [rejectedClips] have grown by the
    number of [clip.submitted], [clip.approved] and [clip.rejected] events
    that name it; no event lowers a counter, so the approval or rejection
    of a clip does not take it out of [pendingClips].  Events of other or
    unknown campaigns and [stats.updated] events change nothing of it:
    status, budget, end date and [totalViews] stay.  The stats route then
    reports as [totalSubmissions] the earlier total plus the number of all
    clip events of the campaign, a submitted and then approved clip
    counting twice. *)
Theorem counters_after_deliveries
        (env env' : Env) (events : list InboundEvent) (s : Store) (id : string)
        (c : Campaign.t) :
  findCampaign id s = Some c ->
  updateFails env id = false ->
  let s' := deliverAll env events s in
  exists c' stats,
    findCampaign id s' = Some c'
    /\ Campaign.pendingClips c'
       = Campaign.pendingClips c + occurrences (isSubmitted id) events
    /\ Campaign.approvedClips c'
       = Campaign.approvedClips c + occurrences (isApproved id) events
    /\ Campaign.rejectedClips c'
       = Campaign.rejectedClips c + occurrences (isRejected id) events
    /\ Campaign.status c' = Campaign.status c
    /\ Campaign.totalViews c' = Campaign.totalViews c
    /\ outcome (getStats id) env' s' = inr stats
    /\ PublicStats.totalSubmissions stats
       = Campaign.approvedClips c + Campaign.pendingClips c + Campaign.rejectedClips c
         + occurrences (isClipEvent id) events
    /\ PublicStats.approvedSubmissions stats
       = Campaign.approvedClips c + occurrences (isApproved id) events
    /\ PublicStats.totalViews stats = Campaign.totalViews c
    /\ PublicStats.totalBudget stats = Campaign.totalBudget c
    /\ PublicStats.isActive stats = CampaignStatus_eqb (Campaign.status c) ACTIVE
    /\ PublicStats.participantsCount stats = countParticipants id s.
Proof.
  intros Hc Hu s'.
  destruct (deliverAll_counters env id events Hu s c Hc)
    as (c' & F & P & A & R & St & V & B & D & Pp).
  fold s' in F, Pp.
  assert (G : outcome (getStats id) env' s'
              = inr {| PublicStats.totalViews := Campaign.totalViews c';
                       PublicStats.totalSubmissions :=
                         Campaign.approvedClips c' + Campaign.pendingClips c'
                         + Campaign.rejectedClips c';
                       PublicStats.approvedSubmissions := Campaign.approvedClips c';
                       PublicStats.campaignEndDate := Campaign.endDate c';
                       PublicStats.isActive := CampaignStatus_eqb (Campaign.status c') ACTIVE;
                       PublicStats.participantsCount := countParticipants id s';
                       PublicStats.totalBudget := Campaign.totalBudget c' |}).
  { unfold getStats. unfold_prisma. unfold_m. simpl. now rewrite F. }
  eexists. eexists. split; [exact F |].
  split; [exact P |]. split; [exact A |]. split; [exact R |].
  split; [exact St |]. split; [exact V |]. split; [exact G |].
  simpl. rewrite occurrences_clip.
  repeat split; try congruence; try lia.
  unfold countParticipants. now rewrite Pp.
Qed.

Lemma counters_after_deliveries_witness :
  exists stats,
    outcome (getStats "c1") Example.env
      (deliverAll Example.env DeliveryExample.events (Example.activeCampaign AUTO_JOIN 5 1000))
    = inr stats
    /\ PublicStats.totalSubmissions stats = 4
    /\ PublicStats.approvedSubmissions stats = 1.
Proof.
  assert (Hc : findCampaign "c1" (Example.activeCampaign AUTO_JOIN 5 1000)
               = Some (MoreExample.theCampaign AUTO_JOIN 5 1000)) by (vm_compute; reflexivity).
  destruct (counters_after_deliveries Example.env Example.env DeliveryExample.events
              (Example.activeCampaign AUTO_JOIN 5 1000) "c1" _ Hc eq_refl)
    as (c' & stats & _ & _ & _ & _ & _ & _ & G & T & A & _).
  exists stats. split; [exact G | split].
  - rewrite T. vm_compute. reflexivity.
  - rewrite A. vm_compute. reflexivity.
Defined.

(** ** The permissions route *)






(** ** A second sweep *)






(** ** Rows that are not there *)

(** X16.  Acting on a row that does not exist.  None of the participant
    functions tests that its target is a participant.  For a caller who
    passes the permission test, an approval (with a free slot), a removal,
    a PROMOTE, a DEMOTE and a REMOVE of a user without a participant row
    all end in the storage error P2025 instead of NotFound, and write and
    publish nothing.  A ban of somebody who is banned already ends in the
    storage error P2002, before anything is deleted or published. *)
Theorem absent_rows_raise_storage_errors
        (env : Env) (s : Store) (now : Z) (cid target : string) (user : AuthUser)
        (reason : option string) :
  (forall c,
     findCampaign cid s = Some c ->
     mayModerate cid user s ->
     Z.of_nat (countParticipants cid s) < Campaign.editorSlots c ->
     findParticipant cid target s = None ->
     run (approveParticipant now cid target user) env s = (inl (PrismaError "P2025"), s))
  /\ (roleOf cid (userId user) s = Some CREATOR \/ isStaff user = true ->
      target <> userId user ->
      findParticipant cid target s = None ->
      run (removeParticipant cid target user reason) env s = (inl (PrismaError "P2025"), s)
      /\ forall action,
           run (manageParticipant cid target action user) env s
           = (inl (PrismaError "P2025"), s))
  /\ (mayModerate cid user s ->
      findBan cid target s <> None ->
      run (banParticipant now cid target user reason) env s = (inl (PrismaError "P2002"), s)).
Proof.
  split; [| split].
  - intros c Hc Hm Hcap Hnone.
    assert (Hslots : (Campaign.editorSlots c <=? Z.of_nat (countParticipants cid s)) = false)
      by (apply Z.leb_gt; exact Hcap).
    apply mayModerate_check in Hm. unfold roleOf in Hm.
    unfold approveParticipant. unfold_prisma. unfold_m. simpl.
    rewrite Hc. simpl. rewrite Hm, Hslots, Hnone. reflexivity.
  - intros Hm Hself Hnone. apply creator_check in Hm. unfold roleOf in Hm.
    apply String.eqb_neq in Hself.
    assert (R : run (removeParticipant cid target user reason) env s
                = (inl (PrismaError "P2025"), s)).
    { unfold removeParticipant. unfold_prisma. unfold_m. simpl.
      rewrite Hm, Hself, Hnone. reflexivity. }
    split; [exact R |].
    intros action. unfold manageParticipant, removeParticipant. unfold_prisma. unfold_m.
    simpl. rewrite Hm.
    destruct action; simpl; rewrite ?Hm, ?Hself, Hnone; reflexivity.
  - intros Hm Hb. apply mayModerate_check in Hm. unfold roleOf in Hm.
    unfold banParticipant. unfold_prisma. unfold_m. simpl. rewrite Hm.
    destruct (findBan cid target s); [reflexivity | contradiction].
Qed.

Lemma absent_rows_raise_storage_errors_witness :
  run (manageParticipant "c1" "carol" PROMOTE Example.alice) Example.env
      (Example.activeCampaign AUTO_JOIN 5 1000)
  = (inl (PrismaError "P2025"), Example.activeCampaign AUTO_JOIN 5 1000)
  /\ run (banParticipant 8 "c1" "bob" Example.alice None) Example.env BanExample.banned
     = (inl (PrismaError "P2002"), BanExample.banned).
Proof.
  split.
  - destruct (absent_rows_raise_storage_errors Example.env
                (Example.activeCampaign AUTO_JOIN 5 1000) 0 "c1" "carol" Example.alice None)
      as (_ & M & _).
    destruct (M ltac:(left; vm_compute; reflexivity) ltac:(vm_compute; discriminate)
                ltac:(vm_compute; reflexivity)) as [_ P].
    exact (P PROMOTE).
  - destruct (absent_rows_raise_storage_errors Example.env BanExample.banned 8 "c1" "bob"
                Example.alice None) as (_ & _ & B).
    apply B; [left; vm_compute; reflexivity | vm_compute; discriminate].
Defined.

(** ** Platform names *)

Lemma mapPlatform_lower (p q : string) (x : Platform) :
  JsString.toLowerCase p = JsString.toLowerCase q ->
  mapPlatform p = inr x -> mapPlatform q = inr x.
Proof.
  intros E H. pose proof (platformOf_lower p q E) as P. unfold platformOf in P.
  rewrite H in P. destruct (mapPlatform q); congruence.
Qed.

(** X17.  Platform names are read without their case.  Two lists of
    platform strings that agree element by element up to the case of their
    letters are mapped to the same platforms, or are both refused; the
    result has one platform per string, in the same order, and repeated
    platforms are kept. *)
Theorem platform_names_ignore_case (ps qs : list string) (out : list Platform) :
  Forall2 (fun p q => JsString.toLowerCase p = JsString.toLowerCase q) ps qs ->
  mapPlatforms ps = inr out ->
  mapPlatforms qs = inr out
  /\ List.length out = List.length ps
  /\ Forall2 (fun p x => platformOf p = Some x) ps out.
Proof.
  intros H. revert out. induction H as [| p q ps qs E _ IH]; intros out; simpl.
  - intros Hout. inversion Hout. repeat split. constructor.
  - destruct (mapPlatform p) as [e | x] eqn:Ep; [discriminate |].
    destruct (mapPlatforms ps) as [e | xs] eqn:Eps; [discriminate |].
    intros Hout. inversion Hout; subst out.
    destruct (IH xs eq_refl) as (Hq & Hl & Hf).
    rewrite (mapPlatform_lower p q x E Ep), Hq. simpl.
    split; [reflexivity | split; [now rewrite Hl |]].
    constructor; [| exact Hf]. unfold platformOf. now rewrite Ep.
Qed.

Lemma platform_names_ignore_case_witness :
  mapPlatforms ["YouTube"; "TIK TOK"; "yt"] = inr [YOUTUBE; TIKTOK; YOUTUBE]
  /\ mapPlatforms ["youtube"; "tik tok"; "YT"] = inr [YOUTUBE; TIKTOK; YOUTUBE].
Proof.
  assert (H : mapPlatforms ["YouTube"; "TIK TOK"; "yt"] = inr [YOUTUBE; TIKTOK; YOUTUBE])
    by (vm_compute; reflexivity).
  split; [exact H |].
  apply (platform_names_ignore_case ["YouTube"; "TIK TOK"; "yt"] ["youtube"; "tik tok"; "YT"]
           [YOUTUBE; TIKTOK; YOUTUBE]); [| exact H].
  repeat constructor.
Defined.

(** ** Listing campaigns page by page *)

Lemma pages_concat {A : Type} (n : nat) :
  (0 < n)%nat ->
  forall (k : nat) (l : list A),
    (List.length l <= k * n)%nat ->
    List.concat (map (fun i => firstn n (skipn (i * n)%nat l)) (seq 0 k)) = l.
Proof.
  intros Hn. induction k as [| k IH]; intros l Hl.
  - simpl in *. destruct l; [reflexivity | simpl in Hl; lia].
  - rewrite <- cons_seq, <- seq_shift, map_cons, map_map, concat_cons.
    change (0 * n)%nat with 0%nat. change (skipn 0 l) with l.
    transitivity (firstn n l ++ skipn n l)%list; [| apply firstn_skipn].
    f_equal.
    rewrite <- (IH (skipn n l)) by (rewrite length_skipn; simpl in Hl; lia).
    f_equal. apply map_ext. intros i.
    rewrite skipn_skipn. f_equal. f_equal. simpl. lia.
Qed.

Lemma ceilDiv_covers (total limit : nat) :
  (0 < limit)%nat -> (total <= ceilDiv total limit * limit)%nat.
Proof.
  intros Hl. unfold ceilDiv.
  pose proof (Nat.div_mod_eq (total + limit - 1) limit) as E.
  pose proof (Nat.mod_upper_bound (total + limit - 1) limit ltac:(lia)) as B.
  nia.
Qed.

Lemma skipn_all_beyond {A : Type} (n : nat) (l : list A) :
  (List.length l <= n)%nat -> skipn n l = [].
Proof. intros H. now apply skipn_all2. Qed.

Lemma in_firstn {A : Type} (n : nat) (l : list A) (x : A) : In x (firstn n l) -> In x l.
Proof. intros H. rewrite <- (firstn_skipn n l). apply in_or_app. now left. Qed.

Lemma in_skipn {A : Type} (n : nat) (l : list A) (x : A) : In x (skipn n l) -> In x l.
Proof. intros H. rewrite <- (firstn_skipn n l). apply in_or_app. now right. Qed.

Lemma listCampaigns_run (publishedColumn : Campaign.t -> bool) (filters : ListFilters.t)
      (p : positive) (env : Env) (s : Store) :
  let limit := Pos.to_nat (nullish (ListFilters.limit filters) 20%positive) in
  let matching := rev (filter (listWhere publishedColumn filters) (campaign s)) in
  run (listCampaigns publishedColumn (atPage filters p)) env s
  = (inr {| CampaignPage.campaigns :=
              firstn limit (skipn ((Pos.to_nat p - 1) * limit)%nat matching);
            CampaignPage.total := List.length matching;
            CampaignPage.page := p;
            CampaignPage.limit := nullish (ListFilters.limit filters) 20%positive;
            CampaignPage.totalPages := ceilDiv (List.length matching) limit |},
     s).
Proof.
  intros limit matching. unfold listCampaigns. unfold_m. simpl.
  subst matching. rewrite length_rev. reflexivity.
Qed.

(** X18.  The pages of the campaign listing.  [listCampaigns] only reads.
    For every page number it reports as [total] the number of campaigns
    that pass the filters and as [totalPages] that number divided by the
    page size, rounded up; a page holds at most [limit] campaigns, all of
    which pass the filters, and a page beyond [totalPages] is empty.  The
    pages 1 to [totalPages], one after the other, are exactly the campaigns
    that pass the filters, the latest created first: none is left out and
    none comes twice.  An empty string in [studioId] or [createdBy] sets no
    filter. *)
Theorem listing_pages_partition
        (publishedColumn : Campaign.t -> bool) (filters : ListFilters.t)
        (env : Env) (s : Store) :
  let limit := Pos.to_nat (nullish (ListFilters.limit filters) 20%positive) in
  let matching := rev (filter (listWhere publishedColumn filters) (campaign s)) in
  (forall p, exists r,
      run (listCampaigns publishedColumn (atPage filters p)) env s = (inr r, s)
      /\ CampaignPage.total r = List.length matching
      /\ CampaignPage.totalPages r = ceilDiv (List.length matching) limit
      /\ (List.length (CampaignPage.campaigns r) <= limit)%nat
      /\ Forall (fun c => listWhere publishedColumn filters c = true)
                (CampaignPage.campaigns r)
      /\ ((CampaignPage.totalPages r < Pos.to_nat p)%nat -> CampaignPage.campaigns r = []))
  /\ List.concat (map (pageRows publishedColumn filters env s)
                      (seq 0 (ceilDiv (List.length matching) limit)))
     = matching
  /\ (ListFilters.studioId filters = Some "" -> ListFilters.createdBy filters = Some "" ->
      ListFilters.status filters = None -> ListFilters.published filters = None ->
      matching = rev (campaign s)).
Proof.
  intros limit matching.
  assert (Hpos : (0 < limit)%nat) by (subst limit; lia).
  split; [| split].
  - intros p. eexists. split; [apply listCampaigns_run |].
    fold limit. fold matching. simpl.
    split; [reflexivity |]. split; [reflexivity |].
    split; [apply firstn_le_length |].
    split.
    + apply Forall_forall. intros c Hc.
      apply in_firstn in Hc. apply in_skipn in Hc. subst matching.
      apply in_rev in Hc. apply filter_In in Hc. apply Hc.
    + intros Hbeyond.
      pose proof (ceilDiv_covers (List.length matching) limit Hpos) as Hcov.
      rewrite skipn_all_beyond; [now destruct limit | nia].
  - rewrite <- (pages_concat limit Hpos (ceilDiv (List.length matching) limit) matching)
      at 2 by (apply ceilDiv_covers; exact Hpos).
    f_equal. apply map_ext. intros k. unfold pageRows, outcome.
    fold (run (listCampaigns publishedColumn (atPage filters (Pos.of_succ_nat k))) env s).
    rewrite listCampaigns_run. simpl. fold limit. fold matching.
    rewrite SuccNat2Pos.id_succ. simpl. now rewrite Nat.sub_0_r.
  - intros H1 H2 H3 H4. subst matching. f_equal.
    assert (E : forall c, listWhere publishedColumn filters c = true).
    { intros c. unfold listWhere. rewrite H1, H2, H3, H4. reflexivity. }
    induction (campaign s) as [| c l IH]; [reflexivity |].
    simpl. now rewrite E, IH.
Qed.

Lemma listing_pages_partition_witness :
  List.concat (map (pageRows (fun _ => true) ListExample.byAlice Example.env
                             SweepExample.twoExpired)
                   (seq 0 2))
  = rev (campaign SweepExample.twoExpired).
Proof.
  destruct (listing_pages_partition (fun _ => true) ListExample.byAlice Example.env
              SweepExample.twoExpired) as (_ & H & _).
  vm_compute in H. vm_compute. exact H.
Defined.
